(** * Linac QA Management System: a shallow embedding of the request handlers

    The development follows [src/main.py], [src/models.py], [src/auth.py] and
    [src/database.py].  Table rows are records, a table is the list of its
    rows in insertion order, a database session is a state-and-exception
    monad over a committed and a pending copy of the tables, and every
    request handler is a computation in that monad.

    Conventions.
    - A [datetime.date] is its proleptic Gregorian ordinal
      ([date.toordinal()]): comparison of dates is comparison of ordinals and
      [(a - b).days] is their difference.  A [Date] column is ordered and
      compared as the dates it holds.
    - A Python [str] is a [string]; only ASCII white space, digits and
      letters are recognised by [strip], [int], [upper] and [strptime].
    - A JSON number is a binary64 value ([float]); [json.loads] also reads
      [NaN], [Infinity] and [-Infinity].  Python computes with the integer
      literals of a JSON body as integers; for integers of magnitude up to
      2^52 the deviation is the same value.
    - A [Float] column holds what SQLite reads back ([Sqlite.real]): a NaN
      is bound as NULL, which a [nullable=False] column refuses, and -0.0
      comes back as 0.0.
    - An [Integer] column holds an integer ([Z]); the 64-bit range of the
      engine is left out.
    - The [created_at] / [updated_at] / [last_login] time stamps, the password
      hash and the e-mail address are not part of the rows: no handler below
      branches on them. *)

From Stdlib Require Import ZArith List String Ascii Bool Lia Floats Permutation.
From Stdlib Require Import Sorting.Sorted.
From stdpp Require Import gmap strings list.

Local Open Scope string_scope.
Local Open Scope Z_scope.
Local Open Scope list_scope.

(** ** Python library functions used by the handlers *)

Module Py.

(** The exceptions a handler can leave uncaught. *)
Inductive exn :=
| KeyError (key : string)
| TypeError
| ValueError
| AttributeError
| ZeroDivisionError
| OverflowError
| IntegrityError (constraint : string)
| HTTPException (status_code : Z) (detail : string).

Inductive result (A : Type) :=
| Ok (a : A)
| Raise (e : exn).
Arguments Ok {A} a.
Arguments Raise {A} e.

(** *** [datetime.date] *)

Definition date := Z.

Definition MINYEAR : Z := 1.
Definition MAXYEAR : Z := 9999.
Definition MAXORDINAL : Z := 3652059.

Definition DAYS_IN_MONTH : list Z :=
  [-1; 31; 28; 31; 30; 31; 30; 31; 31; 30; 31; 30; 31].
Definition DAYS_BEFORE_MONTH : list Z :=
  [-1; 0; 31; 59; 90; 120; 151; 181; 212; 243; 273; 304; 334].

Definition is_leap (year : Z) : bool :=
  (year mod 4 =? 0) && (negb (year mod 100 =? 0) || (year mod 400 =? 0)).

Definition days_before_year (year : Z) : Z :=
  let y := year - 1 in y * 365 + y / 4 - y / 100 + y / 400.

Definition days_in_month (year month : Z) : Z :=
  if (month =? 2) && is_leap year then 29
  else nth (Z.to_nat month) DAYS_IN_MONTH 0.

Definition days_before_month (year month : Z) : Z :=
  nth (Z.to_nat month) DAYS_BEFORE_MONTH 0
  + (if (2 <? month) && is_leap year then 1 else 0).

Definition ymd2ord (year month day : Z) : date :=
  days_before_year year + days_before_month year month + day.

(** [date(year, month, day)]: the constructor checks its fields. *)
Definition mkdate (year month day : Z) : option date :=
  if (MINYEAR <=? year) && (year <=? MAXYEAR)
     && (1 <=? month) && (month <=? 12)
     && (1 <=? day) && (day <=? days_in_month year month)
  then Some (ymd2ord year month day) else None.

Definition DI400Y : Z := 146097.
Definition DI100Y : Z := 36524.
Definition DI4Y : Z := 1461.

(** [_ord2ymd]: the inverse of [ymd2ord] on valid ordinals. *)
Definition ord2ymd (ordinal : date) : Z * Z * Z :=
  let n := ordinal - 1 in
  let n400 := n / DI400Y in
  let n := n mod DI400Y in
  let year := n400 * 400 + 1 in
  let n100 := n / DI100Y in
  let n := n mod DI100Y in
  let n4 := n / DI4Y in
  let n := n mod DI4Y in
  let n1 := n / 365 in
  let n := n mod 365 in
  let year := year + n100 * 100 + n4 * 4 + n1 in
  if (n1 =? 4) || (n100 =? 4) then (year - 1, 12, 31)
  else
    let leapyear := (n1 =? 3) && (negb (n4 =? 24) || (n100 =? 3)) in
    let month := Z.shiftr (n + 50) 5 in
    let preceding :=
      nth (Z.to_nat month) DAYS_BEFORE_MONTH 0
      + (if (2 <? month) && leapyear then 1 else 0) in
    if n <? preceding then
      let month := month - 1 in
      let preceding :=
        preceding - (nth (Z.to_nat month) DAYS_IN_MONTH 0
                     + (if (month =? 2) && leapyear then 1 else 0)) in
      (year, month, n - preceding + 1)
    else (year, month, n - preceding + 1).

(** [d1 - d2] followed by [.days]. *)
Definition days_between (d1 d2 : date) : Z := d1 - d2.

(** [d - timedelta(days=n)]: the result has to be a date again. *)
Definition date_sub_days (d : date) (n : Z) : result date :=
  let o := d - n in
  if (1 <=? o) && (o <=? MAXORDINAL) then Ok o else Raise OverflowError.

Definition digit_char (d : Z) : ascii := ascii_of_nat (48 + Z.to_nat d).

Definition fmt02 (n : Z) : string :=
  String (digit_char (n / 10)) (String (digit_char (n mod 10)) "").

Definition fmt04 (n : Z) : string :=
  String (digit_char (n / 1000))
    (String (digit_char (n / 100 mod 10)) (fmt02 (n mod 100))).

(** [d.isoformat()], which is also [str(d)]. *)
Definition isoformat (d : date) : string :=
  let '(y, m, dd) := ord2ymd d in
  fmt04 y +:+ "-" +:+ fmt02 m +:+ "-" +:+ fmt02 dd.

Definition digit (c : ascii) : option Z :=
  let n := Z.of_nat (nat_of_ascii c) in
  if (48 <=? n) && (n <=? 57) then Some (n - 48) else None.

(** [%m]: the pattern [1[0-2]|0[1-9]|[1-9]]. *)
Definition parse_month (s : string) : option Z :=
  match s with
  | String a "" =>
      match digit a with
      | Some x => if 1 <=? x then Some x else None
      | None => None
      end
  | String a (String b "") =>
      match digit a, digit b with
      | Some x, Some y =>
          let v := 10 * x + y in
          if (1 <=? v) && (v <=? 12) then Some v else None
      | _, _ => None
      end
  | _ => None
  end.

(** [%d]: the pattern [3[0-1]|[1-2]\d|0[1-9]|[1-9]| [1-9]]. *)
Definition parse_day (s : string) : option Z :=
  match s with
  | String a "" =>
      match digit a with
      | Some x => if 1 <=? x then Some x else None
      | None => None
      end
  | String a (String b "") =>
      match digit b with
      | Some y =>
          if Ascii.eqb a " " then (if 1 <=? y then Some y else None)
          else
            match digit a with
            | Some x =>
                let v := 10 * x + y in
                if (1 <=? v) && (v <=? 31) then Some v else None
            | None => None
            end
      | None => None
      end
  | _ => None
  end.

(** The text before the first ["-"] and the text after it. *)
Fixpoint split_dash (s : string) : option (string * string) :=
  match s with
  | "" => None
  | String c rest =>
      if Ascii.eqb c "-" then Some ("", rest)
      else
        match split_dash rest with
        | Some (a, b) => Some (String c a, b)
        | None => None
        end
  end.

(** [datetime.strptime(s, "%Y-%m-%d").date()]; [s] is what [dict.get]
    returned, so it can be [None]. *)
Definition strptime_date (s : option string) : result date :=
  match s with
  | None => Raise TypeError
  | Some (String y1 (String y2 (String y3 (String y4 (String dash rest))))) =>
      match digit y1, digit y2, digit y3, digit y4, split_dash rest with
      | Some a, Some b, Some c, Some d, Some (ms, ds) =>
          if Ascii.eqb dash "-" then
            match parse_month ms, parse_day ds with
            | Some m, Some dd =>
                match mkdate (1000 * a + 100 * b + 10 * c + d) m dd with
                | Some o => Ok o
                | None => Raise ValueError
                end
            | _, _ => Raise ValueError
            end
          else Raise ValueError
      | _, _, _, _, _ => Raise ValueError
      end
  | Some _ => Raise ValueError
  end.

(** *** [str] and [int] *)

(** White space for [str.strip]. *)
Definition is_space (c : ascii) : bool :=
  let n := Z.of_nat (nat_of_ascii c) in
  ((9 <=? n) && (n <=? 13)) || ((28 <=? n) && (n <=? 32)).

(** White space for [int]: the separators 28 to 31 are not accepted. *)
Definition is_int_space (c : ascii) : bool :=
  let n := Z.of_nat (nat_of_ascii c) in
  ((9 <=? n) && (n <=? 13)) || (n =? 32).

Fixpoint lstrip (sp : ascii -> bool) (s : string) : string :=
  match s with
  | "" => ""
  | String c rest => if sp c then lstrip sp rest else s
  end.

Fixpoint rstrip (sp : ascii -> bool) (s : string) : string :=
  match s with
  | "" => ""
  | String c rest =>
      match rstrip sp rest with
      | "" => if sp c then "" else String c ""
      | r => String c r
      end
  end.

Definition strip (s : string) : string := rstrip is_space (lstrip is_space s).

(** [s.split(",")] *)
Fixpoint split_comma (s : string) : list string :=
  match s with
  | "" => [""]
  | String c rest =>
      if Ascii.eqb c "," then "" :: split_comma rest
      else
        match split_comma rest with
        | w :: ws => String c w :: ws
        | [] => [String c ""]
        end
  end.

(** Truth value of a [str]. *)
Definition truthy (s : string) : bool :=
  match s with "" => false | _ => true end.

Definition upper_char (c : ascii) : ascii :=
  let n := nat_of_ascii c in
  if (97 <=? n)%nat && (n <=? 122)%nat then ascii_of_nat (n - 32) else c.

Fixpoint upper (s : string) : string :=
  match s with
  | "" => ""
  | String c rest => String (upper_char c) (upper rest)
  end.

(** Digits with single underscores between them, most significant first;
    [acc] is the value read so far and [sep] tells whether an underscore
    was just read. *)
Fixpoint int_digits (s : string) (acc : Z) (sep : bool) : option Z :=
  match s with
  | "" => if sep then None else Some acc
  | String c rest =>
      match digit c with
      | Some d => int_digits rest (10 * acc + d) false
      | None =>
          if Ascii.eqb c "_" && negb sep then int_digits rest acc true
          else None
      end
  end.

Definition int_unsigned (s : string) : option Z :=
  match s with
  | String c _ =>
      match digit c with
      | Some _ => int_digits s 0 false
      | None => None
      end
  | "" => None
  end.

(** [int(s)] for the value [s] of a form field. *)
Definition int (s : option string) : result Z :=
  match s with
  | None => Raise TypeError
  | Some s =>
      let body := rstrip is_int_space (lstrip is_int_space s) in
      let r :=
        match body with
        | String "-" rest => option_map Z.opp (int_unsigned rest)
        | String "+" rest => int_unsigned rest
        | _ => int_unsigned body
        end in
      match r with
      | Some z => Ok z
      | None => Raise ValueError
      end
  end.

End Py.

(** ** The tables of [models.py] *)

Module User.
Record t := {
  id : Z;
  username : string;
  full_name : string;
  role : string;
  active : bool
}.
End User.

Module Unit.
Record t := {
  id : Z;
  name : string;
  manufacturer : option string;
  model : option string;
  serial_number : option string;
  location : option string;
  install_date : option Py.date;
  photon_energies : list string;
  electron_energies : list string;
  fff_energies : list string;
  active : bool
}.

Definition all_photon_energies (self : t) : list string :=
  photon_energies self ++ fff_energies self.
End Unit.

Module QATest.
Record t := {
  id : Z;
  report_id : Z;
  test_id : string;
  status : string;
  notes : string;
  measurement : option float
}.
End QATest.

Module QAReport.
Record t := {
  id : Z;
  date : Py.date;
  qa_type : string;
  unit_id : Z;
  performer : string;
  witness : string;
  comments : string;
  signature : string;
  created_by : Z
}.

(** The [tests] relationship: the rows of [qa_tests] that point at the
    report. *)
Definition tests (all : list QATest.t) (self : t) : list QATest.t :=
  List.filter (fun x => QATest.report_id x =? id self) all.

Definition pass_count (all : list QATest.t) (self : t) : Z :=
  Z.of_nat (length (List.filter (fun x => String.eqb (QATest.status x) "pass")
                      (tests all self))).

Definition fail_count (all : list QATest.t) (self : t) : Z :=
  Z.of_nat (length (List.filter (fun x => String.eqb (QATest.status x) "fail")
                      (tests all self))).

Definition total_tests (all : list QATest.t) (self : t) : Z :=
  Z.of_nat (length (List.filter
                      (fun x => String.eqb (QATest.status x) "pass"
                                || String.eqb (QATest.status x) "fail")
                      (tests all self))).
End QAReport.

Module OutputReading.
Record t := {
  id : Z;
  date : Py.date;
  unit_id : Z;
  energy : string;
  reading : float;
  reference : float;
  deviation : option float
}.
End OutputReading.

Module AuditLog.
Record t := {
  id : Z;
  user : string;
  action : string;
  details : string;
  ip_address : string
}.
End AuditLog.

(** ** SASQART test definitions (reference data) *)

Module TestDef.
Record t := {
  id : string;
  description : string;
  tolerance : string;
  action : string
}.
End TestDef.

Definition test_def (i d t a : string) : TestDef.t :=
  {| TestDef.id := i; TestDef.description := d;
     TestDef.tolerance := t; TestDef.action := a |}.

Definition SASQART_daily : list TestDef.t := [
  test_def "DL1" "Door interlock" "Functional" "Functional";
  test_def "DL2" "Radiation beam status indicators" "Functional" "Functional";
  test_def "DL3" "Audio-visual monitor" "Functional" "Functional";
  test_def "DL4" "Gantry/collimator motion interlock" "Functional" "Functional";
  test_def "DL5" "Couch motion/brakes" "Functional" "Functional";
  test_def "DL6" "Radiation area monitors" "Functional" "Functional";
  test_def "DL7" "Beam interrupt devices" "Functional" "Functional";
  test_def "DL8" "Output constancy – photons" "2.00%" "3.00%";
  test_def "DL9" "Output constancy – electrons" "2.00%" "3.00%"
].

Definition SASQART_monthly : list TestDef.t := [
  test_def "ML1" "Emergency off switches" "Functional" "Functional";
  test_def "ML2" "Lasers and crosswires" "1 mm" "2 mm";
  test_def "ML3" "Optical distance indicator" "1 mm" "2 mm";
  test_def "ML4" "Radiation/light field size" "1 mm" "2 mm";
  test_def "ML5" "Physical/dynamic wedge factors" "1%" "2%";
  test_def "ML6" "Gantry angle indicators" "0.5°" "1°";
  test_def "ML7" "Collimator angle indicators" "0.5°" "1°";
  test_def "ML8" "Couch position indicators" "1 mm" "2 mm";
  test_def "ML9" "Couch rotation isocentre" "1 mm" "2 mm";
  test_def "ML10" "Couch angle indicator" "0.5°" "1°";
  test_def "ML11" "Collimator rotation isocentre" "1 mm" "2 mm";
  test_def "ML12" "Light/radiation field coincidence" "1 mm" "2 mm";
  test_def "ML13" "Beam flatness constancy" "1%" "2%";
  test_def "ML14" "Beam symmetry constancy" "1%" "2%";
  test_def "ML15" "Relative dosimetry constancy" "1%" "2%";
  test_def "ML16" "Accuracy of QA records" "Complete" "Complete"
].

Definition SASQART_quarterly : list TestDef.t := [
  test_def "Q1" "Central axis depth dose reproducibility" "1%/2mm" "2%/3mm"
].

Definition SASQART_annual : list TestDef.t := [
  test_def "AL1" "Accessory mechanical integrity" "Safe" "Safe";
  test_def "AL2" "Accessory interlocks" "Functional" "Functional";
  test_def "AL3" "ODI at extended distances" "1 mm" "2 mm";
  test_def "AL4" "Light/rad coincidence vs gantry" "1 mm" "2 mm";
  test_def "AL5" "Field size vs gantry angle" "1 mm" "2 mm";
  test_def "AL6" "TRS-398 calibration" "1%" "2%";
  test_def "AL7" "Output factors" "1%" "2%";
  test_def "AL8" "Wedge transmission and profiles" "1%" "2%";
  test_def "AL9" "Accessory transmission factors" "1%" "2%";
  test_def "AL10" "Output vs gantry angle" "1%" "2%";
  test_def "AL11" "Symmetry vs gantry angle" "1%" "2%";
  test_def "AL12" "Monitor unit linearity" "1%" "2%";
  test_def "AL13" "Monitor unit end effect" "< 1 MU" "< 2 MU";
  test_def "AL14" "Collimator rotation isocentre" "1 mm" "2 mm";
  test_def "AL15" "Gantry rotation isocentre" "1 mm" "2 mm";
  test_def "AL16" "Couch rotation isocentre" "1 mm" "2 mm";
  test_def "AL17" "Coincidence of axes" "1 mm" "2 mm";
  test_def "AL18" "Independent review" "Complete" "Complete"
].

Definition SASQART_items : list (string * list TestDef.t) := [
  ("daily", SASQART_daily);
  ("monthly", SASQART_monthly);
  ("quarterly", SASQART_quarterly);
  ("annual", SASQART_annual)
].

Definition SASQART_TESTS : gmap string (list TestDef.t) :=
  list_to_map SASQART_items.


(** ** The database session of [database.py]

    [SessionLocal] is opened with [autocommit=False]: rows written through
    the session are pending until [commit], and [get_db] closes the session
    when the request ends, which discards what is still pending.  The engine
    is SQLite as [DATABASE_URL] configures it: [UNIQUE] and [NOT NULL] are
    checked when a row is written, a [ForeignKey] is not (no
    [PRAGMA foreign_keys] is issued), and an integer primary key is one more
    than the largest key in the table. *)

Record Store := {
  users : list User.t;
  units : list Unit.t;
  qa_reports : list QAReport.t;
  qa_tests : list QATest.t;
  output_readings : list OutputReading.t;
  audit_log : list AuditLog.t
}.

Definition empty_store : Store :=
  {| users := []; units := []; qa_reports := []; qa_tests := [];
     output_readings := []; audit_log := [] |}.

Record Session := {
  committed : Store;
  pending : Store
}.

Definition M (A : Type) : Type := Session -> Py.result A * Session.

Definition ret {A : Type} (a : A) : M A := fun s => (Py.Ok a, s).

Definition bind {A B : Type} (c : M A) (k : A -> M B) : M B :=
  fun s =>
    match c s with
    | (Py.Ok a, s') => k a s'
    | (Py.Raise e, s') => (Py.Raise e, s')
    end.

Definition raise {A : Type} (e : Py.exn) : M A := fun s => (Py.Raise e, s).

Definition lift {A : Type} (r : Py.result A) : M A := fun s => (r, s).

Notation "x <- c1 ;; c2" := (bind c1 (fun x => c2))
  (at level 20, c1 at level 99, c2 at level 200, only parsing).
Notation "c1 ;; c2" := (bind c1 (fun _ => c2))
  (at level 100, c2 at level 200, right associativity, only parsing).

(** [db.query(...)]: a read of the session's view of the tables. *)
Definition query {A : Type} (f : Store -> A) : M A :=
  fun s => (Py.Ok (f (pending s)), s).

(** A write inside the open transaction. *)
Definition write (f : Store -> Store) : M unit :=
  fun s => (Py.Ok tt, {| committed := committed s; pending := f (pending s) |}).

(** [db.commit()] *)
Definition commit : M unit :=
  fun s => (Py.Ok tt, {| committed := pending s; pending := pending s |}).

(** One request: [get_db] opens a session on the database, the handler
    runs, and the session is closed. *)
Definition serve {A : Type} (handler : M A) (db : Store) : Py.result A * Store :=
  let '(r, s) := handler {| committed := db; pending := db |} in
  (r, committed s).

Fixpoint for_each {A : Type} (l : list A) (body : A -> M unit) : M unit :=
  match l with
  | [] => ret tt
  | x :: l' => body x ;; for_each l' body
  end.

Definition next_id (ids : list Z) : Z := 1 + fold_right Z.max 0 ids.

(** [.order_by(key)]: [le a b] says that [a] may come before [b].  The sort
    is an insertion sort that keeps rows with equal keys in table order. *)
Fixpoint insert_by {A : Type} (le : A -> A -> bool) (x : A) (l : list A) : list A :=
  match l with
  | [] => [x]
  | y :: l' => if le x y then x :: l else y :: insert_by le x l'
  end.

Definition order_by {A : Type} (le : A -> A -> bool) (l : list A) : list A :=
  fold_right (insert_by le) [] l.

(** [.first()] *)
Definition first {A : Type} (l : list A) : option A := head l.

(** [dict[key]] and [dict.get(key, default)] *)
Definition getitem {A : Type} (d : gmap string A) (key : string) : Py.result A :=
  match d !! key with
  | Some a => Py.Ok a
  | None => Py.Raise (Py.KeyError key)
  end.

Definition get_default (d : gmap string string) (key dflt : string) : string :=
  default dflt (d !! key).

(** *** Writes, with the constraints of [models.py] *)

(** [db.add(report); db.flush()]: [performer] is [nullable=False]. *)
Definition add_flush_qa_report (date : Py.date) (qa_type : string) (unit_id : Z)
    (performer : option string) (witness comments signature : string)
    (created_by : Z) : M QAReport.t :=
  match performer with
  | None => raise (Py.IntegrityError "NOT NULL constraint failed: qa_reports.performer")
  | Some performer =>
      db <- query (fun db => db) ;;
      let report :=
        {| QAReport.id := next_id (map QAReport.id (qa_reports db));
           QAReport.date := date; QAReport.qa_type := qa_type;
           QAReport.unit_id := unit_id; QAReport.performer := performer;
           QAReport.witness := witness; QAReport.comments := comments;
           QAReport.signature := signature; QAReport.created_by := created_by |} in
      write (fun db =>
        {| users := users db; units := units db;
           qa_reports := qa_reports db ++ [report];
           qa_tests := qa_tests db; output_readings := output_readings db;
           audit_log := audit_log db |}) ;;
      ret report
  end.

(** [db.add(test)]: the row is written with the next commit; nothing reads
    the table in between. *)
Definition add_qa_test (report_id : Z) (test_id status notes : string) : M unit :=
  write (fun db =>
    {| users := users db; units := units db; qa_reports := qa_reports db;
       qa_tests := qa_tests db ++
         [{| QATest.id := next_id (map QATest.id (qa_tests db));
             QATest.report_id := report_id; QATest.test_id := test_id;
             QATest.status := status; QATest.notes := notes;
             QATest.measurement := None |}];
       output_readings := output_readings db; audit_log := audit_log db |}).

(** What SQLite keeps of a float bound to a column of type [Float].  The
    driver binds a NaN as NULL.  A zero is kept as the integer 0, so that
    -0.0 is read back as 0.0; every other value, the infinities included, is
    read back as it was written. *)
Module Sqlite.
Definition read_back (x : float) : float :=
  if PrimFloat.eqb x 0 then 0%float else x.

Definition real (x : float) : option float :=
  if PrimFloat.is_nan x then None else Some (read_back x).
End Sqlite.

(** The [output_readings] table: [reading] and [reference] are
    [nullable=False] and [deviation] is nullable.  The row returned holds
    the values of the columns as the session loads them again after the
    commit. *)
Definition add_output_reading (date : Py.date) (unit_id : Z) (energy : string)
    (reading reference deviation : float) : M OutputReading.t :=
  db <- query (fun db => db) ;;
  match Sqlite.real reading, Sqlite.real reference with
  | None, _ =>
      raise (Py.IntegrityError "NOT NULL constraint failed: output_readings.reading")
  | Some _, None =>
      raise (Py.IntegrityError "NOT NULL constraint failed: output_readings.reference")
  | Some reading, Some reference =>
      let row :=
        {| OutputReading.id := next_id (map OutputReading.id (output_readings db));
           OutputReading.date := date; OutputReading.unit_id := unit_id;
           OutputReading.energy := energy; OutputReading.reading := reading;
           OutputReading.reference := reference;
           OutputReading.deviation := Sqlite.real deviation |} in
      write (fun db =>
        {| users := users db; units := units db; qa_reports := qa_reports db;
           qa_tests := qa_tests db;
           output_readings := output_readings db ++ [row];
           audit_log := audit_log db |}) ;;
      ret row
  end.

(** The [units] table: [name] is [unique=True, nullable=False].  [self] is
    the key of the row being rewritten, if any: the other rows are the ones
    the new name is compared with. *)
Definition other_unit (self : option Z) (u : Unit.t) : bool :=
  match self with
  | Some i => negb (Unit.id u =? i)
  | None => true
  end.

Definition name_taken (self : option Z) (name : string) (us : list Unit.t) : bool :=
  existsb (fun u => other_unit self u && String.eqb (Unit.name u) name) us.

Definition check_unit_name (self : option Z) (name : option string) : M string :=
  match name with
  | None => raise (Py.IntegrityError "NOT NULL constraint failed: units.name")
  | Some name =>
      taken <- query (fun db => name_taken self name (units db)) ;;
      if taken
      then raise (Py.IntegrityError "UNIQUE constraint failed: units.name")
      else ret name
  end.

Definition set_units (f : list Unit.t -> list Unit.t) : M unit :=
  write (fun db =>
    {| users := users db; units := f (units db); qa_reports := qa_reports db;
       qa_tests := qa_tests db; output_readings := output_readings db;
       audit_log := audit_log db |}).

(** INSERT of a new unit; [active] takes its column default. *)
Definition insert_unit (name manufacturer model serial_number location : option string)
    (install_date : option Py.date)
    (photon_energies electron_energies fff_energies : list string) : M Unit.t :=
  name <- check_unit_name None name ;;
  db <- query (fun db => db) ;;
  let unit :=
    {| Unit.id := next_id (map Unit.id (units db)); Unit.name := name;
       Unit.manufacturer := manufacturer; Unit.model := model;
       Unit.serial_number := serial_number; Unit.location := location;
       Unit.install_date := install_date;
       Unit.photon_energies := photon_energies;
       Unit.electron_energies := electron_energies;
       Unit.fff_energies := fff_energies; Unit.active := true |} in
  set_units (fun us => us ++ [unit]) ;;
  ret unit.

(** The row [u] after the row with key [key] has been rewritten to [unit]. *)
Definition replace_unit (key : Z) (unit u : Unit.t) : Unit.t :=
  if Unit.id u =? key then unit else u.

(** UPDATE of the unit with key [Unit.id old]. *)
Definition update_unit (old : Unit.t)
    (name manufacturer model serial_number location : option string)
    (install_date : option Py.date)
    (photon_energies electron_energies fff_energies : list string) : M Unit.t :=
  name <- check_unit_name (Some (Unit.id old)) name ;;
  let unit :=
    {| Unit.id := Unit.id old; Unit.name := name;
       Unit.manufacturer := manufacturer; Unit.model := model;
       Unit.serial_number := serial_number; Unit.location := location;
       Unit.install_date := install_date;
       Unit.photon_energies := photon_energies;
       Unit.electron_energies := electron_energies;
       Unit.fff_energies := fff_energies; Unit.active := Unit.active old |} in
  set_units (map (replace_unit (Unit.id old) unit)) ;;
  ret unit.

Definition add_audit_log (user action details ip_address : string) : M unit :=
  write (fun db =>
    {| users := users db; units := units db; qa_reports := qa_reports db;
       qa_tests := qa_tests db; output_readings := output_readings db;
       audit_log := audit_log db ++
         [{| AuditLog.id := next_id (map AuditLog.id (audit_log db));
             AuditLog.user := user; AuditLog.action := action;
             AuditLog.details := details; AuditLog.ip_address := ip_address |}] |}).

Definition add_user (username full_name role : string) (active : bool) : M unit :=
  write (fun db =>
    {| users := users db ++
         [{| User.id := next_id (map User.id (users db));
             User.username := username; User.full_name := full_name;
             User.role := role; User.active := active |}];
       units := units db; qa_reports := qa_reports db;
       qa_tests := qa_tests db; output_readings := output_readings db;
       audit_log := audit_log db |}).

(** ** Requests and responses *)

(** The JSON body of [POST /api/output-reading]: an object with these five
    keys.  The two measurements are what [json.loads] makes of a JSON
    number: a binary64 value, which can be a NaN or an infinity. *)
Module ReadingData.
Record t := {
  date : string;
  unit_id : Z;
  energy : string;
  reading : float;
  reference : float
}.
End ReadingData.

(** What a handler reads of a request.  [session_user_id] is the [user_id]
    of the session cookie when the cookie is present and its token verifies,
    and [None] otherwise. *)
Record Request := {
  session_user_id : option Z;
  client_host : string;
  form : gmap string string;
  json : option ReadingData.t
}.

Module QAStatus.
Record t := {
  unit : Unit.t;
  last_daily : option Py.date;
  last_monthly : option Py.date;
  daily_due : bool;
  monthly_due : bool
}.
End QAStatus.

Inductive response :=
| RedirectResponse (url : string)
| DashboardPage (user : User.t) (units : list Unit.t)
    (qa_status : list QAStatus.t) (today : Py.date)
| QAFormPage (user : User.t) (qa_type : string) (tests : list TestDef.t)
    (units : list Unit.t) (selected_unit : option Unit.t) (today : string)
| HistoryPage (user : User.t) (reports : list QAReport.t) (units : list Unit.t)
    (start_date end_date : Py.date) (selected_qa_type : string)
    (selected_unit_id : option Z)
| TrendsPage (user : User.t) (units : list Unit.t) (selected_unit_id : option Z)
    (selected_energy : option string) (days : Z)
    (trend_data : list (string * option float))
| UnitsPage (user : User.t) (units : list Unit.t)
| ReadingSaved (id : Z) (deviation : option float).

(** ** [auth.py] *)

(** [get_current_user(request, db)]: the user the session cookie names, if
    the account exists and is active. *)
Definition get_current_user (request : Request) (db : Store) : option User.t :=
  match session_user_id request with
  | None => None
  | Some user_id =>
      match first (List.filter (fun u => User.id u =? user_id) (users db)) with
      | None => None
      | Some user => if User.active user then Some user else None
      end
  end.

Definition log_audit (user action details ip_address : string) : M unit :=
  add_audit_log user action details ip_address ;;
  commit.

Definition create_default_admin : M unit :=
  n <- query (fun db => length (users db)) ;;
  if (n =? 0)%nat then
    add_user "admin" "System Administrator" "admin" true ;;
    commit
  else ret tt.

(** ** [main.py] *)

Definition create_default_units : M unit :=
  n <- query (fun db => length (units db)) ;;
  if (n =? 0)%nat then
    insert_unit (Some "Linac 1") (Some "Varian") (Some "Clinac") None None None
      ["6MV"; "15MV"] ["6MeV"; "9MeV"; "12MeV"; "15MeV"] [] ;;
    insert_unit (Some "TrueBeam") (Some "Varian") (Some "TrueBeam") None None None
      ["6MV"; "10MV"; "15MV"] ["6MeV"; "9MeV"; "12MeV"; "15MeV"; "18MeV"]
      ["6MV FFF"; "10MV FFF"] ;;
    commit
  else ret tt.

Definition startup : M unit :=
  create_default_admin ;;
  create_default_units.

Definition active_units (db : Store) : list Unit.t :=
  List.filter Unit.active (units db).

(** [db.query(Unit).filter(Unit.id == unit_id).first()] *)
Definition unit_by_id (unit_id : Z) (db : Store) : option Unit.t :=
  first (List.filter (fun u => Unit.id u =? unit_id) (units db)).

(** The most recent report of one type for one unit:
    [filter(unit_id == .., qa_type == ..).order_by(date.desc()).first()]. *)
Definition last_report (unit_id : Z) (qa_type : string) (db : Store)
    : option QAReport.t :=
  first
    (order_by (fun a b => QAReport.date b <=? QAReport.date a)
       (List.filter
          (fun r => (QAReport.unit_id r =? unit_id)
                    && String.eqb (QAReport.qa_type r) qa_type)
          (qa_reports db))).

Definition qa_status_of (today : Py.date) (db : Store) (unit : Unit.t) : QAStatus.t :=
  let last_daily := last_report (Unit.id unit) "daily" db in
  let last_monthly := last_report (Unit.id unit) "monthly" db in
  {| QAStatus.unit := unit;
     QAStatus.last_daily := option_map QAReport.date last_daily;
     QAStatus.last_monthly := option_map QAReport.date last_monthly;
     QAStatus.daily_due :=
       match last_daily with
       | None => true
       | Some r => QAReport.date r <? today
       end;
     QAStatus.monthly_due :=
       match last_monthly with
       | None => true
       | Some r => 30 <? Py.days_between today (QAReport.date r)
       end |}.

(** [GET /].  The panel of the ten most recently created reports is ordered
    by a time stamp and is left out. *)
Definition dashboard (today : Py.date) (request : Request) : M response :=
  user <- query (get_current_user request) ;;
  match user with
  | None => ret (RedirectResponse "/login")
  | Some user =>
      units <- query active_units ;;
      qa_status <- query (fun db => map (qa_status_of today db) units) ;;
      ret (DashboardPage user units qa_status today)
  end.

(** [GET /qa/{qa_type}] *)
Definition qa_form (today : Py.date) (request : Request) (qa_type : string)
    (unit_id : option Z) : M response :=
  user <- query (get_current_user request) ;;
  match user with
  | None => ret (RedirectResponse "/login")
  | Some user =>
      match SASQART_TESTS !! qa_type with
      | None => raise (Py.HTTPException 404 "Invalid QA type")
      | Some tests =>
          units <- query active_units ;;
          selected_unit <-
            match unit_id with
            | Some i =>
                if i =? 0 then ret None
                else query (unit_by_id i)
            | None => ret None
            end ;;
          ret (QAFormPage user qa_type tests units selected_unit (Py.isoformat today))
      end
  end.

(** [POST /qa/{qa_type}] *)
Definition save_qa_report (request : Request) (qa_type : string) : M response :=
  user <- query (get_current_user request) ;;
  match user with
  | None => ret (RedirectResponse "/login")
  | Some user =>
      let form_data := form request in
      date <- lift (Py.strptime_date (form_data !! "qa_date")) ;;
      unit_id <- lift (Py.int (form_data !! "unit_id")) ;;
      report <- add_flush_qa_report date qa_type unit_id
                  (form_data !! "performer")
                  (get_default form_data "witness" "")
                  (get_default form_data "comments" "")
                  (get_default form_data "signature" "")
                  (User.id user) ;;
      tests <- lift (getitem SASQART_TESTS qa_type) ;;
      for_each tests (fun test_def =>
        let test_id := TestDef.id test_def in
        add_qa_test (QAReport.id report) test_id
          (get_default form_data ("status_" +:+ test_id) "")
          (get_default form_data ("notes_" +:+ test_id) "")) ;;
      commit ;;
      unit <- query (unit_by_id (QAReport.unit_id report)) ;;
      unit_name <-
        match unit with
        | Some unit => ret (Unit.name unit)
        | None => raise Py.AttributeError
        end ;;
      log_audit (User.username user) "SAVE_QA"
        (Py.upper qa_type +:+ " QA saved for " +:+ unit_name +:+ " on "
         +:+ Py.isoformat (QAReport.date report))
        (client_host request) ;;
      ret (RedirectResponse "/history")
  end.

(** [GET /history].  [start_date] and [end_date] are the ISO dates of the
    query string ([None] when the parameter is absent or empty); the engine
    compares them with the ISO text of the [date] column, which is the order
    of the dates. *)
Definition history_page (today : Py.date) (request : Request)
    (start_date end_date : option Py.date) (qa_type : option string)
    (unit_id : option Z) : M response :=
  user <- query (get_current_user request) ;;
  match user with
  | None => ret (RedirectResponse "/login")
  | Some user =>
      let end_date := default today end_date in
      start_date <-
        match start_date with
        | Some d => ret d
        | None => lift (Py.date_sub_days today 30)
        end ;;
      reports <- query (fun db =>
        order_by (fun a b => QAReport.date b <=? QAReport.date a)
          (List.filter
             (fun r =>
                (start_date <=? QAReport.date r)
                && (QAReport.date r <=? end_date)
                && match qa_type with
                   | Some t =>
                       if Py.truthy t && negb (String.eqb t "all")
                       then String.eqb (QAReport.qa_type r) t else true
                   | None => true
                   end
                && match unit_id with
                   | Some i => if i =? 0 then true else QAReport.unit_id r =? i
                   | None => true
                   end)
             (qa_reports db))) ;;
      units <- query active_units ;;
      ret (HistoryPage user reports units start_date end_date
             (match qa_type with
              | Some t => if Py.truthy t then t else "all"
              | None => "all"
              end)
             unit_id)
  end.

(** The readings behind [GET /trends]:
    [filter(unit_id == .., energy == .., date >= start_date).order_by(date)]. *)
Definition trend_readings (unit_id : Z) (energy : string) (start_date : Py.date)
    (db : Store) : list OutputReading.t :=
  order_by (fun a b => OutputReading.date a <=? OutputReading.date b)
    (List.filter
       (fun r => (OutputReading.unit_id r =? unit_id)
                 && String.eqb (OutputReading.energy r) energy
                 && (start_date <=? OutputReading.date r))
       (output_readings db)).

Definition trend_point (r : OutputReading.t) : string * option float :=
  (Py.isoformat (OutputReading.date r), OutputReading.deviation r).

(** [GET /trends]; [trend_data] is the list that is handed to [json.dumps]. *)
Definition trends_page (today : Py.date) (request : Request)
    (unit_id : option Z) (energy : option string) (days : Z) : M response :=
  user <- query (get_current_user request) ;;
  match user with
  | None => ret (RedirectResponse "/login")
  | Some user =>
      units <- query active_units ;;
      trend_data <-
        match unit_id, energy with
        | Some i, Some e =>
            if negb (i =? 0) && Py.truthy e then
              start_date <- lift (Py.date_sub_days today days) ;;
              readings <- query (trend_readings i e start_date) ;;
              ret (map trend_point readings)
            else ret []
        | _, _ => ret []
        end ;;
      ret (TrendsPage user units unit_id energy days trend_data)
  end.

Definition parse_energies (field : option string) : list string :=
  List.filter Py.truthy (map Py.strip (Py.split_comma (default "" field))).

Definition str_of_option (s : option string) : string := default "None" s.

(** [POST /units].  The unit is an existing row, or [None] when the key is
    not in the table, or a new object; its attributes are assigned and the
    row is written by [db.commit()]. *)
Definition save_unit (request : Request) : M response :=
  user <- query (get_current_user request) ;;
  match user with
  | None => ret (RedirectResponse "/login")
  | Some user =>
      let form_data := form request in
      let unit_id := form_data !! "unit_id" in
      let existing :=
        match unit_id with
        | Some i => Py.truthy i && negb (String.eqb i "new")
        | None => false
        end in
      old <-
        (if existing then
           i <- lift (Py.int unit_id) ;;
           unit <- query (unit_by_id i) ;;
           match unit with
           | Some unit => ret (Some unit)
           | None => raise Py.AttributeError
           end
         else ret None) ;;
      let install_date := form_data !! "install_date" in
      install_date <-
        match install_date with
        | Some d =>
            if Py.truthy d then
              parsed <- lift (Py.strptime_date (Some d)) ;; ret (Some parsed)
            else ret (old ≫= Unit.install_date)
        | None => ret (old ≫= Unit.install_date)
        end ;;
      let photon_energies := parse_energies (form_data !! "photon_energies") in
      let electron_energies := parse_energies (form_data !! "electron_energies") in
      let fff_energies := parse_energies (form_data !! "fff_energies") in
      unit <-
        match old with
        | Some old =>
            update_unit old (form_data !! "name") (form_data !! "manufacturer")
              (form_data !! "model") (form_data !! "serial_number")
              (form_data !! "location") install_date
              photon_energies electron_energies fff_energies
        | None =>
            insert_unit (form_data !! "name") (form_data !! "manufacturer")
              (form_data !! "model") (form_data !! "serial_number")
              (form_data !! "location") install_date
              photon_energies electron_energies fff_energies
        end ;;
      commit ;;
      log_audit (User.username user) "SAVE_UNIT"
        ("Unit configuration saved: " +:+ Unit.name unit +:+ " (S/N: "
         +:+ str_of_option (Unit.serial_number unit) +:+ ")")
        (client_host request) ;;
      ret (RedirectResponse "/units")
  end.

(** [GET /units] *)
Definition units_page (request : Request) : M response :=
  user <- query (get_current_user request) ;;
  match user with
  | None => ret (RedirectResponse "/login")
  | Some user =>
      units <- query units ;;
      ret (UnitsPage user units)
  end.

(** Python's [x / y] on floats. *)
Definition truediv (x y : float) : Py.result float :=
  if PrimFloat.eqb y 0%float then Py.Raise Py.ZeroDivisionError
  else Py.Ok (x / y)%float.

(** [POST /api/output-reading].  [reading.id] and [reading.deviation] of
    the answer are read after the commit, which makes the session load the
    row again. *)
Definition save_output_reading (request : Request) : M response :=
  user <- query (get_current_user request) ;;
  match user with
  | None => raise (Py.HTTPException 401 "Authentication required")
  | Some user =>
      data <- match json request with
              | Some data => ret data
              | None => raise Py.ValueError
              end ;;
      date <- lift (Py.strptime_date (Some (ReadingData.date data))) ;;
      quotient <- lift (truediv (ReadingData.reading data - ReadingData.reference data)%float
                          (ReadingData.reference data)) ;;
      reading <- add_output_reading date (ReadingData.unit_id data)
                   (ReadingData.energy data) (ReadingData.reading data)
                   (ReadingData.reference data) (quotient * 100)%float ;;
      commit ;;
      ret (ReadingSaved (OutputReading.id reading) (OutputReading.deviation reading))
  end.

(** ** The operations on the store

    The handlers of [main.py] that read or write the QA tables.  The
    remaining routes (login, logout, user administration, audit page, backup
    and export) write the [users] and [audit_log] tables only. *)
Inductive operation :=
| Startup
| Dashboard (request : Request)
| QAForm (request : Request) (qa_type : string) (unit_id : option Z)
| SaveQAReport (request : Request) (qa_type : string)
| History (request : Request) (start_date end_date : option Py.date)
    (qa_type : option string) (unit_id : option Z)
| Trends (request : Request) (unit_id : option Z) (energy : option string) (days : Z)
| Units (request : Request)
| SaveUnit (request : Request)
| SaveOutputReading (request : Request).

(** The store after one operation served on the day [today]. *)
Definition step (today : Py.date) (op : operation) (db : Store) : Store :=
  match op with
  | Startup => snd (serve startup db)
  | Dashboard request => snd (serve (dashboard today request) db)
  | QAForm request qa_type unit_id =>
      snd (serve (qa_form today request qa_type unit_id) db)
  | SaveQAReport request qa_type => snd (serve (save_qa_report request qa_type) db)
  | History request start_date end_date qa_type unit_id =>
      snd (serve (history_page today request start_date end_date qa_type unit_id) db)
  | Trends request unit_id energy days =>
      snd (serve (trends_page today request unit_id energy days) db)
  | Units request => snd (serve (units_page request) db)
  | SaveUnit request => snd (serve (save_unit request) db)
  | SaveOutputReading request => snd (serve (save_output_reading request) db)
  end.

(** The stores the application can be in: it starts on empty tables. *)
Inductive reachable : Store -> Prop :=
| reachable_empty : reachable empty_store
| reachable_step today op db : reachable db -> reachable (step today op db).

(** ** Vocabulary of the statements *)

(** [r] is a report of type [qa_type] filed for the unit [unit_id]. *)
Definition is_report_of (unit_id : Z) (qa_type : string) (r : QAReport.t) : Prop :=
  QAReport.unit_id r = unit_id /\ QAReport.qa_type r = qa_type.

(** No report of type [qa_type] exists for the unit. *)
Definition no_report (unit_id : Z) (qa_type : string) (db : Store) : Prop :=
  forall r, In r (qa_reports db) -> ~ is_report_of unit_id qa_type r.

(** [d] is the date of the most recent report of type [qa_type] for the
    unit: some such report carries it and none is later. *)
Definition latest_date (unit_id : Z) (qa_type : string) (db : Store) (d : Py.date) : Prop :=
  (exists r, In r (qa_reports db) /\ is_report_of unit_id qa_type r /\ QAReport.date r = d)
  /\ forall r, In r (qa_reports db) -> is_report_of unit_id qa_type r -> QAReport.date r <= d.


(** The four session types. *)
Definition session_types : list string := ["daily"; "monthly"; "quarterly"; "annual"].

(** The reports the history query selects for given bounds: the date lies in
    the inclusive range, and the type and the unit match when they are
    supplied.  An empty type, the type ["all"] and the unit key [0] stand for
    "not supplied". *)
Definition type_matches (qa_type : option string) (r : QAReport.t) : Prop :=
  match qa_type with
  | Some t => t = "" \/ t = "all" \/ QAReport.qa_type r = t
  | None => True
  end.

Definition unit_matches (unit_id : option Z) (r : QAReport.t) : Prop :=
  match unit_id with
  | Some i => i = 0 \/ QAReport.unit_id r = i
  | None => True
  end.

(** The filter as the specification words it: each supplied filter
    constrains the report and an omitted one does not. *)
Definition satisfies_supplied (start_date end_date : option Py.date)
    (qa_type : option string) (unit_id : option Z) (r : QAReport.t) : Prop :=
  (forall s, start_date = Some s -> s <= QAReport.date r)
  /\ (forall e, end_date = Some e -> QAReport.date r <= e)
  /\ (forall t, qa_type = Some t -> QAReport.qa_type r = t)
  /\ (forall i, unit_id = Some i -> QAReport.unit_id r = i).

(** The percentage deviation of a reading from its reference, in binary64
    arithmetic. *)
Definition percent_deviation (reading reference : float) : float :=
  ((reading - reference) / reference * 100)%float.



(** The row [save_output_reading] writes for the values it read. *)
Definition reading_row (data : ReadingData.t) (date : Py.date) (db : Store)
    : OutputReading.t :=
  {| OutputReading.id := next_id (map OutputReading.id (output_readings db));
     OutputReading.date := date;
     OutputReading.unit_id := ReadingData.unit_id data;
     OutputReading.energy := ReadingData.energy data;
     OutputReading.reading := Sqlite.read_back (ReadingData.reading data);
     OutputReading.reference := Sqlite.read_back (ReadingData.reference data);
     OutputReading.deviation :=
       Sqlite.real (percent_deviation (ReadingData.reading data)
                      (ReadingData.reference data)) |}.

(** The dates of the output readings are days of the calendar. *)
Definition readings_dated (db : Store) : Prop :=
  forall r, In r (output_readings db) ->
    1 <= OutputReading.date r <= Py.MAXORDINAL.

(** The store with one more row in [output_readings]. *)
Definition with_output_reading (row : OutputReading.t) (db : Store) : Store :=
  {| users := users db; units := units db; qa_reports := qa_reports db;
     qa_tests := qa_tests db;
     output_readings := output_readings db ++ [row];
     audit_log := audit_log db |}.

(** The rows the loop over a checklist adds to [qa_tests], which holds
    [old] when the loop starts. *)
Fixpoint test_rows (form_data : gmap string string) (report_id : Z)
    (tests : list TestDef.t) (old : list QATest.t) : list QATest.t :=
  match tests with
  | [] => []
  | test_def :: rest =>
      let row :=
        {| QATest.id := next_id (map QATest.id old);
           QATest.report_id := report_id;
           QATest.test_id := TestDef.id test_def;
           QATest.status := get_default form_data ("status_" +:+ TestDef.id test_def) "";
           QATest.notes := get_default form_data ("notes_" +:+ TestDef.id test_def) "";
           QATest.measurement := None |} in
      row :: test_rows form_data report_id rest (old ++ [row])
  end.

(** The report [save_qa_report] writes for the values it read. *)
Definition report_row (form_data : gmap string string) (qa_type : string)
    (user : User.t) (date : Py.date) (unit_id : Z) (performer : string)
    (db : Store) : QAReport.t :=
  {| QAReport.id := next_id (map QAReport.id (qa_reports db));
     QAReport.date := date; QAReport.qa_type := qa_type;
     QAReport.unit_id := unit_id; QAReport.performer := performer;
     QAReport.witness := get_default form_data "witness" "";
     QAReport.comments := get_default form_data "comments" "";
     QAReport.signature := get_default form_data "signature" "";
     QAReport.created_by := User.id user |}.

(** The store with one more report and its test rows. *)
Definition with_qa_report (report : QAReport.t) (rows : list QATest.t) (db : Store)
    : Store :=
  {| users := users db; units := units db;
     qa_reports := qa_reports db ++ [report];
     qa_tests := qa_tests db ++ rows;
     output_readings := output_readings db; audit_log := audit_log db |}.

(** The store with one more audit entry. *)
Definition with_audit_log (user action details ip_address : string) (db : Store)
    : Store :=
  {| users := users db; units := units db; qa_reports := qa_reports db;
     qa_tests := qa_tests db; output_readings := output_readings db;
     audit_log := audit_log db ++
       [{| AuditLog.id := next_id (map AuditLog.id (audit_log db));
           AuditLog.user := user; AuditLog.action := action;
           AuditLog.details := details; AuditLog.ip_address := ip_address |}] |}.

(** The unit [save_unit] works on: [Some old] for the row the form's
    [unit_id] names, [None] for a new unit. *)
Definition unit_target (form_data : gmap string string) (db : Store)
    : Py.result (option Unit.t) :=
  match form_data !! "unit_id" with
  | Some i =>
      if Py.truthy i && negb (String.eqb i "new") then
        match Py.int (Some i) with
        | Py.Raise e => Py.Raise e
        | Py.Ok key =>
            match unit_by_id key db with
            | Some unit => Py.Ok (Some unit)
            | None => Py.Raise Py.AttributeError
            end
        end
      else Py.Ok None
  | None => Py.Ok None
  end.

(** The installation date [save_unit] assigns. *)
Definition unit_install_date (form_data : gmap string string) (old : option Unit.t)
    : Py.result (option Py.date) :=
  match form_data !! "install_date" with
  | Some d =>
      if Py.truthy d then
        match Py.strptime_date (Some d) with
        | Py.Ok parsed => Py.Ok (Some parsed)
        | Py.Raise e => Py.Raise e
        end
      else Py.Ok (old ≫= Unit.install_date)
  | None => Py.Ok (old ≫= Unit.install_date)
  end.

(** The row [save_unit] writes. *)
Definition unit_row (form_data : gmap string string) (old : option Unit.t)
    (name : string) (install_date : option Py.date) (db : Store) : Unit.t :=
  {| Unit.id := match old with
                | Some old => Unit.id old
                | None => next_id (map Unit.id (units db))
                end;
     Unit.name := name;
     Unit.manufacturer := form_data !! "manufacturer";
     Unit.model := form_data !! "model";
     Unit.serial_number := form_data !! "serial_number";
     Unit.location := form_data !! "location";
     Unit.install_date := install_date;
     Unit.photon_energies := parse_energies (form_data !! "photon_energies");
     Unit.electron_energies := parse_energies (form_data !! "electron_energies");
     Unit.fff_energies := parse_energies (form_data !! "fff_energies");
     Unit.active := match old with
                    | Some old => Unit.active old
                    | None => true
                    end |}.

(** The store with the unit inserted, or written over the row [old]. *)
Definition with_unit (old : option Unit.t) (unit : Unit.t) (db : Store) : Store :=
  {| users := users db;
     units := match old with
              | Some old => map (replace_unit (Unit.id old) unit) (units db)
              | None => units db ++ [unit]
              end;
     qa_reports := qa_reports db; qa_tests := qa_tests db;
     output_readings := output_readings db; audit_log := audit_log db |}.

(** *** Invariants of the store *)

(** [id] is the primary key of [units]. *)
Definition units_keyed (db : Store) : Prop := List.NoDup (map Unit.id (units db)).

(** No two units carry the same name, whatever their [active] flag. *)
Definition unit_names_unique (db : Store) : Prop := List.NoDup (map Unit.name (units db)).

(** Every test row belongs to a report of the store. *)
Definition tests_owned (db : Store) : Prop :=
  forall t, In t (qa_tests db) ->
            In (QATest.report_id t) (map QAReport.id (qa_reports db)).

Definition store_ok (db : Store) : Prop :=
  units_keyed db /\ unit_names_unique db /\ tests_owned db.

(** The form of [POST /units] asks for a new unit: [unit_id] is absent,
    empty or ["new"]. *)
Definition creates_unit (form_data : gmap string string) : Prop :=
  match form_data !! "unit_id" with
  | Some i => i = "" \/ i = "new"
  | None => True
  end.

(** The ids of the checklist of a session type; none for an unknown type. *)
Definition checklist_ids (qa_type : string) : list string :=
  map TestDef.id (default [] (SASQART_TESTS !! qa_type)).

(** The request with the result of one more item submitted: the fields
    [status_<item>] and [notes_<item>] of the form. *)
Definition with_result (item status notes : string) (request : Request) : Request :=
  {| session_user_id := session_user_id request;
     client_host := client_host request;
     form := <["status_" +:+ item := status]>
               (<["notes_" +:+ item := notes]> (form request));
     json := json request |}.

(** ** Sample data *)

Definition run (today : Py.date) (ops : list operation) (db : Store) : Store :=
  fold_left (fun db op => step today op db) ops db.

(** 3 November 2026. *)
Definition sample_today : Py.date := 739923.

Definition sample_request (fields : list (string * string)) : Request :=
  {| session_user_id := Some 1; client_host := "10.0.0.7";
     form := list_to_map fields; json := None |}.

Definition sample_reading (date : string) (reading reference : float) : Request :=
  {| session_user_id := Some 1; client_host := "10.0.0.7"; form := ∅;
     json := Some {| ReadingData.date := date; ReadingData.unit_id := 1;
                     ReadingData.energy := "6MV";
                     ReadingData.reading := reading;
                     ReadingData.reference := reference |} |}.

Definition qa_fields (date unit_id : string) : list (string * string) :=
  [("qa_date", date); ("unit_id", unit_id); ("performer", "A. Physicist")].

(** Two monthly reports for unit 1 (100 and 30 days before [sample_today]),
    daily reports for both units and three readings. *)
Definition sample_operations : list operation :=
  [ Startup;
    SaveQAReport (sample_request (qa_fields "2026-07-26" "1")) "monthly";
    SaveQAReport (sample_request (qa_fields "2026-11-03" "1")) "daily";
    SaveQAReport (sample_request (qa_fields "2026-10-04" "1")) "monthly";
    SaveQAReport (sample_request (qa_fields "2026-11-02" "2")) "daily";
    SaveOutputReading (sample_reading "2026-11-01" 101 100);
    SaveOutputReading (sample_reading "2026-10-20" 99 100);
    SaveOutputReading (sample_reading "2026-11-02" 98 100) ].

(** The store these operations leave when they start on empty tables. *)
Definition sample_db : Store := Eval vm_compute in
  run sample_today sample_operations empty_store.

Definition sample_admin : User.t :=
  {| User.id := 1; User.username := "admin";
     User.full_name := "System Administrator"; User.role := "admin";
     User.active := true |}.

(** The monthly report of 26 July 2026 in [sample_db]. *)
Definition sample_old_report : QAReport.t :=
  {| QAReport.id := 1; QAReport.date := 739823; QAReport.qa_type := "monthly";
     QAReport.unit_id := 1; QAReport.performer := "A. Physicist";
     QAReport.witness := ""; QAReport.comments := "";
     QAReport.signature := ""; QAReport.created_by := 1 |}.

(** A quarterly session for unit 1 with a result for ["ZZ9"], which is not
    an item of the quarterly checklist. *)
Definition sample_unknown_item : Request :=
  with_result "ZZ9" "pass" "" (sample_request (qa_fields "2026-11-03" "1")).

(** A daily session for unit 1 with a status for the first item only. *)
Definition sample_partial : Request :=
  sample_request (qa_fields "2026-11-03" "1" ++ [("status_DL1", "pass")]).

(** A quarterly session for unit 999, which is not in [sample_db]. *)
Definition sample_unknown_unit : Request :=
  sample_request (qa_fields "2026-11-03" "999").

(** A new unit under the name of an existing one. *)
Definition sample_duplicate : Request :=
  sample_request [("name", "TrueBeam"); ("unit_id", "new")].

(** ** Further handlers of [main.py] *)

(** The JSON object of [GET /api/unit/{unit_id}]. *)
Module UnitDetails.
Record t := {
  id : Z;
  name : string;
  manufacturer : option string;
  model : option string;
  serial_number : option string;
  location : option string;
  photon_energies : list string;
  electron_energies : list string;
  fff_energies : list string
}.
End UnitDetails.

(** The responses of the handlers below, beside the ones above.  The report
    page carries the report with the rows of its [tests] relationship, which
    the template reads, and [tests_dict]. *)
Inductive reply :=
| Plain (r : response)
| ReportPage (user : User.t) (report : QAReport.t) (tests : list QATest.t)
    (tests_dict : gmap string TestDef.t)
| UnitJSON (details : UnitDetails.t)
| UsersPage (user : User.t) (users : list User.t).

(** [{t["id"]: t for t in tests}]: a later entry replaces an earlier one
    with the same id. *)
Definition dict_by_id (tests : list TestDef.t) : gmap string TestDef.t :=
  fold_left (fun d t => <[TestDef.id t := t]> d) tests ∅.

(** [db.query(QAReport).filter(QAReport.id == report_id).first()] *)
Definition report_by_id (report_id : Z) (db : Store) : option QAReport.t :=
  first (List.filter (fun r => QAReport.id r =? report_id) (qa_reports db)).

(** [GET /report/{report_id}] *)
Definition view_report (request : Request) (report_id : Z) : M reply :=
  user <- query (get_current_user request) ;;
  match user with
  | None => ret (Plain (RedirectResponse "/login"))
  | Some user =>
      report <- query (report_by_id report_id) ;;
      match report with
      | None => raise (Py.HTTPException 404 "Report not found")
      | Some report =>
          tests <- lift (getitem SASQART_TESTS (QAReport.qa_type report)) ;;
          owned <- query (fun db => QAReport.tests (qa_tests db) report) ;;
          ret (ReportPage user report owned (dict_by_id tests))
      end
  end.

(** [GET /api/unit/{unit_id}]: the handler does not look at the session. *)
Definition get_unit_api (unit_id : Z) : M reply :=
  unit <- query (unit_by_id unit_id) ;;
  match unit with
  | None => raise (Py.HTTPException 404 "Unit not found")
  | Some unit =>
      ret (UnitJSON
             {| UnitDetails.id := Unit.id unit;
                UnitDetails.name := Unit.name unit;
                UnitDetails.manufacturer := Unit.manufacturer unit;
                UnitDetails.model := Unit.model unit;
                UnitDetails.serial_number := Unit.serial_number unit;
                UnitDetails.location := Unit.location unit;
                UnitDetails.photon_energies := Unit.photon_energies unit;
                UnitDetails.electron_energies := Unit.electron_energies unit;
                UnitDetails.fff_energies := Unit.fff_energies unit |})
  end.

(** [GET /admin/users] *)
Definition users_page (request : Request) : M reply :=
  user <- query (get_current_user request) ;;
  match user with
  | None => ret (Plain (RedirectResponse "/"))
  | Some user =>
      if negb (String.eqb (User.role user) "admin")
      then ret (Plain (RedirectResponse "/"))
      else
        users <- query users ;;
        ret (UsersPage user users)
  end.

(** ** Further [auth.py] *)

(** [require_auth]: the dependency that demands a logged-in user. *)
Definition require_auth (request : Request) : M User.t :=
  user <- query (get_current_user request) ;;
  match user with
  | None => raise (Py.HTTPException 303 "See Other")
  | Some user => ret user
  end.

(** [require_admin]: the dependency that demands the admin role. *)
Definition require_admin (request : Request) : M User.t :=
  user <- require_auth request ;;
  if negb (String.eqb (User.role user) "admin")
  then raise (Py.HTTPException 403 "Admin access required")
  else ret user.

(** ** Vocabulary of the further statements *)

(** One day of the first 400-year cycle: [ord2ymd] gives a date of the
    calendar whose ordinal is the day again, and the year 400 is reached
    only after day 145731. *)
Definition cycle_day_ok (r : Z) : bool :=
  let '(y, m, d) := Py.ord2ymd r in
  (1 <=? y) && (y <=? 400) && (1 <=? m) && (m <=? 12)
  && (1 <=? d) && (d <=? Py.days_in_month y m)
  && (Py.ymd2ord y m d =? r)
  && ((145731 <? r) || (y <=? 399)).

(** [p] holds of the [n] integers from [start] on. *)
Fixpoint all_from (n : nat) (start : Z) (p : Z -> bool) : bool :=
  match n with
  | O => true
  | S n' => p start && all_from n' (start + 1) p
  end.

(** [d] is a day [datetime.date] can hold. *)
Definition valid_date (d : Py.date) : Prop := 1 <= d <= Py.MAXORDINAL.

(** [l'] is [l] with rows added at the end. *)
Definition extends {A : Type} (l l' : list A) : Prop := exists new, l' = l ++ new.

(** The request an operation carries, and the handler that serves it. *)
Definition op_request (op : operation) : option Request :=
  match op with
  | Startup => None
  | Dashboard request | QAForm request _ _ | SaveQAReport request _
  | History request _ _ _ _ | Trends request _ _ _ | Units request
  | SaveUnit request | SaveOutputReading request => Some request
  end.

Definition op_handler (today : Py.date) (op : operation) : option (M response) :=
  match op with
  | Startup => None
  | Dashboard request => Some (dashboard today request)
  | QAForm request qa_type unit_id => Some (qa_form today request qa_type unit_id)
  | SaveQAReport request qa_type => Some (save_qa_report request qa_type)
  | History request start_date end_date qa_type unit_id =>
      Some (history_page today request start_date end_date qa_type unit_id)
  | Trends request unit_id energy days =>
      Some (trends_page today request unit_id energy days)
  | Units request => Some (units_page request)
  | SaveUnit request => Some (save_unit request)
  | SaveOutputReading request => Some (save_output_reading request)
  end.

(** The audit entry [log_audit] adds to the store [db]. *)
Definition audit_entry (user : User.t) (action details : string) (request : Request)
    (db : Store) : AuditLog.t :=
  {| AuditLog.id := next_id (map AuditLog.id (audit_log db));
     AuditLog.user := User.username user; AuditLog.action := action;
     AuditLog.details := details; AuditLog.ip_address := client_host request |}.

(** Every report has a type of the registry and owns one row per item of
    the checklist of that type, in checklist order. *)
Definition reports_complete (db : Store) : Prop :=
  forall r, In r (qa_reports db) ->
    exists tests,
      SASQART_TESTS !! QAReport.qa_type r = Some tests
      /\ map QATest.test_id (QAReport.tests (qa_tests db) r) = map TestDef.id tests.

(** [id] is the primary key of [qa_reports]. *)
Definition reports_keyed (db : Store) : Prop :=
  List.NoDup (map QAReport.id (qa_reports db)).

(** A label of an energy list as the unit form leaves it: not empty, free
    of commas, and with no white space at either end. *)
Definition first_char (s : string) : option ascii :=
  match s with
  | "" => None
  | String c _ => Some c
  end.

Fixpoint last_char (s : string) : option ascii :=
  match s with
  | "" => None
  | String c "" => Some c
  | String _ rest => last_char rest
  end.

Fixpoint has_comma (s : string) : bool :=
  match s with
  | "" => false
  | String c rest => Ascii.eqb c "," || has_comma rest
  end.

Definition clean_label (s : string) : Prop :=
  s <> ""
  /\ has_comma s = false
  /\ (forall c, first_char s = Some c -> Py.is_space c = false)
  /\ (forall c, last_char s = Some c -> Py.is_space c = false).

(** The energy labels of a unit, the photon energies with the FFF energies
    and the electron energies, are clean. *)
Definition unit_labels_clean (u : Unit.t) : Prop :=
  forall label,
    In label (Unit.all_photon_energies u ++ Unit.electron_energies u) ->
    clean_label label.

(** The audit action that goes with a response: the redirects that answer
    a saved session and a saved unit, and no other response, have one. *)
Definition saved_action (r : Py.result response) : option string :=
  match r with
  | Py.Ok (RedirectResponse url) =>
      if String.eqb url "/history" then Some "SAVE_QA"
      else if String.eqb url "/units" then Some "SAVE_UNIT"
      else None
  | _ => None
  end.

(** ** Further sample data *)

(** [sample_db] after the daily session [sample_partial] was saved. *)
Definition sample_saved : Store := Eval vm_compute in
  snd (serve (save_qa_report sample_partial "daily") sample_db).

(** A reading of 3 November 2026 and [sample_db] after it was recorded. *)
Definition sample_new_reading : Request := sample_reading "2026-11-03" 102 100.

Definition sample_recorded : Store := Eval vm_compute in
  snd (serve (save_output_reading sample_new_reading) sample_db).

(** Unit 1 of [sample_db]. *)
Definition sample_linac : Unit.t :=
  {| Unit.id := 1; Unit.name := "Linac 1"; Unit.manufacturer := Some "Varian";
     Unit.model := Some "Clinac"; Unit.serial_number := None; Unit.location := None;
     Unit.install_date := None; Unit.photon_energies := ["6MV"; "15MV"];
     Unit.electron_energies := ["6MeV"; "9MeV"; "12MeV"; "15MeV"];
     Unit.fff_energies := []; Unit.active := true |}.

(** Unit 2 of [sample_db]. *)
Definition sample_truebeam : Unit.t :=
  {| Unit.id := 2; Unit.name := "TrueBeam"; Unit.manufacturer := Some "Varian";
     Unit.model := Some "TrueBeam"; Unit.serial_number := None; Unit.location := None;
     Unit.install_date := None; Unit.photon_energies := ["6MV"; "10MV"; "15MV"];
     Unit.electron_energies := ["6MeV"; "9MeV"; "12MeV"; "15MeV"; "18MeV"];
     Unit.fff_energies := ["6MV FFF"; "10MV FFF"]; Unit.active := true |}.

(** The daily session of [sample_partial] sent without a session cookie. *)
Definition sample_anonymous : Request :=
  {| session_user_id := None; client_host := "10.0.0.9";
     form := form sample_partial; json := None |}.

(** A third unit for [sample_db]. *)
Definition sample_new_unit : Request :=
  sample_request [("name", "Halcyon"); ("unit_id", "new");
                  ("manufacturer", "Varian"); ("photon_energies", " 6MV FFF , ")].

Definition sample_with_unit : Store := Eval vm_compute in
  snd (serve (save_unit sample_new_unit) sample_db).

(** * Properties *)

(** ** The library functions on sample values *)

Example ymd2ord_2024_02_29 : Py.mkdate 2024 2 29 = Some 738945.
Proof. reflexivity. Qed.

Example ord2ymd_2024_02_29 : Py.isoformat 738945 = "2024-02-29".
Proof. reflexivity. Qed.

Example ord2ymd_max : Py.isoformat Py.MAXORDINAL = "9999-12-31".
Proof. reflexivity. Qed.

Example strptime_short_fields :
  Py.strptime_date (Some "2024-1- 5") = Py.Ok 738890.
Proof. reflexivity. Qed.

Example strptime_bad_day : Py.strptime_date (Some "2024-02-30") = Py.Raise Py.ValueError.
Proof. reflexivity. Qed.

Example int_underscore : Py.int (Some " +1_000 ") = Py.Ok 1000.
Proof. reflexivity. Qed.

Example int_double_underscore : Py.int (Some "1__0") = Py.Raise Py.ValueError.
Proof. reflexivity. Qed.

Example split_strip :
  List.filter Py.truthy (map Py.strip (Py.split_comma " 6MV , 10MV,,15MV "))
  = ["6MV"; "10MV"; "15MV"].
Proof. reflexivity. Qed.

Example SASQART_quarterly_lookup :
  SASQART_TESTS !! "quarterly" = Some SASQART_quarterly.
Proof. reflexivity. Qed.

Example SASQART_weekly_lookup : SASQART_TESTS !! "weekly" = None.
Proof. reflexivity. Qed.

Example sample_counts :
  let report :=
    {| QAReport.id := 7; QAReport.date := 739923; QAReport.qa_type := "daily";
       QAReport.unit_id := 1; QAReport.performer := "A. Physicist";
       QAReport.witness := ""; QAReport.comments := "";
       QAReport.signature := ""; QAReport.created_by := 1 |} in
  let test (i : Z) (status : string) :=
    {| QATest.id := i; QATest.report_id := 7; QATest.test_id := "DL1";
       QATest.status := status; QATest.notes := ""; QATest.measurement := None |} in
  let all :=
    [test 1 "pass"; test 2 "pass"; test 3 "fail"; test 4 "na"; test 5 "pass";
     test 6 "fail"] in
  (QAReport.pass_count all report, QAReport.fail_count all report,
   QAReport.total_tests all report) = (3, 2, 5).
Proof. reflexivity. Qed.

(** ** Sorting and [first] *)

Section OrderBy.

Context {A : Type} (le : A -> A -> bool).
Hypothesis le_total : forall a b, le a b = true \/ le b a = true.
Hypothesis le_trans : forall a b c, le a b = true -> le b c = true -> le a c = true.

Lemma insert_by_perm (x : A) (l : list A) : Permutation (insert_by le x l) (x :: l).
Proof.
  induction l as [|y l IH]; simpl.
  - apply Permutation_refl.
  - destruct (le x y).
    + apply Permutation_refl.
    + apply Permutation_trans with (y :: x :: l).
      * apply perm_skip, IH.
      * apply perm_swap.
Qed.

Lemma order_by_perm (l : list A) : Permutation (order_by le l) l.
Proof.
  induction l as [|x l IH]; simpl.
  - apply perm_nil.
  - apply Permutation_trans with (x :: order_by le l).
    + apply insert_by_perm.
    + apply perm_skip, IH.
Qed.

Lemma order_by_In (x : A) (l : list A) : In x (order_by le l) <-> In x l.
Proof.
  split; apply Permutation_in.
  - apply order_by_perm.
  - apply Permutation_sym, order_by_perm.
Qed.

Lemma insert_by_sorted (x : A) (l : list A) :
  StronglySorted (fun a b => le a b = true) l ->
  StronglySorted (fun a b => le a b = true) (insert_by le x l).
Proof.
  induction 1 as [|y l Hs IH Hy]; simpl.
  - constructor; constructor.
  - destruct (le x y) eqn:Hxy.
    + constructor.
      * constructor; assumption.
      * constructor; [assumption|].
        rewrite List.Forall_forall in Hy |- *.
        intros z Hz. apply le_trans with y; auto.
    + constructor; [assumption|].
      rewrite List.Forall_forall in Hy |- *.
      intros z Hz.
      apply (Permutation_in _ (insert_by_perm x l)) in Hz.
      destruct Hz as [<-|Hz]; [|auto].
      destruct (le_total x y) as [H|H]; congruence.
Qed.

Lemma order_by_sorted (l : list A) :
  StronglySorted (fun a b => le a b = true) (order_by le l).
Proof.
  induction l as [|x l IH]; simpl.
  - constructor.
  - apply insert_by_sorted, IH.
Qed.

Lemma first_order_by_None (l : list A) : first (order_by le l) = None <-> l = [].
Proof.
  split.
  - intros H. destruct l as [|x l]; [reflexivity|].
    assert (Hin : In x (order_by le (x :: l))) by (apply order_by_In; left; reflexivity).
    destruct (order_by le (x :: l)); [destruct Hin | discriminate].
  - intros ->. reflexivity.
Qed.

Lemma first_order_by_Some (l : list A) (r : A) :
  first (order_by le l) = Some r ->
  In r l /\ forall x, In x l -> le r x = true.
Proof.
  intros H.
  pose proof (order_by_sorted l) as Hs.
  pose proof (order_by_In) as Hin.
  destruct (order_by le l) as [|y s] eqn:E; [discriminate|].
  injection H as ->.
  split.
  - apply Hin. rewrite E. left; reflexivity.
  - intros x Hx. apply Hin in Hx. rewrite E in Hx.
    destruct Hx as [<-|Hx].
    + destruct (le_total r r); assumption.
    + apply StronglySorted_inv in Hs. destruct Hs as [_ Hall].
      rewrite List.Forall_forall in Hall. auto.
Qed.

End OrderBy.

(** ** Due dates *)

Lemma date_desc_total (a b : QAReport.t) :
  (QAReport.date b <=? QAReport.date a) = true \/ (QAReport.date a <=? QAReport.date b) = true.
Proof. rewrite !Z.leb_le. lia. Qed.

Lemma date_desc_trans (a b c : QAReport.t) :
  (QAReport.date b <=? QAReport.date a) = true ->
  (QAReport.date c <=? QAReport.date b) = true ->
  (QAReport.date c <=? QAReport.date a) = true.
Proof. rewrite !Z.leb_le. lia. Qed.

Lemma report_filter_spec (unit_id : Z) (qa_type : string) (r : QAReport.t) :
  (QAReport.unit_id r =? unit_id) && String.eqb (QAReport.qa_type r) qa_type = true
  <-> is_report_of unit_id qa_type r.
Proof.
  unfold is_report_of. rewrite andb_true_iff, Z.eqb_eq, String.eqb_eq. tauto.
Qed.

Lemma last_report_None (unit_id : Z) (qa_type : string) (db : Store) :
  last_report unit_id qa_type db = None <-> no_report unit_id qa_type db.
Proof.
  unfold last_report, no_report.
  rewrite first_order_by_None.
  split.
  - intros E r Hr Hof.
    assert (Hin : In r []); [|destruct Hin].
    rewrite <- E. apply filter_In. split; [assumption|].
    apply report_filter_spec, Hof.
  - intros H.
    destruct (List.filter _ (qa_reports db)) as [|r l] eqn:E; [reflexivity|].
    assert (Hin : In r (r :: l)) by (left; reflexivity).
    rewrite <- E in Hin. apply filter_In in Hin. destruct Hin as [Hr Hof].
    apply report_filter_spec in Hof. destruct (H r Hr Hof).
Qed.

Lemma last_report_Some (unit_id : Z) (qa_type : string) (db : Store) (r : QAReport.t) :
  last_report unit_id qa_type db = Some r ->
  latest_date unit_id qa_type db (QAReport.date r).
Proof.
  unfold last_report, latest_date. intros H.
  apply (first_order_by_Some _ date_desc_total date_desc_trans) in H.
  destruct H as [Hin Hmax]. apply filter_In in Hin. destruct Hin as [Hr Hof].
  apply report_filter_spec in Hof.
  split.
  - exists r. auto.
  - intros x Hx Hxof. apply Z.leb_le. apply Hmax.
    apply filter_In. split; [assumption|]. apply report_filter_spec, Hxof.
Qed.

Lemma latest_date_unique (unit_id : Z) (qa_type : string) (db : Store) (d1 d2 : Py.date) :
  latest_date unit_id qa_type db d1 -> latest_date unit_id qa_type db d2 -> d1 = d2.
Proof.
  intros [(r1 & Hr1 & Ho1 & <-) Hm1] [(r2 & Hr2 & Ho2 & <-) Hm2].
  specialize (Hm1 r2 Hr2 Ho2). specialize (Hm2 r1 Hr1 Ho1). lia.
Qed.

Lemma latest_date_not_none (unit_id : Z) (qa_type : string) (db : Store) (d : Py.date) :
  latest_date unit_id qa_type db d -> ~ no_report unit_id qa_type db.
Proof. intros [(r & Hr & Ho & _) _] H. exact (H r Hr Ho). Qed.

Lemma daily_due_spec (today : Py.date) (db : Store) (unit : Unit.t) :
  QAStatus.daily_due (qa_status_of today db unit) = true
  <-> no_report (Unit.id unit) "daily" db
      \/ exists d, latest_date (Unit.id unit) "daily" db d /\ d < today.
Proof.
  unfold qa_status_of; simpl.
  destruct (last_report (Unit.id unit) "daily" db) as [r|] eqn:E.
  - apply last_report_Some in E. rewrite Z.ltb_lt. split.
    + intros H. right. exists (QAReport.date r). auto.
    + intros [H|(d & Hd & Hlt)].
      * destruct (latest_date_not_none _ _ _ _ E H).
      * rewrite (latest_date_unique _ _ _ _ _ E Hd). assumption.
  - apply last_report_None in E. tauto.
Qed.

Lemma monthly_due_spec (today : Py.date) (db : Store) (unit : Unit.t) :
  QAStatus.monthly_due (qa_status_of today db unit) = true
  <-> no_report (Unit.id unit) "monthly" db
      \/ exists d, latest_date (Unit.id unit) "monthly" db d /\ today - d > 30.
Proof.
  unfold qa_status_of, Py.days_between; simpl.
  destruct (last_report (Unit.id unit) "monthly" db) as [r|] eqn:E.
  - apply last_report_Some in E. rewrite Z.ltb_lt. split.
    + intros H. right. exists (QAReport.date r). split; [assumption|lia].
    + intros [H|(d & Hd & Hlt)].
      * destruct (latest_date_not_none _ _ _ _ E H).
      * rewrite (latest_date_unique _ _ _ _ _ E Hd). lia.
  - apply last_report_None in E. tauto.
Qed.

(** C2.  The dashboard lists one status per active unit.  There, [daily_due]
    holds exactly when the unit has no daily report or its most recent daily
    report is dated before today, and [monthly_due] holds exactly when the
    unit has no monthly report or today is more than 30 days after its most
    recent monthly report.  A most recent daily report dated today gives
    [daily_due = false], and a most recent monthly report dated exactly 30
    days ago gives [monthly_due = false]. *)
Theorem C2_due_status (today : Py.date) (request : Request) (db : Store) (user : User.t) :
  get_current_user request db = Some user ->
  exists qa_status,
    serve (dashboard today request) db
    = (Py.Ok (DashboardPage user (active_units db) qa_status today), db)
    /\ Forall2
         (fun unit st =>
            QAStatus.unit st = unit
            /\ (QAStatus.daily_due st = true
                <-> no_report (Unit.id unit) "daily" db
                    \/ exists d, latest_date (Unit.id unit) "daily" db d /\ d < today)
            /\ (QAStatus.monthly_due st = true
                <-> no_report (Unit.id unit) "monthly" db
                    \/ exists d, latest_date (Unit.id unit) "monthly" db d /\ today - d > 30)
            /\ (latest_date (Unit.id unit) "daily" db today -> QAStatus.daily_due st = false)
            /\ (latest_date (Unit.id unit) "monthly" db (today - 30)
                -> QAStatus.monthly_due st = false))
         (active_units db) qa_status.
Proof.
  intros Huser.
  exists (map (qa_status_of today db) (active_units db)).
  split.
  - unfold serve, dashboard, bind, query, ret; simpl. rewrite Huser. reflexivity.
  - induction (active_units db) as [|unit l IH]; simpl; constructor; [|exact IH].
    pose proof (daily_due_spec today db unit) as Hd.
    pose proof (monthly_due_spec today db unit) as Hm.
    repeat split; try apply Hd; try apply Hm.
    + intros Hl. apply not_true_is_false. intros Hdue.
      apply Hd in Hdue. destruct Hdue as [Hn|(d & Hd' & Hlt)].
      * exact (latest_date_not_none _ _ _ _ Hl Hn).
      * pose proof (latest_date_unique _ _ _ _ _ Hl Hd'). lia.
    + intros Hl. apply not_true_is_false. intros Hdue.
      apply Hm in Hdue. destruct Hdue as [Hn|(d & Hd' & Hlt)].
      * exact (latest_date_not_none _ _ _ _ Hl Hn).
      * pose proof (latest_date_unique _ _ _ _ _ Hl Hd'). lia.
Qed.

(** The due status of the sample store on [sample_today]. *)
Lemma C2_due_status_witness :
  get_current_user (sample_request []) sample_db = Some sample_admin
  /\ exists qa_status,
       serve (dashboard sample_today (sample_request [])) sample_db
       = (Py.Ok (DashboardPage sample_admin (active_units sample_db) qa_status sample_today),
          sample_db)
       /\ Forall2
            (fun unit st =>
               QAStatus.unit st = unit
               /\ (QAStatus.daily_due st = true
                   <-> no_report (Unit.id unit) "daily" sample_db
                       \/ exists d, latest_date (Unit.id unit) "daily" sample_db d
                                    /\ d < sample_today)
               /\ (QAStatus.monthly_due st = true
                   <-> no_report (Unit.id unit) "monthly" sample_db
                       \/ exists d, latest_date (Unit.id unit) "monthly" sample_db d
                                    /\ sample_today - d > 30)
               /\ (latest_date (Unit.id unit) "daily" sample_db sample_today
                   -> QAStatus.daily_due st = false)
               /\ (latest_date (Unit.id unit) "monthly" sample_db (sample_today - 30)
                   -> QAStatus.monthly_due st = false))
            (active_units sample_db) qa_status.
Proof.
  split; [reflexivity|].
  apply (C2_due_status sample_today (sample_request []) sample_db sample_admin).
  reflexivity.
Defined.

Example sample_due_status :
  map (fun st => (Unit.name (QAStatus.unit st), QAStatus.daily_due st, QAStatus.monthly_due st))
    (map (qa_status_of sample_today sample_db) (active_units sample_db))
  = [("Linac 1", false, false); ("TrueBeam", true, true)].
Proof. reflexivity. Qed.

(** ** History and trends *)

Lemma StronglySorted_weaken {A : Type} (R R' : A -> A -> Prop) (l : list A) :
  (forall a b, R a b -> R' a b) -> StronglySorted R l -> StronglySorted R' l.
Proof.
  intros HR. induction 1 as [|x l Hs IH Hx]; constructor.
  - exact IH.
  - rewrite List.Forall_forall in Hx |- *. auto.
Qed.

Lemma reading_asc_total (a b : OutputReading.t) :
  (OutputReading.date a <=? OutputReading.date b) = true
  \/ (OutputReading.date b <=? OutputReading.date a) = true.
Proof. rewrite !Z.leb_le. lia. Qed.

Lemma reading_asc_trans (a b c : OutputReading.t) :
  (OutputReading.date a <=? OutputReading.date b) = true ->
  (OutputReading.date b <=? OutputReading.date c) = true ->
  (OutputReading.date a <=? OutputReading.date c) = true.
Proof. rewrite !Z.leb_le. lia. Qed.

Lemma trend_readings_sorted (unit_id : Z) (energy : string) (start_date : Py.date)
    (db : Store) :
  StronglySorted (fun a b => OutputReading.date a <= OutputReading.date b)
    (trend_readings unit_id energy start_date db).
Proof.
  unfold trend_readings.
  eapply StronglySorted_weaken;
    [|apply (order_by_sorted _ reading_asc_total reading_asc_trans)].
  intros a b H. apply Z.leb_le, H.
Qed.

Lemma date_sub_days_cases (d : Py.date) (n : Z) :
  Py.date_sub_days d n = Py.Ok (d - n)
  \/ Py.date_sub_days d n = Py.Raise Py.OverflowError.
Proof. unfold Py.date_sub_days. destruct (_ && _); auto. Qed.

Example sample_trend :
  fst (serve (trends_page sample_today (sample_request []) (Some 1) (Some "6MV") 30)
         sample_db)
  = Py.Ok (TrendsPage sample_admin (active_units sample_db) (Some 1) (Some "6MV") 30
             [("2026-10-20", Some (-1)%float); ("2026-11-01", Some 1%float);
              ("2026-11-02", Some (-2)%float)]).
Proof. reflexivity. Qed.

Example sample_history :
  match fst (serve (history_page sample_today (sample_request [])
                      (Some 739823) None None (Some 1)) sample_db) with
  | Py.Ok (HistoryPage _ reports _ _ _ _ _) =>
      map (fun r => (Py.isoformat (QAReport.date r), QAReport.qa_type r)) reports
  | _ => []
  end
  = [("2026-11-03", "daily"); ("2026-10-04", "monthly"); ("2026-07-26", "monthly")].
Proof. reflexivity. Qed.

Lemma history_filter_spec (s e : Py.date) (qa_type : option string)
    (unit_id : option Z) (r : QAReport.t) :
  (s <=? QAReport.date r) && (QAReport.date r <=? e)
  && match qa_type with
     | Some t =>
         if Py.truthy t && negb (String.eqb t "all")
         then String.eqb (QAReport.qa_type r) t else true
     | None => true
     end
  && match unit_id with
     | Some i => if i =? 0 then true else QAReport.unit_id r =? i
     | None => true
     end = true
  <-> s <= QAReport.date r <= e /\ type_matches qa_type r /\ unit_matches unit_id r.
Proof.
  rewrite !andb_true_iff, !Z.leb_le.
  assert (Ht : match qa_type with
               | Some t =>
                   if Py.truthy t && negb (String.eqb t "all")
                   then String.eqb (QAReport.qa_type r) t else true
               | None => true
               end = true <-> type_matches qa_type r).
  { unfold type_matches. destruct qa_type as [t|]; [|tauto].
    destruct t as [|c t']; [simpl; intuition auto|].
    unfold Py.truthy.
    destruct (String.eqb_spec (String c t') "all") as [E|E];
      cbn [negb andb]; [intuition auto|].
    rewrite String.eqb_eq. split; [tauto|].
    intros [H|[H|H]]; [discriminate|contradiction|assumption]. }
  assert (Hu : match unit_id with
               | Some i => if i =? 0 then true else QAReport.unit_id r =? i
               | None => true
               end = true <-> unit_matches unit_id r).
  { unfold unit_matches. destruct unit_id as [i|]; [|tauto].
    destruct (Z.eqb_spec i 0) as [E|E].
    - intuition auto.
    - rewrite Z.eqb_eq. tauto. }
  tauto.
Qed.

(** C8, as stated, fails.  With no filter supplied the report of 26 July
    2026 satisfies every supplied filter, and the history page of 3 November
    2026 lists the reports 2, 4 and 3 and not that one. *)
Lemma C8_counterexample :
  In sample_old_report (qa_reports sample_db)
  /\ satisfies_supplied None None None None sample_old_report
  /\ match serve (history_page sample_today (sample_request []) None None None None)
            sample_db with
     | (Py.Ok (HistoryPage _ reports _ _ _ _ _), _) =>
         map QAReport.id reports = [2; 4; 3] /\ ~ In sample_old_report reports
     | _ => False
     end.
Proof.
  split; [left; reflexivity|].
  split; [repeat split; discriminate|].
  vm_compute. split; [reflexivity|].
  intros H. repeat (destruct H as [H|H]; [discriminate H|]). exact H.
Qed.

(** C8, amended.  The filters of the history query are conjunctive, and the
    date range is always applied: an omitted start is 30 days before today
    and an omitted end is today.  A report is listed exactly when its date
    lies in that inclusive range, its type is the requested one (no type, an
    empty type or ["all"] request every type) and its unit is the requested
    one (no unit or the key [0] request every unit). *)
Theorem C8_history_filters (today : Py.date) (request : Request) (db : Store)
    (user : User.t) (start_date end_date : option Py.date)
    (qa_type : option string) (unit_id : option Z) (s : Py.date) :
  get_current_user request db = Some user ->
  match start_date with
  | Some d => Py.Ok d
  | None => Py.date_sub_days today 30
  end = Py.Ok s ->
  exists reports t,
    serve (history_page today request start_date end_date qa_type unit_id) db
    = (Py.Ok (HistoryPage user reports (active_units db) s (default today end_date)
                t unit_id), db)
    /\ forall r,
         In r reports
         <-> In r (qa_reports db)
             /\ s <= QAReport.date r <= default today end_date
             /\ type_matches qa_type r
             /\ unit_matches unit_id r.
Proof.
  intros Huser Hs.
  unfold serve, history_page, bind, query, ret, lift; simpl. rewrite Huser.
  destruct start_date as [d|]; [injection Hs as ->|rewrite Hs]; simpl;
    (do 2 eexists; split; [reflexivity|]; intros r;
     rewrite order_by_In, filter_In, history_filter_spec; tauto).
Qed.

(** The monthly reports of the last 30 days of the sample store. *)
Lemma C8_history_filters_witness :
  get_current_user (sample_request []) sample_db = Some sample_admin
  /\ Py.date_sub_days sample_today 30 = Py.Ok 739893
  /\ exists reports t,
       serve (history_page sample_today (sample_request []) None None (Some "monthly") None)
         sample_db
       = (Py.Ok (HistoryPage sample_admin reports (active_units sample_db) 739893
                   (default sample_today None) t None), sample_db)
       /\ forall r,
            In r reports
            <-> In r (qa_reports sample_db)
                /\ 739893 <= QAReport.date r <= default sample_today None
                /\ type_matches (Some "monthly") r
                /\ unit_matches None r.
Proof.
  split; [reflexivity|]. split; [reflexivity|].
  apply (C8_history_filters sample_today (sample_request []) sample_db sample_admin
           None None (Some "monthly") None 739893); reflexivity.
Defined.

(** ** The checklist registry *)

Lemma SASQART_TESTS_inv (qa_type : string) (tests : list TestDef.t) :
  SASQART_TESTS !! qa_type = Some tests -> In (qa_type, tests) SASQART_items.
Proof.
  intros H. apply list_elem_of_In. apply elem_of_list_to_map_2. exact H.
Qed.

Lemma SASQART_ids_NoDup (qa_type : string) (tests : list TestDef.t) :
  SASQART_TESTS !! qa_type = Some tests -> List.NoDup (map TestDef.id tests).
Proof.
  intros H. apply SASQART_TESTS_inv in H.
  repeat (destruct H as [H|H];
          [injection H as <- <-; apply NoDup_ListNoDup, (bool_decide_unpack _); vm_compute; exact I|]).
  destruct H.
Qed.

(** C9.  Each of the four session types has a non-empty checklist whose ids
    are pairwise distinct.  The registry is a constant: the checklist form
    leaves the store as it is, and the items it shows are the registry's
    entry for the type, whatever the request, the day and the store, so two
    calls with the same type show equal sequences. *)
Theorem C9_checklists_nonempty_distinct_pure :
  Forall
    (fun t => exists items,
       SASQART_TESTS !! t = Some items
       /\ items <> []
       /\ List.NoDup (map TestDef.id items))
    session_types
  /\ forall today request qa_type unit_id db,
       snd (serve (qa_form today request qa_type unit_id) db) = db
       /\ forall user t tests units selected d,
            fst (serve (qa_form today request qa_type unit_id) db)
            = Py.Ok (QAFormPage user t tests units selected d) ->
            SASQART_TESTS !! qa_type = Some tests.
Proof.
  split.
  - unfold session_types.
    repeat (constructor;
            [eexists; split; [reflexivity|]; split;
             [intros E; apply (f_equal (@List.length _)) in E;
              vm_compute in E; discriminate E
             |apply NoDup_ListNoDup, (bool_decide_unpack _); vm_compute; exact I]|]).
    constructor.
  - intros today request qa_type unit_id db.
    unfold serve, qa_form, bind, query, ret, raise; simpl.
    destruct (get_current_user request db) as [user|]; simpl;
      [|split; [reflexivity|discriminate]].
    destruct (SASQART_TESTS !! qa_type) as [tests|]; simpl;
      [|split; [reflexivity|discriminate]].
    destruct unit_id as [i|]; [destruct (i =? 0)|]; simpl;
      (split; [reflexivity|]; intros ? ? ? ? ? ? H; injection H as <-; congruence).
Qed.

(** The quarterly checklist form on the sample store. *)
Lemma C9_checklists_nonempty_distinct_pure_witness :
  fst (serve (qa_form sample_today (sample_request []) "quarterly" (Some 2)) sample_db)
  = Py.Ok (QAFormPage sample_admin "quarterly" SASQART_quarterly
             (active_units sample_db) (unit_by_id 2 sample_db) "2026-11-03")
  /\ SASQART_TESTS !! "quarterly" = Some SASQART_quarterly.
Proof.
  split; [reflexivity|].
  apply (proj2 (proj2 C9_checklists_nonempty_distinct_pure sample_today
                  (sample_request []) "quarterly" (Some 2) sample_db)
           sample_admin "quarterly" SASQART_quarterly
           (active_units sample_db) (unit_by_id 2 sample_db) "2026-11-03").
  reflexivity.
Defined.

(** ** Output readings *)

(** Unfolds a handler served on a store down to the reads and writes it
    makes, leaving the library functions folded. *)
Ltac run_session :=
  cbv beta iota zeta delta
    [serve bind ret raise lift query write commit getitem
     dashboard qa_form save_qa_report history_page trends_page save_unit
     units_page save_output_reading log_audit add_audit_log add_user
     add_flush_qa_report add_output_reading
     check_unit_name set_units insert_unit update_unit
     create_default_admin create_default_units startup];
  cbn [committed pending fst snd].

(** The handler as a function of what it reads. *)
Lemma save_output_reading_eq (request : Request) (db : Store) :
  serve (save_output_reading request) db =
  match get_current_user request db with
  | None => (Py.Raise (Py.HTTPException 401 "Authentication required"), db)
  | Some _ =>
      match json request with
      | None => (Py.Raise Py.ValueError, db)
      | Some data =>
          match Py.strptime_date (Some (ReadingData.date data)) with
          | Py.Raise e => (Py.Raise e, db)
          | Py.Ok date =>
              if PrimFloat.eqb (ReadingData.reference data) 0%float
              then (Py.Raise Py.ZeroDivisionError, db)
              else if PrimFloat.is_nan (ReadingData.reading data)
              then (Py.Raise (Py.IntegrityError
                                "NOT NULL constraint failed: output_readings.reading"),
                    db)
              else if PrimFloat.is_nan (ReadingData.reference data)
              then (Py.Raise (Py.IntegrityError
                                "NOT NULL constraint failed: output_readings.reference"),
                    db)
              else
                let row := reading_row data date db in
                (Py.Ok (ReadingSaved (OutputReading.id row) (OutputReading.deviation row)),
                 with_output_reading row db)
          end
      end
  end.
Proof.
  run_session.
  destruct (get_current_user request db) as [user|]; [|reflexivity].
  destruct (json request) as [data|]; [|reflexivity].
  destruct (Py.strptime_date (Some (ReadingData.date data))) as [date|e]; [|reflexivity].
  unfold truediv, Sqlite.real.
  destruct (PrimFloat.eqb (ReadingData.reference data) 0); [reflexivity|].
  destruct (PrimFloat.is_nan (ReadingData.reading data)); [reflexivity|].
  destruct (PrimFloat.is_nan (ReadingData.reference data)); reflexivity.
Qed.

(** ** Saving a QA report *)

Lemma for_each_add_qa_test (form_data : gmap string string) (report_id : Z)
    (tests : list TestDef.t) (s : Session) :
  for_each tests
    (fun test_def =>
       add_qa_test report_id (TestDef.id test_def)
         (get_default form_data ("status_" +:+ TestDef.id test_def) "")
         (get_default form_data ("notes_" +:+ TestDef.id test_def) "")) s
  = (Py.Ok tt,
     {| committed := committed s;
        pending :=
          {| users := users (pending s); units := units (pending s);
             qa_reports := qa_reports (pending s);
             qa_tests := qa_tests (pending s)
                         ++ test_rows form_data report_id tests (qa_tests (pending s));
             output_readings := output_readings (pending s);
             audit_log := audit_log (pending s) |} |}).
Proof.
  revert s. induction tests as [|test_def rest IH]; intros [c [us un qr qt o a]].
  - cbn. rewrite app_nil_r. reflexivity.
  - cbn [for_each]. unfold bind at 1. unfold add_qa_test at 1. unfold write at 1.
    cbn [pending committed users units qa_reports qa_tests output_readings audit_log].
    rewrite IH.
    cbn [pending committed users units qa_reports qa_tests output_readings audit_log
         test_rows].
    rewrite <- app_assoc. reflexivity.
Qed.

(** The handler as a function of what it reads. *)
Lemma save_qa_report_eq (request : Request) (qa_type : string) (db : Store) :
  serve (save_qa_report request qa_type) db =
  match get_current_user request db with
  | None => (Py.Ok (RedirectResponse "/login"), db)
  | Some user =>
      match Py.strptime_date (form request !! "qa_date") with
      | Py.Raise e => (Py.Raise e, db)
      | Py.Ok date =>
          match Py.int (form request !! "unit_id") with
          | Py.Raise e => (Py.Raise e, db)
          | Py.Ok unit_id =>
              match form request !! "performer" with
              | None =>
                  (Py.Raise (Py.IntegrityError
                               "NOT NULL constraint failed: qa_reports.performer"), db)
              | Some performer =>
                  match SASQART_TESTS !! qa_type with
                  | None => (Py.Raise (Py.KeyError qa_type), db)
                  | Some tests =>
                      let report :=
                        report_row (form request) qa_type user date unit_id performer db in
                      let saved :=
                        with_qa_report report
                          (test_rows (form request) (QAReport.id report) tests (qa_tests db))
                          db in
                      match unit_by_id unit_id db with
                      | None => (Py.Raise Py.AttributeError, saved)
                      | Some unit =>
                          (Py.Ok (RedirectResponse "/history"),
                           with_audit_log (User.username user) "SAVE_QA"
                             (Py.upper qa_type +:+ " QA saved for " +:+ Unit.name unit
                              +:+ " on " +:+ Py.isoformat date)
                             (client_host request) saved)
                      end
                  end
              end
          end
      end
  end.
Proof.
  run_session.
  destruct (get_current_user request db) as [user|]; [|reflexivity].
  destruct (Py.strptime_date (form request !! "qa_date")) as [date|e]; [|reflexivity].
  destruct (Py.int (form request !! "unit_id")) as [unit_id|e]; [|reflexivity].
  destruct (form request !! "performer") as [performer|]; [|reflexivity].
  cbn [committed pending fst snd].
  destruct (SASQART_TESTS !! qa_type) as [tests|]; [|reflexivity].
  rewrite for_each_add_qa_test.
  cbn [committed pending users units qa_reports qa_tests output_readings audit_log
       QAReport.id QAReport.unit_id QAReport.date].
  unfold unit_by_id at 1.
  cbn [units].
  fold (unit_by_id unit_id db).
  destruct (unit_by_id unit_id db) as [unit|]; reflexivity.
Qed.

(** ** Unit configuration *)

(** The handler as a function of what it reads. *)
Lemma save_unit_eq (request : Request) (db : Store) :
  serve (save_unit request) db =
  match get_current_user request db with
  | None => (Py.Ok (RedirectResponse "/login"), db)
  | Some user =>
      match unit_target (form request) db with
      | Py.Raise e => (Py.Raise e, db)
      | Py.Ok old =>
          match unit_install_date (form request) old with
          | Py.Raise e => (Py.Raise e, db)
          | Py.Ok install_date =>
              match form request !! "name" with
              | None =>
                  (Py.Raise (Py.IntegrityError "NOT NULL constraint failed: units.name"),
                   db)
              | Some name =>
                  if name_taken (option_map Unit.id old) name (units db)
                  then
                    (Py.Raise (Py.IntegrityError "UNIQUE constraint failed: units.name"),
                     db)
                  else
                    let unit := unit_row (form request) old name install_date db in
                    (Py.Ok (RedirectResponse "/units"),
                     with_audit_log (User.username user) "SAVE_UNIT"
                       ("Unit configuration saved: " +:+ name +:+ " (S/N: "
                        +:+ str_of_option (form request !! "serial_number") +:+ ")")
                       (client_host request) (with_unit old unit db))
              end
          end
      end
  end.
Proof.
  run_session. unfold unit_target, unit_install_date.
  destruct (get_current_user request db) as [user|]; [|reflexivity].
  destruct (form request !! "unit_id") as [i|];
    [destruct (Py.truthy i && negb (String.eqb i "new"));
     [destruct (Py.int (Some i)) as [key|e]; [|reflexivity];
      cbn [committed pending];
      destruct (unit_by_id key db) as [old|]; [|reflexivity]|]|];
    (destruct (form request !! "install_date") as [d|];
     [destruct (Py.truthy d);
      [destruct (Py.strptime_date (Some d)) as [parsed|e]; [|reflexivity]|]|]);
    (destruct (form request !! "name") as [name|]; [|reflexivity]);
    cbn [committed pending option_map];
    match goal with
    | |- context [name_taken ?self name (units db)] =>
        destruct (name_taken self name (units db))
    end;
    reflexivity.
Qed.

Lemma next_id_above (ids : list Z) (i : Z) : In i ids -> i < next_id ids.
Proof.
  unfold next_id. induction ids as [|j ids IH]; simpl; [tauto|].
  intros [->|H]; [lia|]. specialize (IH H). lia.
Qed.

Lemma next_id_fresh (ids : list Z) : ~ In (next_id ids) ids.
Proof. intros H. apply next_id_above in H. lia. Qed.

Lemma name_taken_false (self : option Z) (name : string) (us : list Unit.t) :
  name_taken self name us = false
  <-> forall u, In u us -> other_unit self u = true -> Unit.name u <> name.
Proof.
  unfold name_taken. split.
  - intros H u Hu Ho E.
    assert (Hex : existsb (fun u => other_unit self u && String.eqb (Unit.name u) name) us
                  = true); [|congruence].
    apply existsb_exists. exists u. split; [assumption|].
    rewrite Ho. apply String.eqb_eq, E.
  - intros H. apply not_true_is_false. intros Hex.
    apply existsb_exists in Hex. destruct Hex as (u & Hu & Hb).
    apply andb_true_iff in Hb. destruct Hb as [Ho E].
    apply String.eqb_eq in E. exact (H u Hu Ho E).
Qed.

Lemma name_taken_true (name : string) (us : list Unit.t) :
  In name (map Unit.name us) -> name_taken None name us = true.
Proof.
  intros H. apply in_map_iff in H. destruct H as (u & E & Hu).
  unfold name_taken. apply existsb_exists. exists u. split; [assumption|].
  simpl. apply String.eqb_eq, E.
Qed.

Lemma unit_by_id_Some (key : Z) (db : Store) (unit : Unit.t) :
  unit_by_id key db = Some unit -> In unit (units db) /\ Unit.id unit = key.
Proof.
  unfold unit_by_id, first. intros H.
  assert (Hin : In unit (List.filter (fun u => Unit.id u =? key) (units db))).
  { destruct (List.filter _ (units db)); [discriminate|].
    injection H as ->. left; reflexivity. }
  apply filter_In in Hin. destruct Hin as [Hin E]. apply Z.eqb_eq in E. auto.
Qed.

Section ReplaceUnit.

Variables (key : Z) (unit : Unit.t).

Lemma replace_ids (us : list Unit.t) :
  Unit.id unit = key ->
  map Unit.id (map (replace_unit key unit) us) = map Unit.id us.
Proof.
  intros Hkey. induction us as [|u us IH]; simpl; [reflexivity|].
  rewrite IH. f_equal. unfold replace_unit.
  destruct (Z.eqb_spec (Unit.id u) key); congruence.
Qed.

Lemma replace_absent (us : list Unit.t) :
  ~ In key (map Unit.id us) -> map (replace_unit key unit) us = us.
Proof.
  induction us as [|u us IH]; simpl; [reflexivity|].
  intros H. rewrite IH by tauto. f_equal. unfold replace_unit.
  destruct (Z.eqb_spec (Unit.id u) key); [tauto|reflexivity].
Qed.

Lemma replace_names (us : list Unit.t) :
  List.NoDup (map Unit.id us) ->
  List.NoDup (map Unit.name us) ->
  (forall u, In u us -> Unit.id u <> key -> Unit.name u <> Unit.name unit) ->
  List.NoDup (map Unit.name (map (replace_unit key unit) us)).
Proof.
  induction us as [|u us IH]; simpl; intros Hid Hname Hother; [constructor|].
  apply List.NoDup_cons_iff in Hid. destruct Hid as [Hu Hid].
  apply List.NoDup_cons_iff in Hname. destruct Hname as [Hn Hname].
  unfold replace_unit at 1. destruct (Z.eqb_spec (Unit.id u) key) as [E|E].
  - rewrite replace_absent by congruence.
    constructor; [|assumption].
    intros Hin. apply in_map_iff in Hin. destruct Hin as (v & Ev & Hv).
    apply (Hother v); [right; assumption| |assumption].
    intros Ek. apply Hu. apply in_map_iff. exists v. split; [congruence|assumption].
  - constructor; [|apply IH; auto].
    intros Hin. apply in_map_iff in Hin. destruct Hin as (v & Ev & Hv).
    apply in_map_iff in Hv. destruct Hv as (w & Ew & Hw).
    unfold replace_unit in Ew.
    destruct (Z.eqb_spec (Unit.id w) key) as [Ek|Ek]; subst v.
    + apply (Hother u); [left; reflexivity|assumption|congruence].
    + apply Hn. apply in_map_iff. exists w. auto.
Qed.

End ReplaceUnit.

(** ** What each operation does to the store *)

Lemma dashboard_store (today : Py.date) (request : Request) (db : Store) :
  snd (serve (dashboard today request) db) = db.
Proof.
  run_session. destruct (get_current_user request db); reflexivity.
Qed.

Lemma qa_form_store (today : Py.date) (request : Request) (qa_type : string)
    (unit_id : option Z) (db : Store) :
  snd (serve (qa_form today request qa_type unit_id) db) = db.
Proof.
  run_session.
  destruct (get_current_user request db); [|reflexivity].
  destruct (SASQART_TESTS !! qa_type); [|reflexivity].
  destruct unit_id as [i|]; [destruct (i =? 0)|]; reflexivity.
Qed.

Lemma history_page_store (today : Py.date) (request : Request)
    (start_date end_date : option Py.date) (qa_type : option string)
    (unit_id : option Z) (db : Store) :
  snd (serve (history_page today request start_date end_date qa_type unit_id) db) = db.
Proof.
  run_session.
  destruct (get_current_user request db); [|reflexivity].
  destruct start_date; [reflexivity|].
  destruct (Py.date_sub_days today 30); reflexivity.
Qed.

Lemma trends_page_store (today : Py.date) (request : Request) (unit_id : option Z)
    (energy : option string) (days : Z) (db : Store) :
  snd (serve (trends_page today request unit_id energy days) db) = db.
Proof.
  run_session.
  destruct (get_current_user request db); [|reflexivity].
  destruct unit_id as [i|]; [destruct energy as [e|]|]; try reflexivity.
  destruct (negb (i =? 0) && Py.truthy e); [|reflexivity].
  destruct (Py.date_sub_days today days); reflexivity.
Qed.

Lemma units_page_store (request : Request) (db : Store) :
  snd (serve (units_page request) db) = db.
Proof.
  run_session. destruct (get_current_user request db); reflexivity.
Qed.

Lemma startup_store (db : Store) :
  let db' := snd (serve startup db) in
  qa_reports db' = qa_reports db
  /\ qa_tests db' = qa_tests db
  /\ output_readings db' = output_readings db
  /\ (units db' = units db
      \/ units db = []
         /\ map (fun u => (Unit.id u, Unit.name u)) (units db')
            = [(1, "Linac 1"); (2, "TrueBeam")]).
Proof.
  destruct db as [us un qr qt o a].
  destruct us as [|u us]; destruct un as [|v un]; vm_compute;
    repeat (split; [reflexivity|]);
    first [left; reflexivity | right; split; reflexivity].
Qed.

Lemma test_rows_report_id (form_data : gmap string string) (report_id : Z)
    (tests : list TestDef.t) (old : list QATest.t) (t : QATest.t) :
  In t (test_rows form_data report_id tests old) -> QATest.report_id t = report_id.
Proof.
  revert old. induction tests as [|test_def rest IH]; intros old; simpl; [tauto|].
  intros [<-|H]; [reflexivity|]. exact (IH _ H).
Qed.

Lemma save_qa_report_store (request : Request) (qa_type : string) (db : Store) :
  let db' := snd (serve (save_qa_report request qa_type) db) in
  db' = db
  \/ exists report rows,
       QAReport.id report = next_id (map QAReport.id (qa_reports db))
       /\ (forall t, In t rows -> QATest.report_id t = QAReport.id report)
       /\ units db' = units db
       /\ output_readings db' = output_readings db
       /\ qa_reports db' = qa_reports db ++ [report]
       /\ qa_tests db' = qa_tests db ++ rows.
Proof.
  rewrite save_qa_report_eq.
  destruct (get_current_user request db) as [user|]; [|left; reflexivity].
  destruct (Py.strptime_date _) as [date|e]; [|left; reflexivity].
  destruct (Py.int _) as [unit_id|e]; [|left; reflexivity].
  destruct (form request !! "performer") as [performer|]; [|left; reflexivity].
  destruct (SASQART_TESTS !! qa_type) as [tests|]; [|left; reflexivity].
  right.
  exists (report_row (form request) qa_type user date unit_id performer db).
  eexists.
  split; [reflexivity|].
  split; [|destruct (unit_by_id unit_id db); cbn; repeat split; reflexivity].
  intros t. apply test_rows_report_id.
Qed.

Lemma save_output_reading_store (request : Request) (db : Store) :
  let db' := snd (serve (save_output_reading request) db) in
  db' = db \/ exists row, db' = with_output_reading row db.
Proof.
  rewrite save_output_reading_eq.
  destruct (get_current_user request db); [|left; reflexivity].
  destruct (json request) as [data|]; [|left; reflexivity].
  destruct (Py.strptime_date _); [|left; reflexivity].
  destruct (PrimFloat.eqb _ _); [left; reflexivity|].
  destruct (PrimFloat.is_nan (ReadingData.reading data)); [left; reflexivity|].
  destruct (PrimFloat.is_nan (ReadingData.reference data)); [left; reflexivity|].
  right. eexists. reflexivity.
Qed.

Lemma save_unit_store (request : Request) (db : Store) :
  let db' := snd (serve (save_unit request) db) in
  db' = db
  \/ exists old unit,
       name_taken (option_map Unit.id old) (Unit.name unit) (units db) = false
       /\ match old with
          | Some old => In old (units db) /\ Unit.id unit = Unit.id old
          | None => Unit.id unit = next_id (map Unit.id (units db))
          end
       /\ units db' = units (with_unit old unit db)
       /\ qa_reports db' = qa_reports db
       /\ qa_tests db' = qa_tests db
       /\ output_readings db' = output_readings db.
Proof.
  rewrite save_unit_eq.
  destruct (get_current_user request db) as [user|]; [|left; reflexivity].
  destruct (unit_target (form request) db) as [old|e] eqn:Eold; [|left; reflexivity].
  destruct (unit_install_date (form request) old) as [d|e]; [|left; reflexivity].
  destruct (form request !! "name") as [name|]; [|left; reflexivity].
  destruct (name_taken _ name (units db)) eqn:Etaken; [left; reflexivity|].
  right. exists old, (unit_row (form request) old name d db).
  split; [exact Etaken|].
  split; [|cbn; repeat split; reflexivity].
  destruct old as [old|]; [|reflexivity].
  split; [|reflexivity].
  unfold unit_target in Eold.
  destruct (form request !! "unit_id") as [i|]; [|discriminate].
  destruct (Py.truthy i && negb (String.eqb i "new")); [|discriminate].
  destruct (Py.int (Some i)) as [key|]; [|discriminate].
  destruct (unit_by_id key db) as [u|] eqn:Eu; [|discriminate].
  injection Eold as ->. apply unit_by_id_Some in Eu. tauto.
Qed.

(** ** The invariants hold in every reachable store *)

Lemma NoDup_snoc {A : Type} (l : list A) (x : A) :
  List.NoDup l -> ~ In x l -> List.NoDup (l ++ [x]).
Proof.
  induction 1 as [|y l Hy Hl IH]; simpl; intros Hx.
  - repeat constructor. simpl. tauto.
  - constructor.
    + intros Hin. apply in_app_or in Hin. simpl in Hin. intuition congruence.
    + apply IH. tauto.
Qed.

Lemma units_ok_ext (db db' : Store) :
  units db' = units db ->
  units_keyed db /\ unit_names_unique db ->
  units_keyed db' /\ unit_names_unique db'.
Proof. unfold units_keyed, unit_names_unique. intros ->. tauto. Qed.

Lemma tests_owned_ext (db db' : Store) :
  qa_reports db' = qa_reports db ->
  qa_tests db' = qa_tests db ->
  tests_owned db -> tests_owned db'.
Proof. unfold tests_owned. intros -> ->. tauto. Qed.

Lemma units_ok_startup (db : Store) :
  units_keyed db /\ unit_names_unique db ->
  units_keyed (snd (serve startup db)) /\ unit_names_unique (snd (serve startup db)).
Proof.
  intros Hok. destruct (startup_store db) as (_ & _ & _ & [Hu|[_ Hu]]).
  - exact (units_ok_ext _ _ Hu Hok).
  - unfold units_keyed, unit_names_unique. split.
    + replace (map Unit.id (units (serve startup db).2)) with [1; 2].
      * repeat constructor; simpl; intuition discriminate.
      * change [1; 2] with (map fst [(1, "Linac 1"); (2, "TrueBeam")]).
        rewrite <- Hu, map_map. reflexivity.
    + replace (map Unit.name (units (serve startup db).2)) with ["Linac 1"; "TrueBeam"].
      * repeat constructor; simpl; intuition discriminate.
      * change ["Linac 1"; "TrueBeam"] with (map snd [(1, "Linac 1"); (2, "TrueBeam")]).
        rewrite <- Hu, map_map. reflexivity.
Qed.

Lemma units_ok_save_unit (request : Request) (db : Store) :
  units_keyed db /\ unit_names_unique db ->
  units_keyed (snd (serve (save_unit request) db))
  /\ unit_names_unique (snd (serve (save_unit request) db)).
Proof.
  intros Hok.
  destruct (save_unit_store request db)
    as [->|(old & unit & Hfree & Hold & Hu & _)]; [exact Hok|].
  destruct Hok as (Hk & Hn).
  unfold units_keyed, unit_names_unique in *.
  rewrite Hu. split.
  - destruct old as [old|]; simpl.
    + destruct Hold as [_ Hid]. rewrite (replace_ids _ _ _ Hid). exact Hk.
    + rewrite map_app. simpl. apply NoDup_snoc; [exact Hk|].
      rewrite Hold. apply next_id_fresh.
  - pose proof (proj1 (name_taken_false _ _ _) Hfree) as Hother.
    destruct old as [old|]; simpl.
    + destruct Hold as [_ Hid]. apply replace_names; [exact Hk|exact Hn|].
      intros u Hin Hne. apply Hother; [exact Hin|].
      simpl. apply negb_true_iff, Z.eqb_neq, Hne.
    + rewrite map_app. simpl. apply NoDup_snoc; [exact Hn|].
      intros Hin. apply in_map_iff in Hin. destruct Hin as (u & E & Hin).
      exact (Hother u Hin eq_refl E).
Qed.

Lemma units_ok_step (today : Py.date) (op : operation) (db : Store) :
  units_keyed db /\ unit_names_unique db ->
  units_keyed (step today op db) /\ unit_names_unique (step today op db).
Proof.
  intros Hok. destruct op; unfold step.
  - apply units_ok_startup, Hok.
  - rewrite dashboard_store. exact Hok.
  - rewrite qa_form_store. exact Hok.
  - destruct (save_qa_report_store request qa_type db)
      as [->|(report & rows & _ & _ & Hu & _)]; [exact Hok|].
    exact (units_ok_ext _ _ Hu Hok).
  - rewrite history_page_store. exact Hok.
  - rewrite trends_page_store. exact Hok.
  - rewrite units_page_store. exact Hok.
  - apply units_ok_save_unit, Hok.
  - destruct (save_output_reading_store request db) as [->|(row & ->)]; exact Hok.
Qed.

Lemma tests_owned_save_qa_report (request : Request) (qa_type : string) (db : Store) :
  tests_owned db -> tests_owned (snd (serve (save_qa_report request qa_type) db)).
Proof.
  intros Hown.
  destruct (save_qa_report_store request qa_type db)
    as [->|(report & rows & Hid & Hrows & _ & _ & Hr & Ht)]; [exact Hown|].
  unfold tests_owned in *. rewrite Hr, Ht.
  intros t Hin. rewrite map_app. apply in_or_app.
  apply in_app_or in Hin. destruct Hin as [Hin|Hin].
  - left. apply Hown, Hin.
  - right. left. symmetry. apply Hrows, Hin.
Qed.

Lemma tests_owned_step (today : Py.date) (op : operation) (db : Store) :
  tests_owned db -> tests_owned (step today op db).
Proof.
  intros Hown. destruct op; unfold step.
  - destruct (startup_store db) as (Hr & Ht & _).
    exact (tests_owned_ext _ _ Hr Ht Hown).
  - rewrite dashboard_store. exact Hown.
  - rewrite qa_form_store. exact Hown.
  - apply tests_owned_save_qa_report, Hown.
  - rewrite history_page_store. exact Hown.
  - rewrite trends_page_store. exact Hown.
  - rewrite units_page_store. exact Hown.
  - destruct (save_unit_store request db)
      as [->|(old & unit & _ & _ & _ & Hr & Ht & _)]; [exact Hown|].
    exact (tests_owned_ext _ _ Hr Ht Hown).
  - destruct (save_output_reading_store request db) as [->|(row & ->)]; exact Hown.
Qed.

Lemma store_ok_empty : store_ok empty_store.
Proof.
  unfold store_ok, units_keyed, unit_names_unique, tests_owned; simpl.
  repeat split; try constructor. intros t [].
Qed.

Lemma store_ok_step (today : Py.date) (op : operation) (db : Store) :
  store_ok db -> store_ok (step today op db).
Proof.
  unfold store_ok. intros (Hk & Hn & Hown).
  destruct (units_ok_step today op db (conj Hk Hn)) as [Hk' Hn'].
  pose proof (tests_owned_step today op db Hown). tauto.
Qed.

Lemma reachable_run (today : Py.date) (ops : list operation) (db : Store) :
  reachable db -> reachable (run today ops db).
Proof.
  revert db. induction ops as [|op ops IH]; intros db Hr; simpl; [exact Hr|].
  apply IH. constructor. exact Hr.
Qed.

Example sample_db_reachable : reachable sample_db.
Proof.
  replace sample_db with (run sample_today sample_operations empty_store)
    by (vm_compute; reflexivity).
  apply reachable_run. constructor.
Qed.

Lemma reachable_store_ok (db : Store) : reachable db -> store_ok db.
Proof.
  induction 1 as [|today op db _ IH].
  - exact store_ok_empty.
  - apply store_ok_step, IH.
Qed.

(** C10.  Unit names are unique in every store the application can reach,
    whatever the [active] flags, and every operation keeps them unique: it
    takes a store in which the keys and the names of the units are unique to
    such a store.  Creating a unit whose name another unit already carries
    fails and leaves the store as it was; the failure is the violation of
    the [UNIQUE] constraint on [units.name], unless the installation date of
    the form is malformed and is rejected first. *)
Theorem C10_unit_names_unique :
  (forall db, reachable db -> unit_names_unique db)
  /\ (forall today op db,
        units_keyed db -> unit_names_unique db ->
        units_keyed (step today op db) /\ unit_names_unique (step today op db))
  /\ (forall request db user name,
        get_current_user request db = Some user ->
        creates_unit (form request) ->
        form request !! "name" = Some name ->
        In name (map Unit.name (units db)) ->
        snd (serve (save_unit request) db) = db
        /\ (exists e, fst (serve (save_unit request) db) = Py.Raise e)
        /\ (forall d,
              unit_install_date (form request) None = Py.Ok d ->
              fst (serve (save_unit request) db)
              = Py.Raise (Py.IntegrityError "UNIQUE constraint failed: units.name"))).
Proof.
  split; [|split].
  - intros db Hr. apply reachable_store_ok in Hr. apply Hr.
  - intros today op db Hk Hn. apply units_ok_step. auto.
  - intros request db user name Huser Hnew Hname Hdup.
    rewrite save_unit_eq, Huser.
    assert (Hold : unit_target (form request) db = Py.Ok None).
    { unfold unit_target. unfold creates_unit in Hnew.
      destruct (form request !! "unit_id") as [i|]; [|reflexivity].
      destruct Hnew as [->| ->]; reflexivity. }
    rewrite Hold, Hname. cbn [option_map].
    rewrite (name_taken_true _ _ Hdup).
    destruct (unit_install_date (form request) None) as [d|e].
    + split; [reflexivity|]. split; [eexists; reflexivity|]. reflexivity.
    + split; [reflexivity|]. split; [eexists; reflexivity|]. discriminate.
Qed.

(** A second unit named ["TrueBeam"] is refused on the sample store. *)
Lemma C10_unit_names_unique_witness :
  get_current_user sample_duplicate sample_db = Some sample_admin
  /\ creates_unit (form sample_duplicate)
  /\ form sample_duplicate !! "name" = Some "TrueBeam"
  /\ In "TrueBeam" (map Unit.name (units sample_db))
  /\ serve (save_unit sample_duplicate) sample_db
     = (Py.Raise (Py.IntegrityError "UNIQUE constraint failed: units.name"), sample_db).
Proof.
  split; [reflexivity|].
  split; [right; reflexivity|].
  split; [reflexivity|].
  split; [right; left; reflexivity|].
  destruct (proj2 (proj2 C10_unit_names_unique) sample_duplicate sample_db
              sample_admin "TrueBeam" eq_refl (or_intror eq_refl) eq_refl
              (or_intror (or_introl eq_refl)))
    as (Hstore & _ & Hexn).
  rewrite (surjective_pairing (serve _ sample_db)).
  rewrite Hstore, (Hexn None eq_refl). reflexivity.
Defined.

Example sample_duplicate_unit :
  serve (save_unit (sample_request [("name", "TrueBeam")])) sample_db
  = (Py.Raise (Py.IntegrityError "UNIQUE constraint failed: units.name"), sample_db).
Proof. vm_compute. reflexivity. Qed.

Example sample_rename_unit :
  map Unit.name
    (units (snd (serve (save_unit (sample_request [("name", "Halcyon"); ("unit_id", "2")]))
                   sample_db)))
  = ["Linac 1"; "Halcyon"].
Proof. vm_compute. reflexivity. Qed.

(** ** Deviation of an output reading *)


(** *** Binary64 arithmetic never makes a NaN of finite operands *)

Section Rounding.

Variables prec emax : Z.










End Rounding.








(** What is not a number is not stored as one: a NaN for the reading or for
    the reference is refused by the [NOT NULL] columns and nothing is
    written, and against an infinite reference the deviation is kept as
    NULL; a deviation of -0.0 is kept as 0.0. *)
Example nan_reading_refused :
  serve (save_output_reading (sample_reading "2026-11-03" nan 100)) sample_db
  = (Py.Raise (Py.IntegrityError "NOT NULL constraint failed: output_readings.reading"),
     sample_db)
  /\ serve (save_output_reading (sample_reading "2026-11-03" 98 nan)) sample_db
     = (Py.Raise (Py.IntegrityError
                    "NOT NULL constraint failed: output_readings.reference"),
        sample_db).
Proof. split; vm_compute; reflexivity. Qed.

Example infinite_reference_null :
  fst (serve (save_output_reading (sample_reading "2026-11-03" 98 infinity)) sample_db)
  = Py.Ok (ReadingSaved 4 None)
  /\ fst (serve (save_output_reading (sample_reading "2026-11-03" (-100) (-100)))
            sample_db)
     = Py.Ok (ReadingSaved 4 (Some 0%float)).
Proof. split; vm_compute; reflexivity. Qed.

(** C4.  A reading recorded with a reference equal to zero is rejected and
    no row is written: the store is left as it was and the call raises.  For
    a logged-in user and a well-formed date the exception is the
    [ZeroDivisionError] of the division by the reference. *)
Theorem C4_zero_reference_rejected (request : Request) (db : Store)
    (data : ReadingData.t) :
  json request = Some data ->
  PrimFloat.eqb (ReadingData.reference data) 0%float = true ->
  snd (serve (save_output_reading request) db) = db
  /\ (exists e, fst (serve (save_output_reading request) db) = Py.Raise e)
  /\ (forall user date,
        get_current_user request db = Some user ->
        Py.strptime_date (Some (ReadingData.date data)) = Py.Ok date ->
        fst (serve (save_output_reading request) db) = Py.Raise Py.ZeroDivisionError).
Proof.
  intros Hjson Href.
  rewrite save_output_reading_eq, Hjson, Href.
  destruct (get_current_user request db) as [user|].
  - destruct (Py.strptime_date (Some (ReadingData.date data))) as [date|e].
    + split; [reflexivity|]. split; [eexists; reflexivity|]. reflexivity.
    + split; [reflexivity|]. split; [eexists; reflexivity|]. discriminate.
  - split; [reflexivity|]. split; [eexists; reflexivity|]. discriminate.
Qed.

(** A reading against the reference 0 on the sample store. *)
Lemma C4_zero_reference_rejected_witness :
  json (sample_reading "2026-11-03" 98 0) <> None
  /\ PrimFloat.eqb 0 0 = true
  /\ serve (save_output_reading (sample_reading "2026-11-03" 98 0)) sample_db
     = (Py.Raise Py.ZeroDivisionError, sample_db).
Proof.
  split; [discriminate|]. split; [reflexivity|].
  destruct (C4_zero_reference_rejected (sample_reading "2026-11-03" 98 0) sample_db
              {| ReadingData.date := "2026-11-03"; ReadingData.unit_id := 1;
                 ReadingData.energy := "6MV"; ReadingData.reading := 98%float;
                 ReadingData.reference := 0%float |} eq_refl eq_refl)
    as (Hstore & _ & Hexn).
  rewrite (surjective_pairing (serve _ sample_db)).
  rewrite Hstore, (Hexn sample_admin sample_today eq_refl eq_refl). reflexivity.
Defined.

Example negative_zero_reference :
  serve (save_output_reading (sample_reading "2026-11-03" 98 (-0))) sample_db
  = (Py.Raise Py.ZeroDivisionError, sample_db).
Proof. vm_compute. reflexivity. Qed.

(** ** Results for items outside the checklist *)

Lemma with_result_lookup (item status notes : string) (request : Request)
    (key : string) :
  key <> "status_" +:+ item ->
  key <> "notes_" +:+ item ->
  form (with_result item status notes request) !! key = form request !! key.
Proof.
  intros Hs Hn. unfold with_result. cbn [form].
  rewrite !lookup_insert_ne by congruence. reflexivity.
Qed.

Lemma with_result_test_rows (item status notes : string) (request : Request)
    (report_id : Z) (tests : list TestDef.t) (old : list QATest.t) :
  ~ In item (map TestDef.id tests) ->
  test_rows (form (with_result item status notes request)) report_id tests old
  = test_rows (form request) report_id tests old.
Proof.
  revert old. induction tests as [|test_def rest IH]; intros old Hnot; [reflexivity|].
  simpl in Hnot. cbn [test_rows]. unfold get_default.
  rewrite !with_result_lookup.
  - rewrite IH by tauto. reflexivity.
  - simpl. discriminate.
  - simpl. intros E. injection E as E. apply Hnot. left. exact E.
  - simpl. intros E. injection E as E. apply Hnot. left. exact E.
  - simpl. discriminate.
Qed.

(** C1, as stated, fails.  ["ZZ9"] is not an item of the quarterly
    checklist, and the call that submits a result for it is served: it
    writes report 5 and leaves a store that differs from the one it started
    on. *)
Lemma C1_counterexample :
  ~ In "ZZ9" (checklist_ids "quarterly")
  /\ form sample_unknown_item !! "status_ZZ9" = Some "pass"
  /\ fst (serve (save_qa_report sample_unknown_item "quarterly") sample_db)
     = Py.Ok (RedirectResponse "/history")
  /\ map QAReport.id
       (qa_reports (snd (serve (save_qa_report sample_unknown_item "quarterly") sample_db)))
     = map QAReport.id (qa_reports sample_db) ++ [5]
  /\ snd (serve (save_qa_report sample_unknown_item "quarterly") sample_db) <> sample_db.
Proof.
  split; [vm_compute; intuition discriminate|].
  split; [vm_compute; reflexivity|].
  split; [vm_compute; reflexivity|].
  split; [vm_compute; reflexivity|].
  intros E. apply (f_equal (fun db => length (qa_reports db))) in E.
  vm_compute in E. discriminate E.
Qed.

(** C1, amended.  A result submitted for an id that is not in the checklist
    of the session type is ignored: the call has the outcome, and leaves the
    store, of the call without that result. *)
Theorem C1_unknown_items_ignored (request : Request) (qa_type : string)
    (item status notes : string) (db : Store) :
  ~ In item (checklist_ids qa_type) ->
  serve (save_qa_report (with_result item status notes request) qa_type) db
  = serve (save_qa_report request qa_type) db.
Proof.
  intros Hnot. rewrite !save_qa_report_eq.
  change (get_current_user (with_result item status notes request) db)
    with (get_current_user request db).
  change (client_host (with_result item status notes request))
    with (client_host request).
  unfold report_row, get_default.
  rewrite !with_result_lookup by (simpl; discriminate).
  destruct (get_current_user request db) as [user|]; [|reflexivity].
  destruct (Py.strptime_date (form request !! "qa_date")) as [date|e]; [|reflexivity].
  destruct (Py.int (form request !! "unit_id")) as [unit_id|e]; [|reflexivity].
  destruct (form request !! "performer") as [performer|]; [|reflexivity].
  unfold checklist_ids in Hnot.
  destruct (SASQART_TESTS !! qa_type) as [tests|]; [|reflexivity].
  cbv zeta. cbn [QAReport.id].
  rewrite with_result_test_rows by exact Hnot. reflexivity.
Qed.

(** The result for ["ZZ9"] changes nothing on the sample store. *)
Lemma C1_unknown_items_ignored_witness :
  ~ In "ZZ9" (checklist_ids "quarterly")
  /\ serve (save_qa_report sample_unknown_item "quarterly") sample_db
     = serve (save_qa_report (sample_request (qa_fields "2026-11-03" "1")) "quarterly")
         sample_db.
Proof.
  assert (H : ~ In "ZZ9" (checklist_ids "quarterly")).
  { vm_compute. intuition discriminate. }
  split; [exact H|].
  exact (C1_unknown_items_ignored (sample_request (qa_fields "2026-11-03" "1"))
           "quarterly" "ZZ9" "pass" "" sample_db H).
Defined.

(** ** One test row per checklist item *)

Lemma test_rows_test_id (form_data : gmap string string) (report_id : Z)
    (tests : list TestDef.t) (old : list QATest.t) :
  map QATest.test_id (test_rows form_data report_id tests old) = map TestDef.id tests.
Proof.
  revert old. induction tests as [|test_def rest IH]; intros old; [reflexivity|].
  cbn [test_rows map QATest.test_id]. rewrite IH. reflexivity.
Qed.

Lemma test_rows_status (form_data : gmap string string) (report_id : Z)
    (tests : list TestDef.t) (old : list QATest.t) (t : QATest.t) :
  In t (test_rows form_data report_id tests old) ->
  QATest.status t = get_default form_data ("status_" +:+ QATest.test_id t) "".
Proof.
  revert old. induction tests as [|test_def rest IH]; intros old; simpl; [tauto|].
  intros [<-|H]; [reflexivity|]. exact (IH _ H).
Qed.

Lemma filter_all {A : Type} (f : A -> bool) (l : list A) :
  (forall x, In x l -> f x = true) -> List.filter f l = l.
Proof.
  induction l as [|x l IH]; simpl; intros H; [reflexivity|].
  rewrite (H x) by tauto. rewrite IH by auto. reflexivity.
Qed.

Lemma filter_none {A : Type} (f : A -> bool) (l : list A) :
  (forall x, In x l -> f x = false) -> List.filter f l = [].
Proof.
  induction l as [|x l IH]; simpl; intros H; [reflexivity|].
  rewrite (H x) by tauto. apply IH. auto.
Qed.

(** The rows a new report owns are the rows written with it, when every
    older row belongs to an older report. *)
Lemma new_report_tests (db : Store) (report : QAReport.t) (rows : list QATest.t) :
  tests_owned db ->
  QAReport.id report = next_id (map QAReport.id (qa_reports db)) ->
  (forall t, In t rows -> QATest.report_id t = QAReport.id report) ->
  QAReport.tests (qa_tests db ++ rows) report = rows.
Proof.
  intros Hown Hid Hrows. unfold QAReport.tests.
  rewrite List.filter_app, filter_none, filter_all; [reflexivity| |].
  - intros t Ht. apply Z.eqb_eq, Hrows, Ht.
  - intros t Ht. apply Z.eqb_neq. intros E.
    apply Hown in Ht. rewrite E, Hid in Ht. exact (next_id_fresh _ Ht).
Qed.

(** C5.  After a successful call the store holds one new report, and the
    test rows that report owns are one per item of the checklist of its
    type, in checklist order: as many rows as items, no [test_id] twice, and
    the status left empty for every item the form carries no status for. *)
Theorem C5_one_row_per_item (request : Request) (qa_type : string) (db db' : Store) :
  tests_owned db ->
  serve (save_qa_report request qa_type) db = (Py.Ok (RedirectResponse "/history"), db') ->
  exists report tests owned,
    SASQART_TESTS !! qa_type = Some tests
    /\ qa_reports db' = qa_reports db ++ [report]
    /\ ~ In (QAReport.id report) (map QAReport.id (qa_reports db))
    /\ owned = QAReport.tests (qa_tests db') report
    /\ map QATest.test_id owned = map TestDef.id tests
    /\ length owned = length tests
    /\ List.NoDup (map QATest.test_id owned)
    /\ forall t,
         In t owned ->
         form request !! ("status_" +:+ QATest.test_id t) = None ->
         QATest.status t = "".
Proof.
  intros Hown. rewrite save_qa_report_eq.
  destruct (get_current_user request db) as [user|]; [|discriminate].
  destruct (Py.strptime_date _) as [date|e]; [|discriminate].
  destruct (Py.int _) as [unit_id|e]; [|discriminate].
  destruct (form request !! "performer") as [performer|]; [|discriminate].
  destruct (SASQART_TESTS !! qa_type) as [tests|] eqn:Etests; [|discriminate].
  cbv zeta.
  destruct (unit_by_id unit_id db) as [unit|]; [|discriminate].
  intros E. injection E as <-.
  set (report := report_row (form request) qa_type user date unit_id performer db).
  set (rows := test_rows (form request) (QAReport.id report) tests (qa_tests db)).
  assert (Howned : QAReport.tests (qa_tests db ++ rows) report = rows).
  { apply new_report_tests; [exact Hown|reflexivity|].
    intros t. apply test_rows_report_id. }
  exists report, tests, rows.
  split; [reflexivity|]. split; [reflexivity|].
  split; [apply next_id_fresh|].
  split; [symmetry; exact Howned|].
  assert (Hids : map QATest.test_id rows = map TestDef.id tests)
    by apply test_rows_test_id.
  split; [exact Hids|].
  split; [rewrite <- (length_map QATest.test_id), Hids; apply length_map|].
  split; [rewrite Hids; exact (SASQART_ids_NoDup _ _ Etests)|].
  intros t Ht Hnone.
  rewrite (test_rows_status _ _ _ _ _ Ht). unfold get_default. rewrite Hnone. reflexivity.
Qed.

(** A daily session with one status submitted, on the sample store. *)
Lemma C5_one_row_per_item_witness :
  tests_owned sample_db
  /\ serve (save_qa_report sample_partial "daily") sample_db
     = (Py.Ok (RedirectResponse "/history"),
        snd (serve (save_qa_report sample_partial "daily") sample_db))
  /\ exists report tests owned,
       SASQART_TESTS !! "daily" = Some tests
       /\ qa_reports (snd (serve (save_qa_report sample_partial "daily") sample_db))
          = qa_reports sample_db ++ [report]
       /\ ~ In (QAReport.id report) (map QAReport.id (qa_reports sample_db))
       /\ owned
          = QAReport.tests
              (qa_tests (snd (serve (save_qa_report sample_partial "daily") sample_db)))
              report
       /\ map QATest.test_id owned = map TestDef.id tests
       /\ length owned = length tests
       /\ List.NoDup (map QATest.test_id owned)
       /\ forall t,
            In t owned ->
            form sample_partial !! ("status_" +:+ QATest.test_id t) = None ->
            QATest.status t = "".
Proof.
  assert (Hown : tests_owned sample_db).
  { intros t Hin. vm_compute in Hin.
    repeat (destruct Hin as [<-|Hin]; [vm_compute; auto 10|]). destruct Hin. }
  assert (Hcall :
    serve (save_qa_report sample_partial "daily") sample_db
    = (Py.Ok (RedirectResponse "/history"),
       snd (serve (save_qa_report sample_partial "daily") sample_db))).
  { vm_compute. reflexivity. }
  split; [exact Hown|]. split; [exact Hcall|].
  exact (C5_one_row_per_item _ _ _ _ Hown Hcall).
Defined.

Example sample_backfill :
  map (fun t => (QATest.test_id t, QATest.status t))
    (List.filter (fun t => QATest.report_id t =? 5)
       (qa_tests (snd (serve (save_qa_report sample_partial "daily") sample_db))))
  = [("DL1", "pass"); ("DL2", ""); ("DL3", ""); ("DL4", ""); ("DL5", "");
     ("DL6", ""); ("DL7", ""); ("DL8", ""); ("DL9", "")].
Proof. vm_compute. reflexivity. Qed.

(** ** A report for a unit that does not exist *)

(** C6 does not hold of the handler.  When the form names a unit that is
    not in the table, the report and its test rows are committed first and
    the call fails afterwards, on the name of the unit it did not find:
    the store keeps the report. *)
Theorem C6_unknown_unit_saved_then_fails (request : Request) (qa_type : string)
    (db : Store) (user : User.t) (date : Py.date) (unit_id : Z) (performer : string)
    (tests : list TestDef.t) :
  get_current_user request db = Some user ->
  Py.strptime_date (form request !! "qa_date") = Py.Ok date ->
  Py.int (form request !! "unit_id") = Py.Ok unit_id ->
  form request !! "performer" = Some performer ->
  SASQART_TESTS !! qa_type = Some tests ->
  unit_by_id unit_id db = None ->
  let report := report_row (form request) qa_type user date unit_id performer db in
  serve (save_qa_report request qa_type) db
  = (Py.Raise Py.AttributeError,
     with_qa_report report
       (test_rows (form request) (QAReport.id report) tests (qa_tests db)) db).
Proof.
  intros Huser Hdate Hunit Hperf Htests Hnone.
  rewrite save_qa_report_eq, Huser, Hdate, Hunit, Hperf, Htests.
  cbv zeta. rewrite Hnone. reflexivity.
Qed.

(** A quarterly session for unit 999 on the sample store: report 5 is
    written for it, with its one test row, and the call fails. *)
Lemma C6_unknown_unit_saved_then_fails_witness :
  unit_by_id 999 sample_db = None
  /\ fst (serve (save_qa_report sample_unknown_unit "quarterly") sample_db)
     = Py.Raise Py.AttributeError
  /\ map (fun r => (QAReport.id r, QAReport.unit_id r))
       (qa_reports (snd (serve (save_qa_report sample_unknown_unit "quarterly") sample_db)))
     = map (fun r => (QAReport.id r, QAReport.unit_id r)) (qa_reports sample_db)
       ++ [(5, 999)]
  /\ length (qa_tests (snd (serve (save_qa_report sample_unknown_unit "quarterly")
                              sample_db)))
     = S (length (qa_tests sample_db)).
Proof.
  split; [reflexivity|].
  rewrite (C6_unknown_unit_saved_then_fails sample_unknown_unit "quarterly" sample_db
             sample_admin sample_today 999 "A. Physicist" SASQART_quarterly
             eq_refl eq_refl eq_refl eq_refl eq_refl eq_refl).
  split; [reflexivity|]. split; reflexivity.
Defined.

(** * Further properties *)

(** ** The calendar: [isoformat] and [strptime] *)

Lemma all_from_spec (p : Z -> bool) (n : nat) (start r : Z) :
  all_from n start p = true -> start <= r < start + Z.of_nat n -> p r = true.
Proof.
  revert start. induction n as [|n IH]; intros start H Hr; [lia|].
  simpl in H. apply andb_true_iff in H. destruct H as [Hs Hn].
  destruct (Z.eq_dec r start) as [->|Hne]; [exact Hs|].
  apply (IH (start + 1) Hn). lia.
Qed.

Lemma cycle_checked : all_from (Z.to_nat 146097) 1 cycle_day_ok = true.
Proof. vm_cast_no_check (eq_refl true). Qed.

Lemma ord2ymd_shift (r q : Z) :
  1 <= r <= 146097 -> 
  Py.ord2ymd (r + 146097 * q) = let '(y, m, d) := Py.ord2ymd r in (y + 400 * q, m, d).
Proof.
  intros Hr. unfold Py.ord2ymd, Py.DI400Y.
  replace (r + 146097 * q - 1) with (r - 1 + q * 146097) by lia.
  rewrite Z_div_plus_full, Z_mod_plus_full by discriminate.
  rewrite (Z.div_small (r - 1) 146097), (Z.mod_small (r - 1) 146097) by lia.
  cbv zeta.
  repeat match goal with |- context [if ?c then _ else _] => destruct c end;
    f_equal; try f_equal; lia.
Qed.

Lemma is_leap_shift (y q : Z) : Py.is_leap (y + 400 * q) = Py.is_leap y.
Proof.
  unfold Py.is_leap.
  replace ((y + 400 * q) mod 4) with (y mod 4)
    by (replace (y + 400 * q) with (y + (100 * q) * 4) by lia; symmetry; apply Z_mod_plus_full).
  replace ((y + 400 * q) mod 100) with (y mod 100)
    by (replace (y + 400 * q) with (y + (4 * q) * 100) by lia; symmetry; apply Z_mod_plus_full).
  replace ((y + 400 * q) mod 400) with (y mod 400)
    by (replace (y + 400 * q) with (y + q * 400) by lia; symmetry; apply Z_mod_plus_full).
  reflexivity.
Qed.

Lemma days_before_year_shift (y q : Z) :
  Py.days_before_year (y + 400 * q) = Py.days_before_year y + 146097 * q.
Proof.
  unfold Py.days_before_year. cbv zeta.
  replace (y + 400 * q - 1) with (y - 1 + 400 * q) by lia.
  replace ((y - 1 + 400 * q) / 4) with ((y - 1) / 4 + 100 * q)
    by (replace (y - 1 + 400 * q) with (y - 1 + (100 * q) * 4) by lia;
        symmetry; apply Z_div_plus_full; discriminate).
  replace ((y - 1 + 400 * q) / 100) with ((y - 1) / 100 + 4 * q)
    by (replace (y - 1 + 400 * q) with (y - 1 + (4 * q) * 100) by lia;
        symmetry; apply Z_div_plus_full; discriminate).
  replace ((y - 1 + 400 * q) / 400) with ((y - 1) / 400 + q)
    by (replace (y - 1 + 400 * q) with (y - 1 + q * 400) by lia;
        symmetry; apply Z_div_plus_full; discriminate).
  lia.
Qed.

Lemma ymd2ord_shift (y m d q : Z) :
  Py.ymd2ord (y + 400 * q) m d = Py.ymd2ord y m d + 146097 * q.
Proof.
  unfold Py.ymd2ord, Py.days_before_month.
  rewrite days_before_year_shift, is_leap_shift. lia.
Qed.

Lemma days_in_month_shift (y m q : Z) :
  Py.days_in_month (y + 400 * q) m = Py.days_in_month y m.
Proof. unfold Py.days_in_month. rewrite is_leap_shift. reflexivity. Qed.

Lemma ord2ymd_mkdate (n : Z) :
  1 <= n <= Py.MAXORDINAL ->
  let '(y, m, d) := Py.ord2ymd n in Py.mkdate y m d = Some n.
Proof.
  unfold Py.MAXORDINAL. intros Hn.
  set (q := (n - 1) / 146097). set (r := (n - 1) mod 146097 + 1).
  assert (Hr : 1 <= r <= 146097).
  { unfold r. pose proof (Z.mod_pos_bound (n - 1) 146097 eq_refl). lia. }
  assert (Hq : 0 <= q <= 24).
  { unfold q. split.
    - apply Z.div_pos; lia.
    - assert (q < 25); [apply Z.div_lt_upper_bound; lia|lia]. }
  assert (En : n = r + 146097 * q).
  { pose proof (Z_div_mod_eq_full (n - 1) 146097) as E. fold q in E. unfold r. lia. }
  pose proof (all_from_spec _ _ 1 r cycle_checked) as Hc.
  rewrite Z2Nat.id in Hc by lia. specialize (Hc ltac:(lia)).
  unfold cycle_day_ok in Hc.
  rewrite En, ord2ymd_shift by exact Hr.
  destruct (Py.ord2ymd r) as [[y m] d].
  rewrite !andb_true_iff, orb_true_iff, !Z.leb_le, Z.eqb_eq, Z.ltb_lt in Hc.
  destruct Hc as (((((((Hy1 & Hy2) & Hm1) & Hm2) & Hd1) & Hd2) & Ho) & Hlast).
  unfold Py.mkdate, Py.MINYEAR, Py.MAXYEAR.
  rewrite days_in_month_shift, ymd2ord_shift, Ho.
  assert (Hmax : y + 400 * q <= 9999) by lia.
  replace ((1 <=? y + 400 * q) && (y + 400 * q <=? 9999) && (1 <=? m) && (m <=? 12)
           && (1 <=? d) && (d <=? Py.days_in_month y m)) with true; [reflexivity|].
  symmetry. rewrite !andb_true_iff, !Z.leb_le. lia.
Qed.

Lemma digit_digit_char (k : Z) : 0 <= k <= 9 -> Py.digit (Py.digit_char k) = Some k.
Proof.
  intros H.
  assert (E : k = 0 \/ k = 1 \/ k = 2 \/ k = 3 \/ k = 4 \/ k = 5 \/ k = 6 \/ k = 7
              \/ k = 8 \/ k = 9) by lia.
  repeat (destruct E as [->|E]; [reflexivity|]). subst k. reflexivity.
Qed.

Lemma small_cases (P : Z -> Prop) (lo : Z) (n : nat) :
  (forall i, (i < n)%nat -> P (lo + Z.of_nat i)) ->
  forall k, lo <= k < lo + Z.of_nat n -> P k.
Proof.
  intros H k Hk. replace k with (lo + Z.of_nat (Z.to_nat (k - lo))) by lia.
  apply H. lia.
Qed.

Lemma parse_month_fmt02 (m : Z) : 1 <= m <= 12 -> Py.parse_month (Py.fmt02 m) = Some m.
Proof.
  intros H.
  assert (E : m = 1 \/ m = 2 \/ m = 3 \/ m = 4 \/ m = 5 \/ m = 6 \/ m = 7 \/ m = 8
              \/ m = 9 \/ m = 10 \/ m = 11 \/ m = 12) by lia.
  repeat (destruct E as [->|E]; [reflexivity|]). subst m. reflexivity.
Qed.

Lemma split_dash_fmt02 (m : Z) (rest : string) :
  1 <= m <= 12 ->
  Py.split_dash (Py.fmt02 m +:+ String "-" rest) = Some (Py.fmt02 m, rest).
Proof.
  intros H.
  assert (E : m = 1 \/ m = 2 \/ m = 3 \/ m = 4 \/ m = 5 \/ m = 6 \/ m = 7 \/ m = 8
              \/ m = 9 \/ m = 10 \/ m = 11 \/ m = 12) by lia.
  repeat (destruct E as [->|E]; [reflexivity|]). subst m. reflexivity.
Qed.

Lemma parse_day_fmt02 (d : Z) : 1 <= d <= 31 -> Py.parse_day (Py.fmt02 d) = Some d.
Proof.
  intros H. pattern d. apply (small_cases _ 1 31); [|lia].
  intros i Hi.
  do 31 (destruct i as [|i]; [reflexivity|]). lia.
Qed.

Lemma mkdate_Some (y m d n : Z) :
  Py.mkdate y m d = Some n ->
  1 <= y <= 9999 /\ 1 <= m <= 12 /\ 1 <= d <= 31 /\ n = Py.ymd2ord y m d.
Proof.
  unfold Py.mkdate, Py.MINYEAR, Py.MAXYEAR.
  destruct (_ && _) eqn:E; [|discriminate].
  intros H. injection H as <-.
  rewrite !andb_true_iff, !Z.leb_le in E.
  assert (Py.days_in_month y m <= 31).
  { unfold Py.days_in_month. destruct (_ && _); [lia|].
    assert (Em : m = 1 \/ m = 2 \/ m = 3 \/ m = 4 \/ m = 5 \/ m = 6 \/ m = 7 \/ m = 8
              \/ m = 9 \/ m = 10 \/ m = 11 \/ m = 12) by lia.
    repeat (destruct Em as [->|Em]; [simpl; lia|]). subst m. simpl. lia. }
  lia.
Qed.

Lemma append_cons (a : ascii) (s t : string) : String a s +:+ t = String a (s +:+ t).
Proof. reflexivity. Qed.

Lemma append_nil (t : string) : "" +:+ t = t.
Proof. reflexivity. Qed.

Lemma strptime_formatted (y m d : Z) :
  1 <= y <= 9999 -> 1 <= m <= 12 -> 1 <= d <= 31 ->
  Py.strptime_date (Some (Py.fmt04 y +:+ "-" +:+ Py.fmt02 m +:+ "-" +:+ Py.fmt02 d))
  = match Py.mkdate y m d with
    | Some o => Py.Ok o
    | None => Py.Raise Py.ValueError
    end.
Proof.
  intros Hy Hm Hd.
  unfold Py.fmt04. unfold Py.fmt02 at 1.
  rewrite !append_cons, !append_nil.
  unfold Py.strptime_date.
  rewrite !digit_digit_char by (Z.div_mod_to_equations; lia).
  rewrite split_dash_fmt02 by exact Hm.
  cbn [Ascii.eqb Bool.eqb].
  rewrite parse_month_fmt02, parse_day_fmt02 by assumption.
  replace (1000 * (y / 1000) + 100 * (y / 100 mod 10) + 10 * (y mod 100 / 10)
           + y mod 100 mod 10) with y by (Z.div_mod_to_equations; lia).
  reflexivity.
Qed.

Lemma strptime_isoformat (n : Z) :
  1 <= n <= Py.MAXORDINAL -> Py.strptime_date (Some (Py.isoformat n)) = Py.Ok n.
Proof.
  intros Hn. pose proof (ord2ymd_mkdate n Hn) as H.
  unfold Py.isoformat. destruct (Py.ord2ymd n) as [[y m] d].
  destruct (mkdate_Some _ _ _ _ H) as (Hy & Hm & Hd & _).
  rewrite strptime_formatted, H by assumption. reflexivity.
Qed.

(** ** The order of a trend and of a history *)

Lemma mkdate_valid (y m d n : Z) :
  Py.mkdate y m d = Some n -> 1 <= n <= Py.MAXORDINAL.
Proof.
  unfold Py.mkdate, Py.MINYEAR, Py.MAXYEAR, Py.MAXORDINAL.
  destruct (_ && _) eqn:E; [|discriminate].
  intros H. injection H as <-.
  rewrite !andb_true_iff, !Z.leb_le in E.
  destruct E as (((((Hy1 & Hy2) & Hm1) & Hm2) & Hd1) & Hd2).
  assert (Hmonth : Py.days_before_month y m + Py.days_in_month y m
                   <= 365 + (if Py.is_leap y then 1 else 0)).
  { unfold Py.days_before_month, Py.days_in_month.
    assert (Em : m = 1 \/ m = 2 \/ m = 3 \/ m = 4 \/ m = 5 \/ m = 6 \/ m = 7 \/ m = 8
              \/ m = 9 \/ m = 10 \/ m = 11 \/ m = 12) by lia.
    repeat (destruct Em as [->|Em]; [destruct (Py.is_leap y); simpl; lia|]).
    subst m. destruct (Py.is_leap y); simpl; lia. }
  assert (Hbefore : 0 <= Py.days_before_month y m).
  { unfold Py.days_before_month.
    assert (Em : m = 1 \/ m = 2 \/ m = 3 \/ m = 4 \/ m = 5 \/ m = 6 \/ m = 7 \/ m = 8
              \/ m = 9 \/ m = 10 \/ m = 11 \/ m = 12) by lia.
    repeat (destruct Em as [->|Em]; [destruct (Py.is_leap y); simpl; lia|]).
    subst m. destruct (Py.is_leap y); simpl; lia. }
  assert (Hyear : 0 <= Py.days_before_year y
                  /\ Py.days_before_year y + 365 + (if Py.is_leap y then 1 else 0)
                     <= 3652059).
  { destruct (Z.eq_dec y 9999) as [->|Hne]; [vm_compute; split; discriminate|].
    unfold Py.days_before_year. cbv zeta.
    pose proof (Z.div_pos (y - 1) 4 ltac:(lia) eq_refl).
    pose proof (Z.div_pos (y - 1) 400 ltac:(lia) eq_refl).
    assert ((y - 1) / 100 <= (y - 1) / 4)
      by (apply Z.div_le_compat_l; lia).
    assert ((y - 1) / 4 < 2500) by (apply Z.div_lt_upper_bound; lia).
    assert ((y - 1) / 400 < 25) by (apply Z.div_lt_upper_bound; lia).
    pose proof (Z.div_pos (y - 1) 100 ltac:(lia) eq_refl).
    destruct (Py.is_leap y); lia. }
  unfold Py.ymd2ord. lia.
Qed.

Lemma strptime_date_valid (s : option string) (d : Py.date) :
  Py.strptime_date s = Py.Ok d -> 1 <= d <= Py.MAXORDINAL.
Proof.
  unfold Py.strptime_date.
  destruct s as [s|]; [|discriminate].
  destruct s as [|y1 [|y2 [|y3 [|y4 [|dash rest]]]]]; try discriminate.
  destruct (Py.digit y1), (Py.digit y2), (Py.digit y3), (Py.digit y4);
    try discriminate.
  destruct (Py.split_dash rest) as [[ms ds]|]; [|discriminate].
  destruct (Ascii.eqb dash "-"); [|discriminate].
  destruct (Py.parse_month ms) as [m|]; [|discriminate].
  destruct (Py.parse_day ds) as [dd|]; [|discriminate].
  destruct (Py.mkdate _ m dd) as [o|] eqn:E; [|discriminate].
  intros H. injection H as <-. exact (mkdate_valid _ _ _ _ E).
Qed.

Lemma readings_dated_step (today : Py.date) (op : operation) (db : Store) :
  readings_dated db -> readings_dated (step today op db).
Proof.
  intros Hdb.
  assert (Hsame : forall db', output_readings db' = output_readings db ->
                              readings_dated db').
  { unfold readings_dated. intros db' ->. exact Hdb. }
  destruct op; unfold step.
  - apply Hsame. apply (startup_store db).
  - rewrite dashboard_store. exact Hdb.
  - rewrite qa_form_store. exact Hdb.
  - apply Hsame.
    destruct (save_qa_report_store request qa_type db)
      as [->|(report & rows & _ & _ & _ & Ho & _)]; [reflexivity|exact Ho].
  - rewrite history_page_store. exact Hdb.
  - rewrite trends_page_store. exact Hdb.
  - rewrite units_page_store. exact Hdb.
  - apply Hsame.
    destruct (save_unit_store request db)
      as [->|(old & unit & _ & _ & _ & _ & _ & Ho)]; [reflexivity|exact Ho].
  - rewrite save_output_reading_eq.
    destruct (get_current_user request db) as [user|]; [|exact Hdb].
    destruct (json request) as [data|]; [|exact Hdb].
    destruct (Py.strptime_date _) as [date|e] eqn:Edate; [|exact Hdb].
    destruct (PrimFloat.eqb _ _); [exact Hdb|].
    destruct (PrimFloat.is_nan (ReadingData.reading data)); [exact Hdb|].
    destruct (PrimFloat.is_nan (ReadingData.reference data)); [exact Hdb|].
    cbv zeta. cbn [snd]. intros r Hr. cbn in Hr.
    apply in_app_or in Hr. destruct Hr as [Hr|[<-|[]]]; [exact (Hdb r Hr)|].
    exact (strptime_date_valid _ _ Edate).
Qed.

Lemma reachable_readings_dated (db : Store) : reachable db -> readings_dated db.
Proof.
  induction 1 as [|today op db _ IH]; [intros r []|].
  apply readings_dated_step, IH.
Qed.

(** The date texts of a trend are read back as the dates of its readings. *)
Lemma trend_dates_read_back (readings : list OutputReading.t) :
  (forall r, In r readings -> 1 <= OutputReading.date r <= Py.MAXORDINAL) ->
  map (fun point => Py.strptime_date (Some (fst point))) (map trend_point readings)
  = map (fun r => Py.Ok (OutputReading.date r)) readings.
Proof.
  intros H. rewrite map_map. apply map_ext_in. intros r Hr.
  cbn [trend_point fst]. apply strptime_isoformat, H, Hr.
Qed.

Lemma trend_readings_incl (unit_id : Z) (energy : string) (start_date : Py.date)
    (db : Store) (r : OutputReading.t) :
  In r (trend_readings unit_id energy start_date db) -> In r (output_readings db).
Proof.
  unfold trend_readings. rewrite order_by_In, filter_In. tauto.
Qed.

(** C7.  The points of a trend are in non-decreasing order of date and the
    reports of a history query are in non-increasing order of date.  The
    points shown are those of readings of the store, taken in non-decreasing
    order of date; in a store the application can reach, the date text of
    every point is read back as the date of its reading, so that the dates
    shown do not decrease along the list.  For a logged-in user either page
    is produced, unless the start of its date window is not a representable
    day. *)
Theorem C7_trend_ascending_history_descending (today : Py.date) (request : Request)
    (db : Store) (user : User.t) :
  get_current_user request db = Some user ->
  (forall unit_id energy days,
     (exists trend_data readings,
        serve (trends_page today request unit_id energy days) db
        = (Py.Ok (TrendsPage user (active_units db) unit_id energy days trend_data), db)
        /\ trend_data = map trend_point readings
        /\ (forall r, In r readings -> In r (output_readings db))
        /\ StronglySorted
             (fun a b => OutputReading.date a <= OutputReading.date b) readings
        /\ (reachable db ->
            map (fun point => Py.strptime_date (Some (fst point))) trend_data
            = map (fun r => Py.Ok (OutputReading.date r)) readings))
     \/ serve (trends_page today request unit_id energy days) db
        = (Py.Raise Py.OverflowError, db))
  /\ (forall start_date end_date qa_type unit_id,
        (exists reports s e t,
           serve (history_page today request start_date end_date qa_type unit_id) db
           = (Py.Ok (HistoryPage user reports (active_units db) s e t unit_id), db)
           /\ StronglySorted
                (fun a b => QAReport.date a >= QAReport.date b) reports)
        \/ serve (history_page today request start_date end_date qa_type unit_id) db
           = (Py.Raise Py.OverflowError, db)).
Proof.
  intros Huser. split.
  - intros unit_id energy days.
    assert (Hnone : forall l : list (string * option float),
              l = [] ->
              exists trend_data readings,
                (Py.Ok (TrendsPage user (active_units db) unit_id energy days l), db)
                = (Py.Ok (TrendsPage user (active_units db) unit_id energy days
                            trend_data), db)
                /\ trend_data = map trend_point readings
                /\ (forall r, In r readings -> In r (output_readings db))
                /\ StronglySorted
                     (fun a b => OutputReading.date a <= OutputReading.date b) readings
                /\ (reachable db ->
                    map (fun point => Py.strptime_date (Some (fst point))) trend_data
                    = map (fun r => Py.Ok (OutputReading.date r)) readings)).
    { intros l ->. exists [], []. repeat split; try constructor. intros r []. }
    unfold serve, trends_page, bind, query, ret, lift; simpl. rewrite Huser.
    destruct unit_id as [i|]; [destruct energy as [e|]|].
    + destruct (negb (i =? 0) && Py.truthy e).
      * destruct (date_sub_days_cases today days) as [E|E]; rewrite E.
        -- left. exists (map trend_point (trend_readings i e (today - days) db)),
             (trend_readings i e (today - days) db).
           split; [reflexivity|]. split; [reflexivity|].
           split; [intros r; apply trend_readings_incl|].
           split; [apply trend_readings_sorted|].
           intros Hreach. apply trend_dates_read_back. intros r Hr.
           apply (reachable_readings_dated db Hreach), (trend_readings_incl _ _ _ _ _ Hr).
        -- right. reflexivity.
      * left. apply Hnone. reflexivity.
    + left. apply Hnone. reflexivity.
    + left. apply Hnone. reflexivity.
  - intros start_date end_date qa_type unit_id.
    unfold serve, history_page, bind, query, ret, lift; simpl. rewrite Huser.
    assert (Hsorted : forall f,
      StronglySorted (fun a b => QAReport.date a >= QAReport.date b)
        (order_by (fun a b => QAReport.date b <=? QAReport.date a)
           (List.filter f (qa_reports db)))).
    { intros f. eapply StronglySorted_weaken;
        [|apply (order_by_sorted _ date_desc_total date_desc_trans)].
      intros a b H. apply Z.leb_le in H. lia. }
    destruct start_date as [s|].
    + left. do 4 eexists. split; [reflexivity|]. apply Hsorted.
    + destruct (date_sub_days_cases today 30) as [E|E]; rewrite E.
      * left. do 4 eexists. split; [reflexivity|]. apply Hsorted.
      * right. reflexivity.
Qed.

(** The orderings on the sample store. *)
Lemma C7_trend_ascending_history_descending_witness :
  get_current_user (sample_request []) sample_db = Some sample_admin
  /\ (forall unit_id energy days,
        (exists trend_data readings,
           serve (trends_page sample_today (sample_request []) unit_id energy days) sample_db
           = (Py.Ok (TrendsPage sample_admin (active_units sample_db) unit_id energy days
                       trend_data), sample_db)
           /\ trend_data = map trend_point readings
           /\ (forall r, In r readings -> In r (output_readings sample_db))
           /\ StronglySorted
                (fun a b => OutputReading.date a <= OutputReading.date b) readings
           /\ (reachable sample_db ->
               map (fun point => Py.strptime_date (Some (fst point))) trend_data
               = map (fun r => Py.Ok (OutputReading.date r)) readings))
        \/ serve (trends_page sample_today (sample_request []) unit_id energy days) sample_db
           = (Py.Raise Py.OverflowError, sample_db))
  /\ (forall start_date end_date qa_type unit_id,
        (exists reports s e t,
           serve (history_page sample_today (sample_request [])
                    start_date end_date qa_type unit_id) sample_db
           = (Py.Ok (HistoryPage sample_admin reports (active_units sample_db) s e t unit_id),
              sample_db)
           /\ StronglySorted
                (fun a b => QAReport.date a >= QAReport.date b) reports)
        \/ serve (history_page sample_today (sample_request [])
                    start_date end_date qa_type unit_id) sample_db
           = (Py.Raise Py.OverflowError, sample_db)).
Proof.
  split; [reflexivity|].
  apply (C7_trend_ascending_history_descending sample_today (sample_request [])
           sample_db sample_admin).
  reflexivity.
Defined.

(** The dates shown on the 6 MV trend of unit 1, read back. *)
Example sample_trend_dates :
  match fst (serve (trends_page sample_today (sample_request []) (Some 1) (Some "6MV") 30)
               sample_db) with
  | Py.Ok (TrendsPage _ _ _ _ _ trend_data) =>
      map (fun point => Py.strptime_date (Some (fst point))) trend_data
  | _ => []
  end
  = [Py.Ok 739909; Py.Ok 739921; Py.Ok 739922].
Proof. reflexivity. Qed.

(** ** What a successful save wrote *)

Lemma save_qa_report_ok (request : Request) (qa_type : string) (db db' : Store) :
  serve (save_qa_report request qa_type) db = (Py.Ok (RedirectResponse "/history"), db') ->
  exists user date unit_id performer tests unit,
    get_current_user request db = Some user
    /\ Py.strptime_date (form request !! "qa_date") = Py.Ok date
    /\ Py.int (form request !! "unit_id") = Py.Ok unit_id
    /\ form request !! "performer" = Some performer
    /\ SASQART_TESTS !! qa_type = Some tests
    /\ unit_by_id unit_id db = Some unit
    /\ db' = with_audit_log (User.username user) "SAVE_QA"
               (Py.upper qa_type +:+ " QA saved for " +:+ Unit.name unit
                +:+ " on " +:+ Py.isoformat date)
               (client_host request)
               (with_qa_report
                  (report_row (form request) qa_type user date unit_id performer db)
                  (test_rows (form request)
                     (next_id (map QAReport.id (qa_reports db))) tests (qa_tests db))
                  db).
Proof.
  rewrite save_qa_report_eq.
  destruct (get_current_user request db) as [user|]; [|discriminate].
  destruct (Py.strptime_date _) as [date|e]; [|discriminate].
  destruct (Py.int _) as [unit_id|e]; [|discriminate].
  destruct (form request !! "performer") as [performer|]; [|discriminate].
  destruct (SASQART_TESTS !! qa_type) as [tests|]; [|discriminate].
  cbv zeta.
  destruct (unit_by_id unit_id db) as [unit|] eqn:Eunit; [|discriminate].
  intros E. injection E as <-.
  exists user, date, unit_id, performer, tests, unit.
  repeat (split; [first [reflexivity|exact Eunit]|]). reflexivity.
Qed.

(** X1.  The date the QA form pre-fills is accepted as it stands: it is the
    ISO text of today, and a session saved with that text as its [qa_date]
    is stored under today's date. *)
Theorem X1_prefilled_date_round_trip (today : Py.date) (request : Request)
    (qa_type : string) (unit_id : option Z) (db : Store)
    (user : User.t) (t : string) (tests : list TestDef.t) (units : list Unit.t)
    (selected : option Unit.t) (prefilled : string)
    (request' : Request) (qa_type' : string) (db1 db2 : Store) :
  valid_date today ->
  fst (serve (qa_form today request qa_type unit_id) db)
  = Py.Ok (QAFormPage user t tests units selected prefilled) ->
  form request' !! "qa_date" = Some prefilled ->
  serve (save_qa_report request' qa_type') db1
  = (Py.Ok (RedirectResponse "/history"), db2) ->
  Py.strptime_date (Some prefilled) = Py.Ok today
  /\ exists report,
       qa_reports db2 = qa_reports db1 ++ [report]
       /\ QAReport.date report = today.
Proof.
  intros Hvalid Hform Hdate Hsave.
  assert (Hpre : prefilled = Py.isoformat today).
  { revert Hform. run_session.
    destruct (get_current_user request db); [|discriminate].
    destruct (SASQART_TESTS !! qa_type); [|discriminate].
    destruct unit_id as [i|]; [destruct (i =? 0)|]; cbn;
      intros E; injection E; auto. }
  subst prefilled.
  assert (Hparse : Py.strptime_date (Some (Py.isoformat today)) = Py.Ok today)
    by (apply strptime_isoformat, Hvalid).
  split; [exact Hparse|].
  apply save_qa_report_ok in Hsave.
  destruct Hsave as (u & date & uid & performer & defs & unit & _ & Hd & _ & _ & _ & _ & ->).
  rewrite Hdate, Hparse in Hd. injection Hd as <-.
  eexists. split; reflexivity.
Qed.

(** The pre-filled date of 3 November 2026 on the sample store. *)
Lemma X1_prefilled_date_round_trip_witness :
  valid_date sample_today
  /\ fst (serve (qa_form sample_today (sample_request []) "daily" (Some 1)) sample_db)
     = Py.Ok (QAFormPage sample_admin "daily" SASQART_daily (active_units sample_db)
                (unit_by_id 1 sample_db) "2026-11-03")
  /\ form sample_partial !! "qa_date" = Some "2026-11-03"
  /\ Py.strptime_date (Some "2026-11-03") = Py.Ok sample_today.
Proof.
  assert (Hvalid : valid_date sample_today) by (unfold valid_date; vm_compute; intuition discriminate).
  assert (Hform :
    fst (serve (qa_form sample_today (sample_request []) "daily" (Some 1)) sample_db)
    = Py.Ok (QAFormPage sample_admin "daily" SASQART_daily (active_units sample_db)
               (unit_by_id 1 sample_db) "2026-11-03")) by reflexivity.
  assert (Hdate : form sample_partial !! "qa_date" = Some "2026-11-03") by reflexivity.
  assert (Hsave :
    serve (save_qa_report sample_partial "daily") sample_db
    = (Py.Ok (RedirectResponse "/history"),
       snd (serve (save_qa_report sample_partial "daily") sample_db)))
    by (vm_compute; reflexivity).
  split; [exact Hvalid|]. split; [exact Hform|]. split; [exact Hdate|].
  exact (proj1 (X1_prefilled_date_round_trip _ _ _ _ _ _ _ _ _ _ _ _ _ _ _
                  Hvalid Hform Hdate Hsave)).
Defined.

(** ** Saved work shows at once *)

Lemma saved_report_listed (request : Request) (qa_type : string) (db db' : Store) :
  serve (save_qa_report request qa_type) db = (Py.Ok (RedirectResponse "/history"), db') ->
  exists user date unit_id performer,
    Py.strptime_date (form request !! "qa_date") = Py.Ok date
    /\ Py.int (form request !! "unit_id") = Py.Ok unit_id
    /\ qa_reports db'
       = qa_reports db
         ++ [report_row (form request) qa_type user date unit_id performer db]
    /\ units db' = units db
    /\ users db' = users db.
Proof.
  intros H. apply save_qa_report_ok in H.
  destruct H as (user & date & unit_id & performer & tests & unit
                 & _ & Hd & Hu & _ & _ & _ & ->).
  exists user, date, unit_id, performer. repeat split; assumption || reflexivity.
Qed.

(** X2.  A session saved for a unit is reflected by the next dashboard: after
    a daily session dated today or later the unit is no longer due for daily
    QA, and after a monthly session dated at most 30 days back it is no
    longer due for monthly QA. *)
Theorem X2_saved_session_clears_due (request : Request) (qa_type : string)
    (db db' : Store) (date : Py.date) (unit_id : Z)
    (today : Py.date) (request' : Request) (user' : User.t)
    (units : list Unit.t) (qa_status : list QAStatus.t) (shown : Py.date) :
  serve (save_qa_report request qa_type) db = (Py.Ok (RedirectResponse "/history"), db') ->
  Py.strptime_date (form request !! "qa_date") = Py.Ok date ->
  Py.int (form request !! "unit_id") = Py.Ok unit_id ->
  serve (dashboard today request') db'
  = (Py.Ok (DashboardPage user' units qa_status shown), db') ->
  forall st,
    In st qa_status ->
    Unit.id (QAStatus.unit st) = unit_id ->
    (qa_type = "daily" -> today <= date -> QAStatus.daily_due st = false)
    /\ (qa_type = "monthly" -> today - date <= 30 -> QAStatus.monthly_due st = false).
Proof.
  intros Hsave Hdate Hunit Hdash st Hst Hid.
  apply saved_report_listed in Hsave.
  destruct Hsave as (user & d & u & performer & Hd & Hu & Hreports & _ & _).
  rewrite Hdate in Hd. injection Hd as <-. rewrite Hunit in Hu. injection Hu as <-.
  assert (Hin : In (report_row (form request) qa_type user date unit_id performer db)
                  (qa_reports db')).
  { rewrite Hreports. apply in_or_app. right. left. reflexivity. }
  assert (Hst' : exists unit, st = qa_status_of today db' unit).
  { revert Hdash. run_session.
    destruct (get_current_user request' db'); [|discriminate].
    intros E. injection E as _ _ <- _.
    apply in_map_iff in Hst. destruct Hst as (unit & <- & _). eauto. }
  destruct Hst' as (unit & ->). cbn in Hid.
  split; intros -> Hwin; apply not_true_is_false; intros Hdue.
  - apply daily_due_spec in Hdue. destruct Hdue as [Hno|(l & [_ Hmax] & Hlt)].
    + apply (Hno _ Hin). split; [symmetry; exact Hid|reflexivity].
    + specialize (Hmax _ Hin (conj (eq_sym Hid) eq_refl)). cbn in Hmax. lia.
  - apply monthly_due_spec in Hdue. destruct Hdue as [Hno|(l & [_ Hmax] & Hlt)].
    + apply (Hno _ Hin). split; [symmetry; exact Hid|reflexivity].
    + specialize (Hmax _ Hin (conj (eq_sym Hid) eq_refl)). cbn in Hmax. lia.
Qed.

(** X3.  The redirect after a save shows the new session: the history page
    opened without filters lists the report just written, when its date lies
    in the last 30 days. *)
Theorem X3_saved_session_in_history (request : Request) (qa_type : string)
    (db db' : Store) (date : Py.date) (today start : Py.date)
    (request' : Request) (user' : User.t) :
  serve (save_qa_report request qa_type) db = (Py.Ok (RedirectResponse "/history"), db') ->
  Py.strptime_date (form request !! "qa_date") = Py.Ok date ->
  get_current_user request' db' = Some user' ->
  Py.date_sub_days today 30 = Py.Ok start ->
  start <= date <= today ->
  exists reports report,
    serve (history_page today request' None None None None) db'
    = (Py.Ok (HistoryPage user' reports (active_units db') start today "all" None), db')
    /\ In report reports
    /\ qa_reports db' = qa_reports db ++ [report]
    /\ QAReport.date report = date
    /\ QAReport.qa_type report = qa_type.
Proof.
  intros Hsave Hdate Huser Hstart Hwin.
  apply saved_report_listed in Hsave.
  destruct Hsave as (user & d & u & performer & Hd & _ & Hreports & _ & _).
  rewrite Hdate in Hd. injection Hd as <-.
  run_session. rewrite Huser, Hstart. cbn.
  eexists. exists (report_row (form request) qa_type user date u performer db).
  split; [reflexivity|]. split; [|repeat split; assumption || reflexivity].
  apply order_by_In, filter_In. split.
  - rewrite Hreports. apply in_or_app. right. left. reflexivity.
  - cbn. rewrite !andb_true_r. apply andb_true_iff. rewrite !Z.leb_le. lia.
Qed.

(** The daily session of [sample_partial], saved on [sample_db], clears the
    daily flag of unit 1 on the dashboard of the same day. *)
Lemma X2_saved_session_clears_due_witness :
  serve (save_qa_report sample_partial "daily") sample_db
  = (Py.Ok (RedirectResponse "/history"), sample_saved)
  /\ Py.strptime_date (form sample_partial !! "qa_date") = Py.Ok sample_today
  /\ Py.int (form sample_partial !! "unit_id") = Py.Ok 1
  /\ QAStatus.daily_due (qa_status_of sample_today sample_saved
                           sample_linac) = false.
Proof.
  assert (Hsave : serve (save_qa_report sample_partial "daily") sample_db
                  = (Py.Ok (RedirectResponse "/history"), sample_saved))
    by (vm_compute; reflexivity).
  assert (Hdate : Py.strptime_date (form sample_partial !! "qa_date") = Py.Ok sample_today)
    by (vm_compute; reflexivity).
  assert (Hunit : Py.int (form sample_partial !! "unit_id") = Py.Ok 1)
    by (vm_compute; reflexivity).
  assert (Hdash :
    serve (dashboard sample_today (sample_request [])) sample_saved
    = (Py.Ok (DashboardPage sample_admin (active_units sample_saved)
                (map (qa_status_of sample_today sample_saved) (active_units sample_saved))
                sample_today), sample_saved))
    by (vm_compute; reflexivity).
  assert (Hin : In (qa_status_of sample_today sample_saved
                      sample_linac)
                  (map (qa_status_of sample_today sample_saved)
                     (active_units sample_saved)))
    by (vm_compute; left; reflexivity).
  split; [exact Hsave|]. split; [exact Hdate|]. split; [exact Hunit|].
  refine (proj1 (X2_saved_session_clears_due _ _ _ _ _ _ _ _ _ _ _ _
                   Hsave Hdate Hunit Hdash _ Hin _) eq_refl _).
  - vm_compute; reflexivity.
  - vm_compute; discriminate.
Defined.

(** The same session is listed on the history page of the same day. *)
Lemma X3_saved_session_in_history_witness :
  get_current_user (sample_request []) sample_saved = Some sample_admin
  /\ Py.date_sub_days sample_today 30 = Py.Ok 739893
  /\ 739893 <= sample_today <= sample_today
  /\ exists reports report,
       serve (history_page sample_today (sample_request []) None None None None)
         sample_saved
       = (Py.Ok (HistoryPage sample_admin reports (active_units sample_saved)
                   739893 sample_today "all" None), sample_saved)
       /\ In report reports
       /\ qa_reports sample_saved = qa_reports sample_db ++ [report]
       /\ QAReport.date report = sample_today
       /\ QAReport.qa_type report = "daily".
Proof.
  assert (Hsave : serve (save_qa_report sample_partial "daily") sample_db
                  = (Py.Ok (RedirectResponse "/history"), sample_saved))
    by (vm_compute; reflexivity).
  assert (Hdate : Py.strptime_date (form sample_partial !! "qa_date") = Py.Ok sample_today)
    by (vm_compute; reflexivity).
  assert (Huser : get_current_user (sample_request []) sample_saved = Some sample_admin)
    by reflexivity.
  assert (Hstart : Py.date_sub_days sample_today 30 = Py.Ok 739893) by reflexivity.
  assert (Hwin : 739893 <= sample_today <= sample_today) by (unfold sample_today; lia).
  split; [exact Huser|]. split; [exact Hstart|]. split; [exact Hwin|].
  exact (X3_saved_session_in_history _ _ _ _ _ _ _ _ _ Hsave Hdate Huser Hstart Hwin).
Defined.

Lemma trend_filter_spec (unit_id : Z) (energy : string) (start : Py.date)
    (r : OutputReading.t) :
  (OutputReading.unit_id r =? unit_id) && String.eqb (OutputReading.energy r) energy
  && (start <=? OutputReading.date r) = true
  <-> OutputReading.unit_id r = unit_id
      /\ OutputReading.energy r = energy
      /\ start <= OutputReading.date r.
Proof. rewrite !andb_true_iff, Z.eqb_eq, String.eqb_eq, Z.leb_le. tauto. Qed.

(** X4.  The trend of a unit and an energy over a number of days shows
    exactly the readings of that unit and that energy dated on or after the
    start of the window, each with its ISO date and its stored deviation;
    without a unit or without an energy it shows nothing. *)
Theorem X4_trend_contents (today : Py.date) (request : Request) (db : Store)
    (user : User.t) (unit_id : option Z) (energy : option string) (days : Z)
    (start : Py.date) :
  get_current_user request db = Some user ->
  Py.date_sub_days today days = Py.Ok start ->
  exists readings,
    serve (trends_page today request unit_id energy days) db
    = (Py.Ok (TrendsPage user (active_units db) unit_id energy days
                (map trend_point readings)), db)
    /\ forall r,
         In r readings
         <-> In r (output_readings db)
             /\ (exists i e,
                   unit_id = Some i /\ i <> 0 /\ energy = Some e /\ e <> ""
                   /\ OutputReading.unit_id r = i
                   /\ OutputReading.energy r = e
                   /\ start <= OutputReading.date r).
Proof.
  intros Huser Hstart. run_session. rewrite Huser.
  assert (Hnone : forall r : OutputReading.t,
            (unit_id = None \/ unit_id = Some 0 \/ energy = None \/ energy = Some "") ->
            In r [] <->
            In r (output_readings db)
            /\ (exists i e,
                  unit_id = Some i /\ i <> 0 /\ energy = Some e /\ e <> ""
                  /\ OutputReading.unit_id r = i
                  /\ OutputReading.energy r = e
                  /\ start <= OutputReading.date r)).
  { intros r Hcase. split; [intros []|].
    intros (_ & i & e & Hi & Hi0 & He & He0 & _).
    destruct Hcase as [H|[H|[H|H]]]; congruence. }
  destruct unit_id as [i|]; [destruct energy as [e|]|].
  - destruct (Z.eqb_spec i 0) as [->|Hi]; cbn [negb andb].
    + exists []. split; [reflexivity|]. intros r. apply Hnone. auto.
    + destruct e as [|c e]; cbn [Py.truthy].
      * exists []. split; [reflexivity|]. intros r. apply Hnone. auto.
      * rewrite Hstart. cbn.
        exists (trend_readings i (String c e) start db).
        split; [reflexivity|]. intros r.
        unfold trend_readings. rewrite order_by_In, filter_In, trend_filter_spec.
        split.
        -- intros (Hin & Hu & He & Hd). split; [exact Hin|].
           exists i, (String c e). repeat split; auto; discriminate.
        -- intros (Hin & i' & e' & Ei & _ & Ee & _ & Hu & He & Hd).
           injection Ei as <-. injection Ee as <-. auto.
  - exists []. split; [reflexivity|]. intros r. apply Hnone. auto.
  - exists []. split; [destruct energy; reflexivity|]. intros r. apply Hnone. auto.
Qed.

Lemma save_output_reading_ok (request : Request) (db db' : Store) (id : Z)
    (deviation : option float) :
  serve (save_output_reading request) db = (Py.Ok (ReadingSaved id deviation), db') ->
  exists user data date row,
    get_current_user request db = Some user
    /\ json request = Some data
    /\ Py.strptime_date (Some (ReadingData.date data)) = Py.Ok date
    /\ row = {| OutputReading.id := id; OutputReading.date := date;
                OutputReading.unit_id := ReadingData.unit_id data;
                OutputReading.energy := ReadingData.energy data;
                OutputReading.reading := Sqlite.read_back (ReadingData.reading data);
                OutputReading.reference :=
                  Sqlite.read_back (ReadingData.reference data);
                OutputReading.deviation := deviation |}
    /\ db' = with_output_reading row db.
Proof.
  rewrite save_output_reading_eq.
  destruct (get_current_user request db) as [user|]; [|discriminate].
  destruct (json request) as [data|]; [|discriminate].
  destruct (Py.strptime_date _) as [date|e] eqn:Edate; [|discriminate].
  destruct (PrimFloat.eqb _ _); [discriminate|].
  destruct (PrimFloat.is_nan (ReadingData.reading data)); [discriminate|].
  destruct (PrimFloat.is_nan (ReadingData.reference data)); [discriminate|].
  cbv zeta. unfold reading_row. cbn [OutputReading.id OutputReading.deviation].
  intros E. injection E as <- <- <-.
  exists user, data, date. eexists. repeat split; first [reflexivity | exact Edate].
Qed.

(** X5.  A recorded reading is in the next trend: after a reading is saved
    for a unit and an energy, the trend of that unit and energy over a window
    that reaches back to the reading's date contains the point with that
    date and the deviation the call returned. *)
Theorem X5_recorded_reading_in_trend (request : Request) (db db' : Store) (id : Z)
    (deviation : option float) (data : ReadingData.t) (date : Py.date)
    (today : Py.date) (days : Z) (start : Py.date)
    (request' : Request) (user' : User.t) :
  serve (save_output_reading request) db = (Py.Ok (ReadingSaved id deviation), db') ->
  json request = Some data ->
  Py.strptime_date (Some (ReadingData.date data)) = Py.Ok date ->
  ReadingData.unit_id data <> 0 ->
  ReadingData.energy data <> "" ->
  get_current_user request' db' = Some user' ->
  Py.date_sub_days today days = Py.Ok start ->
  start <= date ->
  exists trend_data,
    serve (trends_page today request' (Some (ReadingData.unit_id data))
             (Some (ReadingData.energy data)) days) db'
    = (Py.Ok (TrendsPage user' (active_units db') (Some (ReadingData.unit_id data))
                (Some (ReadingData.energy data)) days trend_data), db')
    /\ In (Py.isoformat date, deviation) trend_data.
Proof.
  intros Hsave Hjson Hdate Hunit Henergy Huser Hstart Hwin.
  apply save_output_reading_ok in Hsave.
  destruct Hsave as (user & data' & date' & row & _ & Hj & Hd & Hrow & ->).
  rewrite Hjson in Hj. injection Hj as <-. rewrite Hdate in Hd. injection Hd as <-.
  run_session. rewrite Huser.
  destruct (Z.eqb_spec (ReadingData.unit_id data) 0) as [E|_]; [contradiction|].
  destruct (ReadingData.energy data) as [|c e] eqn:Ee; [contradiction|].
  cbn [negb andb Py.truthy]. rewrite Hstart. cbn [pending committed fst snd].
  eexists. split; [reflexivity|].
  change (Py.isoformat date, deviation) with (trend_point row) at 1 || idtac.
  apply in_map_iff. exists row. split; [subst row; reflexivity|].
  unfold trend_readings. apply order_by_In, filter_In. split.
  - cbn. apply in_or_app. right. left. reflexivity.
  - apply trend_filter_spec. subst row. cbn. auto.
Qed.

(** X6.  Sessions are not deduplicated: a call that was served can be sent
    again and is served again, and the store then holds two reports with the
    same unit, type and date under different keys. *)
Theorem X6_same_session_twice (request : Request) (qa_type : string)
    (db db' : Store) :
  serve (save_qa_report request qa_type) db = (Py.Ok (RedirectResponse "/history"), db') ->
  exists db'' first_report second_report,
    serve (save_qa_report request qa_type) db'
    = (Py.Ok (RedirectResponse "/history"), db'')
    /\ qa_reports db'' = qa_reports db ++ [first_report; second_report]
    /\ QAReport.id first_report < QAReport.id second_report
    /\ QAReport.unit_id first_report = QAReport.unit_id second_report
    /\ QAReport.qa_type first_report = QAReport.qa_type second_report
    /\ QAReport.date first_report = QAReport.date second_report.
Proof.
  intros Hsave. apply save_qa_report_ok in Hsave.
  destruct Hsave as (user & date & unit_id & performer & tests & unit
                     & Hu & Hd & Hi & Hp & Ht & Hunit & ->).
  rewrite save_qa_report_eq.
  change (get_current_user request (with_audit_log _ _ _ _ _))
    with (get_current_user request db).
  rewrite Hu, Hd, Hi, Hp, Ht. cbv zeta.
  change (unit_by_id unit_id (with_audit_log _ _ _ _ _)) with (unit_by_id unit_id db).
  rewrite Hunit.
  eexists. eexists. eexists. split; [reflexivity|].
  split; [cbn; rewrite <- app_assoc; reflexivity|].
  split; [|repeat split; reflexivity].
  cbn. rewrite map_app. cbn.
  apply next_id_above. apply in_or_app. right. left. reflexivity.
Qed.

(** The 6 MV trend of unit 1 over 30 days on the sample store. *)
Lemma X4_trend_contents_witness :
  get_current_user (sample_request []) sample_db = Some sample_admin
  /\ Py.date_sub_days sample_today 30 = Py.Ok 739893
  /\ exists readings,
       serve (trends_page sample_today (sample_request []) (Some 1) (Some "6MV") 30)
         sample_db
       = (Py.Ok (TrendsPage sample_admin (active_units sample_db) (Some 1) (Some "6MV") 30
                   (map trend_point readings)), sample_db)
       /\ forall r,
            In r readings
            <-> In r (output_readings sample_db)
                /\ (exists i e,
                      Some 1 = Some i /\ i <> 0 /\ Some "6MV" = Some e /\ e <> ""
                      /\ OutputReading.unit_id r = i
                      /\ OutputReading.energy r = e
                      /\ 739893 <= OutputReading.date r).
Proof.
  assert (Huser : get_current_user (sample_request []) sample_db = Some sample_admin)
    by reflexivity.
  assert (Hstart : Py.date_sub_days sample_today 30 = Py.Ok 739893) by reflexivity.
  split; [exact Huser|]. split; [exact Hstart|].
  exact (X4_trend_contents sample_today (sample_request []) sample_db sample_admin
           (Some 1) (Some "6MV") 30 739893 Huser Hstart).
Defined.

(** The reading of 3 November 2026 is on the 30-day trend of that day. *)
Lemma X5_recorded_reading_in_trend_witness :
  serve (save_output_reading sample_new_reading) sample_db
  = (Py.Ok (ReadingSaved 4 (Some 2%float)), sample_recorded)
  /\ Py.strptime_date (Some "2026-11-03") = Py.Ok sample_today
  /\ exists trend_data,
       serve (trends_page sample_today (sample_request []) (Some 1) (Some "6MV") 30)
         sample_recorded
       = (Py.Ok (TrendsPage sample_admin (active_units sample_recorded) (Some 1)
                   (Some "6MV") 30 trend_data), sample_recorded)
       /\ In ("2026-11-03", Some 2%float) trend_data.
Proof.
  assert (Hsave : serve (save_output_reading sample_new_reading) sample_db
                  = (Py.Ok (ReadingSaved 4 (Some 2%float)), sample_recorded))
    by (vm_compute; reflexivity).
  assert (Hdate : Py.strptime_date (Some "2026-11-03") = Py.Ok sample_today)
    by (vm_compute; reflexivity).
  assert (Huser : get_current_user (sample_request []) sample_recorded = Some sample_admin)
    by reflexivity.
  assert (Hstart : Py.date_sub_days sample_today 30 = Py.Ok 739893) by reflexivity.
  split; [exact Hsave|]. split; [exact Hdate|].
  refine (X5_recorded_reading_in_trend sample_new_reading sample_db sample_recorded 4
            (Some 2%float)
            {| ReadingData.date := "2026-11-03"; ReadingData.unit_id := 1;
               ReadingData.energy := "6MV"; ReadingData.reading := 102;
               ReadingData.reference := 100 |}
            sample_today sample_today 30 739893 (sample_request []) sample_admin
            Hsave eq_refl Hdate _ _ Huser Hstart _).
  - cbn. discriminate.
  - cbn. discriminate.
  - unfold sample_today. lia.
Defined.

(** The daily session of [sample_partial] sent twice. *)
Lemma X6_same_session_twice_witness :
  serve (save_qa_report sample_partial "daily") sample_db
  = (Py.Ok (RedirectResponse "/history"), sample_saved)
  /\ exists db'' first_report second_report,
       serve (save_qa_report sample_partial "daily") sample_saved
       = (Py.Ok (RedirectResponse "/history"), db'')
       /\ qa_reports db'' = qa_reports sample_db ++ [first_report; second_report]
       /\ QAReport.id first_report < QAReport.id second_report
       /\ QAReport.unit_id first_report = QAReport.unit_id second_report
       /\ QAReport.qa_type first_report = QAReport.qa_type second_report
       /\ QAReport.date first_report = QAReport.date second_report.
Proof.
  assert (Hsave : serve (save_qa_report sample_partial "daily") sample_db
                  = (Py.Ok (RedirectResponse "/history"), sample_saved))
    by (vm_compute; reflexivity).
  split; [exact Hsave|].
  exact (X6_same_session_twice sample_partial "daily" sample_db sample_saved Hsave).
Defined.

(** ** Rows are only added *)

Lemma extends_refl {A : Type} (l : list A) : extends l l.
Proof. exists []. symmetry. apply app_nil_r. Qed.

Lemma extends_app {A : Type} (l new : list A) : extends l (l ++ new).
Proof. exists new. reflexivity. Qed.

Lemma extends_map {A B : Type} (f : A -> B) (l l' : list A) :
  extends l l' -> extends (map f l) (map f l').
Proof. intros [new ->]. exists (map f new). apply map_app. Qed.

#[local] Hint Resolve extends_refl extends_app : core.

Lemma startup_extends (db : Store) :
  let db' := snd (serve startup db) in
  extends (users db) (users db')
  /\ extends (units db) (units db')
  /\ qa_reports db' = qa_reports db
  /\ qa_tests db' = qa_tests db
  /\ output_readings db' = output_readings db
  /\ audit_log db' = audit_log db.
Proof.
  destruct db as [us un qr qt o a].
  destruct us as [|u us]; destruct un as [|v un];
    match goal with
    | |- context [serve startup ?d] =>
        let v := eval vm_compute in (serve startup d) in
        change (serve startup d) with v
    end;
    cbn [snd users units qa_reports qa_tests output_readings audit_log];
    repeat split; solve [apply extends_refl | eexists; reflexivity].
Qed.

Lemma unit_row_id (form_data : gmap string string) (old : Unit.t) (name : string)
    (install_date : option Py.date) (db : Store) :
  Unit.id (unit_row form_data (Some old) name install_date db) = Unit.id old.
Proof. reflexivity. Qed.

Lemma with_unit_ids (form_data : gmap string string) (old : option Unit.t)
    (name : string) (install_date : option Py.date) (db : Store) :
  extends (map Unit.id (units db))
    (map Unit.id (units (with_unit old (unit_row form_data old name install_date db) db))).
Proof.
  destruct old as [old|]; cbn [with_unit units].
  - rewrite replace_ids by reflexivity. apply extends_refl.
  - rewrite map_app. apply extends_app.
Qed.

(** X7.  No operation deletes or rewrites a row of the users, the reports,
    the test rows, the readings or the audit log, and none removes or
    changes the key of a unit: each of these tables after an operation is the
    table before it with rows added at the end. *)
Theorem X7_rows_only_added (today : Py.date) (op : operation) (db : Store) :
  extends (users db) (users (step today op db))
  /\ extends (map Unit.id (units db)) (map Unit.id (units (step today op db)))
  /\ extends (qa_reports db) (qa_reports (step today op db))
  /\ extends (qa_tests db) (qa_tests (step today op db))
  /\ extends (output_readings db) (output_readings (step today op db))
  /\ extends (audit_log db) (audit_log (step today op db)).
Proof.
  assert (Hsame : extends (users db) (users db)
                  /\ extends (map Unit.id (units db)) (map Unit.id (units db))
                  /\ extends (qa_reports db) (qa_reports db)
                  /\ extends (qa_tests db) (qa_tests db)
                  /\ extends (output_readings db) (output_readings db)
                  /\ extends (audit_log db) (audit_log db))
    by (repeat split; apply extends_refl).
  destruct op; unfold step.
  - destruct (startup_extends db) as (Hu & Hn & -> & -> & -> & ->).
    repeat split; auto. apply extends_map, Hn.
  - rewrite dashboard_store. exact Hsame.
  - rewrite qa_form_store. exact Hsame.
  - rewrite save_qa_report_eq.
    destruct (get_current_user request db) as [user|]; [|exact Hsame].
    destruct (Py.strptime_date _) as [date|e]; [|exact Hsame].
    destruct (Py.int _) as [unit_id|e]; [|exact Hsame].
    destruct (form request !! "performer") as [performer|]; [|exact Hsame].
    destruct (SASQART_TESTS !! qa_type) as [tests|]; [|exact Hsame].
    cbv zeta. destruct (unit_by_id unit_id db) as [unit|];
      cbn [snd with_audit_log with_qa_report users units qa_reports qa_tests
           output_readings audit_log];
      repeat split; auto.
  - rewrite history_page_store. exact Hsame.
  - rewrite trends_page_store. exact Hsame.
  - rewrite units_page_store. exact Hsame.
  - rewrite save_unit_eq.
    destruct (get_current_user request db) as [user|]; [|exact Hsame].
    destruct (unit_target (form request) db) as [old|e]; [|exact Hsame].
    destruct (unit_install_date (form request) old) as [d|e]; [|exact Hsame].
    destruct (form request !! "name") as [name|]; [|exact Hsame].
    destruct (name_taken _ name (units db)); [exact Hsame|].
    cbv zeta. cbn [snd with_audit_log users units qa_reports qa_tests
                   output_readings audit_log].
    split; [apply extends_refl|]. split; [apply with_unit_ids|].
    repeat split; auto.
  - rewrite save_output_reading_eq.
    destruct (get_current_user request db) as [user|]; [|exact Hsame].
    destruct (json request) as [data|]; [|exact Hsame].
    destruct (Py.strptime_date _) as [date|e]; [|exact Hsame].
    destruct (PrimFloat.eqb _ _); [exact Hsame|].
    destruct (PrimFloat.is_nan (ReadingData.reading data)); [exact Hsame|].
    destruct (PrimFloat.is_nan (ReadingData.reference data)); [exact Hsame|].
    cbv zeta. cbn [snd with_output_reading users units qa_reports qa_tests
                   output_readings audit_log].
    repeat split; auto.
Qed.

(** X8.  A request without a valid session of an active account changes
    nothing: the store stays as it is, and the answer is the redirect to the
    login page, or the status 401 from the reading API. *)
Theorem X8_anonymous_changes_nothing (today : Py.date) (op : operation)
    (request : Request) (handler : M response) (db : Store) :
  op_request op = Some request ->
  op_handler today op = Some handler ->
  get_current_user request db = None ->
  step today op db = db
  /\ snd (serve handler db) = db
  /\ (fst (serve handler db) = Py.Ok (RedirectResponse "/login")
      \/ op = SaveOutputReading request
         /\ fst (serve handler db)
            = Py.Raise (Py.HTTPException 401 "Authentication required")).
Proof.
  intros Hreq Hhandler Hanon.
  destruct op; cbn in Hreq, Hhandler; try discriminate;
    injection Hreq as ->; injection Hhandler as <-; unfold step;
    [| | rewrite save_qa_report_eq | | | | rewrite save_unit_eq
     | rewrite save_output_reading_eq];
    try run_session; rewrite Hanon; cbn; auto.
Qed.

(** The daily session of [sample_partial] without a session cookie. *)
Lemma X8_anonymous_changes_nothing_witness :
  get_current_user sample_anonymous sample_db = None
  /\ step sample_today (SaveQAReport sample_anonymous "daily") sample_db = sample_db
  /\ fst (serve (save_qa_report sample_anonymous "daily") sample_db)
     = Py.Ok (RedirectResponse "/login").
Proof.
  assert (Hanon : get_current_user sample_anonymous sample_db = None) by reflexivity.
  split; [exact Hanon|].
  destruct (X8_anonymous_changes_nothing sample_today
              (SaveQAReport sample_anonymous "daily") sample_anonymous
              (save_qa_report sample_anonymous "daily") sample_db
              eq_refl eq_refl Hanon) as (Hstep & _ & [Hr|[Hop _]]).
  - split; [exact Hstep|exact Hr].
  - discriminate Hop.
Defined.

(** X9.  The audit log grows by one entry exactly when a save is answered
    by its redirect: the entry names the logged-in user, the action of the
    save and the address of the client.  Every other outcome of every
    request, the reading API included, leaves the audit log as it was. *)
Theorem X9_audit_trail (today : Py.date) (op : operation) (request : Request)
    (handler : M response) (db : Store) :
  op_request op = Some request ->
  op_handler today op = Some handler ->
  match saved_action (fst (serve handler db)) with
  | Some action =>
      exists user details,
        get_current_user request db = Some user
        /\ audit_log (snd (serve handler db))
           = audit_log db ++ [audit_entry user action details request db]
  | None => audit_log (snd (serve handler db)) = audit_log db
  end.
Proof.
  intros Hreq Hhandler.
  destruct op; cbn in Hreq, Hhandler; try discriminate;
    injection Hreq as ->; injection Hhandler as <-.
  - run_session. destruct (get_current_user request db); reflexivity.
  - run_session.
    destruct (get_current_user request db); [|reflexivity].
    destruct (SASQART_TESTS !! qa_type); [|reflexivity].
    destruct unit_id as [i|]; [destruct (i =? 0)|]; reflexivity.
  - rewrite save_qa_report_eq.
    destruct (get_current_user request db) as [user|]; [|reflexivity].
    destruct (Py.strptime_date _) as [date|e]; [|reflexivity].
    destruct (Py.int _) as [unit_id|e]; [|reflexivity].
    destruct (form request !! "performer") as [performer|]; [|reflexivity].
    destruct (SASQART_TESTS !! qa_type) as [tests|]; [|reflexivity].
    cbv zeta. destruct (unit_by_id unit_id db) as [unit|]; [|reflexivity].
    cbn [fst snd saved_action String.eqb Ascii.eqb Bool.eqb].
    exists user. eexists. split; reflexivity.
  - run_session.
    destruct (get_current_user request db); [|reflexivity].
    destruct start_date; [reflexivity|].
    destruct (Py.date_sub_days today 30); reflexivity.
  - run_session.
    destruct (get_current_user request db); [|reflexivity].
    destruct unit_id as [i|]; [destruct energy as [e|]|]; try reflexivity.
    destruct (negb (i =? 0) && Py.truthy e); [|reflexivity].
    destruct (Py.date_sub_days today days); reflexivity.
  - run_session. destruct (get_current_user request db); reflexivity.
  - rewrite save_unit_eq.
    destruct (get_current_user request db) as [user|]; [|reflexivity].
    destruct (unit_target (form request) db) as [old|e]; [|reflexivity].
    destruct (unit_install_date (form request) old) as [d|e]; [|reflexivity].
    destruct (form request !! "name") as [name|]; [|reflexivity].
    destruct (name_taken _ name (units db)); [reflexivity|].
    cbv zeta. cbn [fst snd saved_action String.eqb Ascii.eqb Bool.eqb].
    exists user. eexists. split; reflexivity.
  - rewrite save_output_reading_eq.
    destruct (get_current_user request db) as [user|]; [|reflexivity].
    destruct (json request) as [data|]; [|reflexivity].
    destruct (Py.strptime_date _) as [date|e]; [|reflexivity].
    destruct (PrimFloat.eqb _ _); [reflexivity|].
    destruct (PrimFloat.is_nan (ReadingData.reading data)); [reflexivity|].
    destruct (PrimFloat.is_nan (ReadingData.reference data)); reflexivity.
Qed.

(** The audit entry of the daily session of [sample_partial]. *)
Lemma X9_audit_trail_witness :
  exists user details,
    get_current_user sample_partial sample_db = Some user
    /\ audit_log sample_saved
       = audit_log sample_db ++ [audit_entry user "SAVE_QA" details sample_partial sample_db].
Proof.
  exact (X9_audit_trail sample_today (SaveQAReport sample_partial "daily")
           sample_partial (save_qa_report sample_partial "daily") sample_db
           eq_refl eq_refl).
Defined.

(** X10.  Starting the application twice is starting it once: after a start
    there is a user and a unit, a second start changes nothing, and a start
    on a store that has a user and a unit changes nothing. *)
Theorem X10_startup_idempotent (db : Store) :
  serve startup (snd (serve startup db)) = (Py.Ok tt, snd (serve startup db))
  /\ users (snd (serve startup db)) <> []
  /\ units (snd (serve startup db)) <> []
  /\ (users db <> [] -> units db <> [] -> serve startup db = (Py.Ok tt, db)).
Proof.
  destruct db as [us un qr qt o a].
  destruct us as [|u us]; destruct un as [|v un]; vm_compute;
    repeat split; try discriminate; intros; congruence.
Qed.

(** A start on the sample store, which has a user and two units. *)
Lemma X10_startup_idempotent_witness :
  users sample_db <> [] /\ units sample_db <> []
  /\ serve startup sample_db = (Py.Ok tt, sample_db).
Proof.
  assert (Husers : users sample_db <> []) by discriminate.
  assert (Hunits : units sample_db <> []) by discriminate.
  split; [exact Husers|]. split; [exact Hunits|].
  exact (proj2 (proj2 (proj2 (X10_startup_idempotent sample_db))) Husers Hunits).
Defined.

(** ** Reports and their rows *)

Lemma save_qa_report_rows (request : Request) (qa_type : string) (db : Store) :
  let db' := snd (serve (save_qa_report request qa_type) db) in
  (qa_reports db' = qa_reports db /\ qa_tests db' = qa_tests db)
  \/ exists report tests,
       SASQART_TESTS !! qa_type = Some tests
       /\ QAReport.id report = next_id (map QAReport.id (qa_reports db))
       /\ QAReport.qa_type report = qa_type
       /\ qa_reports db' = qa_reports db ++ [report]
       /\ qa_tests db'
          = qa_tests db
            ++ test_rows (form request) (QAReport.id report) tests (qa_tests db).
Proof.
  rewrite save_qa_report_eq.
  destruct (get_current_user request db) as [user|]; [|left; split; reflexivity].
  destruct (Py.strptime_date _) as [date|e]; [|left; split; reflexivity].
  destruct (Py.int _) as [unit_id|e]; [|left; split; reflexivity].
  destruct (form request !! "performer") as [performer|]; [|left; split; reflexivity].
  destruct (SASQART_TESTS !! qa_type) as [tests|]; [|left; split; reflexivity].
  right.
  exists (report_row (form request) qa_type user date unit_id performer db), tests.
  destruct (unit_by_id unit_id db); cbn; repeat split; reflexivity.
Qed.

Lemma reports_rows_step (today : Py.date) (op : operation) (db : Store) :
  (qa_reports (step today op db) = qa_reports db
   /\ qa_tests (step today op db) = qa_tests db)
  \/ exists report tests form_data,
       SASQART_TESTS !! QAReport.qa_type report = Some tests
       /\ QAReport.id report = next_id (map QAReport.id (qa_reports db))
       /\ qa_reports (step today op db) = qa_reports db ++ [report]
       /\ qa_tests (step today op db)
          = qa_tests db ++ test_rows form_data (QAReport.id report) tests (qa_tests db).
Proof.
  destruct op; unfold step.
  - destruct (startup_store db) as (Hr & Ht & _). left. auto.
  - rewrite dashboard_store. left. auto.
  - rewrite qa_form_store. left. auto.
  - destruct (save_qa_report_rows request qa_type db)
      as [H|(report & tests & Hreg & Hid & Hty & Hr & Ht)]; [left; exact H|].
    right. exists report, tests, (form request). rewrite Hty. auto.
  - rewrite history_page_store. left. auto.
  - rewrite trends_page_store. left. auto.
  - rewrite units_page_store. left. auto.
  - destruct (save_unit_store request db)
      as [->|(old & unit & _ & _ & _ & Hr & Ht & _)]; left; auto.
  - destruct (save_output_reading_store request db) as [->|(row & ->)]; left; auto.
Qed.

Lemma old_report_tests (db : Store) (r : QAReport.t) (report_id : Z)
    (rows : list QATest.t) :
  In r (qa_reports db) ->
  report_id = next_id (map QAReport.id (qa_reports db)) ->
  (forall t, In t rows -> QATest.report_id t = report_id) ->
  QAReport.tests (qa_tests db ++ rows) r = QAReport.tests (qa_tests db) r.
Proof.
  intros Hr Hid Hrows. unfold QAReport.tests.
  rewrite List.filter_app, (filter_none _ rows), app_nil_r; [reflexivity|].
  intros t Ht. apply Z.eqb_neq. rewrite (Hrows t Ht), Hid. intros E.
  apply (next_id_fresh (map QAReport.id (qa_reports db))).
  rewrite E. apply in_map, Hr.
Qed.

Lemma reports_ok_step (today : Py.date) (op : operation) (db : Store) :
  reports_keyed db /\ tests_owned db /\ reports_complete db ->
  reports_keyed (step today op db) /\ tests_owned (step today op db)
  /\ reports_complete (step today op db).
Proof.
  intros (Hkey & Hown & Hall).
  split; [|split; [apply tests_owned_step, Hown|]].
  - unfold reports_keyed in *.
    destruct (reports_rows_step today op db)
      as [[-> _]|(report & tests & fd & _ & Hid & -> & _)]; [exact Hkey|].
    rewrite map_app. apply NoDup_snoc; [exact Hkey|].
    cbn. rewrite Hid. apply next_id_fresh.
  - unfold reports_complete in *.
    destruct (reports_rows_step today op db)
      as [[-> ->]|(report & tests & fd & Hreg & Hid & -> & ->)]; [exact Hall|].
    intros r Hr. apply in_app_or in Hr. destruct Hr as [Hr|[<-|[]]].
    + rewrite (old_report_tests db r (QAReport.id report)); [apply Hall, Hr|exact Hr
        |exact Hid|].
      intros t. apply test_rows_report_id.
    + exists tests. split; [exact Hreg|].
      rewrite new_report_tests; [apply test_rows_test_id|exact Hown|exact Hid|].
      intros t. apply test_rows_report_id.
Qed.

Lemma reachable_reports_ok (db : Store) :
  reachable db -> reports_keyed db /\ tests_owned db /\ reports_complete db.
Proof.
  induction 1 as [|today op db _ IH].
  - unfold reports_keyed, tests_owned, reports_complete. cbn.
    split; [constructor|]. split; intros ? [].
  - apply reports_ok_step, IH.
Qed.

(** X11.  In every store the application can reach the reports have
    distinct keys, and every report has a type of the registry and owns
    exactly one test row per item of the checklist of that type, in
    checklist order. *)
Theorem X11_reports_complete (db : Store) :
  reachable db -> reports_keyed db /\ reports_complete db.
Proof.
  intros H. destruct (reachable_reports_ok db H) as (Hk & _ & Hc). auto.
Qed.

Lemma X11_reports_complete_witness :
  reports_keyed sample_db /\ reports_complete sample_db.
Proof. exact (X11_reports_complete sample_db sample_db_reachable). Defined.

Lemma dict_by_id_fold (tests : list TestDef.t) (acc : gmap string TestDef.t)
    (key : string) :
  (forall k d, acc !! k = Some d -> TestDef.id d = k) ->
  (In key (map TestDef.id tests) \/ is_Some (acc !! key)) ->
  exists d,
    fold_left (fun d t => <[TestDef.id t := t]> d) tests acc !! key = Some d
    /\ TestDef.id d = key.
Proof.
  revert acc. induction tests as [|t tests IH]; intros acc Hacc Hkey; cbn.
  - destruct Hkey as [[]|[d Hd]]. exists d. split; [exact Hd|]. exact (Hacc _ _ Hd).
  - apply IH.
    + intros k d. destruct (decide (TestDef.id t = k)) as [<-|Hne].
      * rewrite lookup_insert_eq. intros E. injection E as <-. reflexivity.
      * rewrite lookup_insert_ne by exact Hne. apply Hacc.
    + destruct (decide (TestDef.id t = key)) as [<-|Hne].
      * right. rewrite lookup_insert_eq. eauto.
      * rewrite lookup_insert_ne by exact Hne.
        destruct Hkey as [[E|Hin]|Hs]; [contradiction|auto|auto].
Qed.

Lemma dict_by_id_lookup (tests : list TestDef.t) (key : string) :
  In key (map TestDef.id tests) ->
  exists d, dict_by_id tests !! key = Some d /\ TestDef.id d = key.
Proof.
  intros H. apply dict_by_id_fold; [|left; exact H].
  intros k d. rewrite lookup_empty. discriminate.
Qed.

Lemma report_by_id_In (db : Store) (report : QAReport.t) :
  reports_keyed db -> In report (qa_reports db) ->
  report_by_id (QAReport.id report) db = Some report.
Proof.
  unfold reports_keyed, report_by_id. induction (qa_reports db) as [|r rs IH]; cbn.
  - intros _ [].
  - intros Hk Hin. apply List.NoDup_cons_iff in Hk. destruct Hk as [Hr Hk].
    destruct (Z.eqb_spec (QAReport.id r) (QAReport.id report)) as [E|E].
    + destruct Hin as [->|Hin]; [reflexivity|].
      exfalso. apply Hr. rewrite E. apply in_map, Hin.
    + destruct Hin as [->|Hin]; [congruence|]. apply IH; assumption.
Qed.

Lemma report_by_id_None (db : Store) (report_id : Z) :
  ~ In report_id (map QAReport.id (qa_reports db)) ->
  report_by_id report_id db = None.
Proof.
  unfold report_by_id. intros H. rewrite filter_none; [reflexivity|].
  intros r Hr. apply Z.eqb_neq. intros E. apply H. rewrite <- E. apply in_map, Hr.
Qed.

(** X12.  In a store the application can reach, the report page never fails
    on the checklist registry: a logged-in user who asks for a report gets
    the status 404 when no report has that key, and otherwise the page of
    the report with that key, with its test rows and a dictionary that holds
    the checklist item of every one of these rows. *)
Theorem X12_report_page (request : Request) (report_id : Z) (db : Store)
    (user : User.t) :
  reachable db ->
  get_current_user request db = Some user ->
  (~ In report_id (map QAReport.id (qa_reports db))
   /\ serve (view_report request report_id) db
      = (Py.Raise (Py.HTTPException 404 "Report not found"), db))
  \/ exists report tests_dict,
       In report (qa_reports db)
       /\ QAReport.id report = report_id
       /\ serve (view_report request report_id) db
          = (Py.Ok (ReportPage user report (QAReport.tests (qa_tests db) report)
                      tests_dict), db)
       /\ forall t, In t (QAReport.tests (qa_tests db) report) ->
            exists item, tests_dict !! QATest.test_id t = Some item
                         /\ TestDef.id item = QATest.test_id t.
Proof.
  intros Hreach Huser.
  destruct (reachable_reports_ok db Hreach) as (Hkey & _ & Hall).
  destruct (in_dec Z.eq_dec report_id (map QAReport.id (qa_reports db))) as [Hin|Hout].
  - right. apply in_map_iff in Hin. destruct Hin as (report & <- & Hin).
    destruct (Hall report Hin) as (tests & Hreg & Hrows).
    exists report, (dict_by_id tests).
    split; [exact Hin|]. split; [reflexivity|]. split.
    + unfold view_report. run_session. rewrite Huser. cbn [committed pending].
      rewrite (report_by_id_In db report Hkey Hin), Hreg. reflexivity.
    + intros t Ht. apply dict_by_id_lookup. rewrite <- Hrows. apply in_map, Ht.
  - left. split; [exact Hout|].
    unfold view_report. run_session. rewrite Huser. cbn [committed pending].
    rewrite (report_by_id_None db report_id Hout). reflexivity.
Qed.

(** Report 1 of the sample store. *)
Lemma X12_report_page_witness :
  get_current_user (sample_request []) sample_db = Some sample_admin
  /\ ((~ In 1 (map QAReport.id (qa_reports sample_db))
       /\ serve (view_report (sample_request []) 1) sample_db
          = (Py.Raise (Py.HTTPException 404 "Report not found"), sample_db))
      \/ exists report tests_dict,
           In report (qa_reports sample_db)
           /\ QAReport.id report = 1
           /\ serve (view_report (sample_request []) 1) sample_db
              = (Py.Ok (ReportPage sample_admin report
                          (QAReport.tests (qa_tests sample_db) report) tests_dict),
                 sample_db)
           /\ forall t, In t (QAReport.tests (qa_tests sample_db) report) ->
                exists item, tests_dict !! QATest.test_id t = Some item
                             /\ TestDef.id item = QATest.test_id t).
Proof.
  assert (Huser : get_current_user (sample_request []) sample_db = Some sample_admin)
    by reflexivity.
  split; [exact Huser|].
  exact (X12_report_page (sample_request []) 1 sample_db sample_admin
           sample_db_reachable Huser).
Defined.

Example sample_report_page :
  fst (serve (view_report (sample_request []) 1) sample_db)
  = Py.Ok (ReportPage sample_admin sample_old_report
             (QAReport.tests (qa_tests sample_db) sample_old_report)
             (dict_by_id SASQART_monthly))
  /\ fst (serve (view_report (sample_request []) 99) sample_db)
     = Py.Raise (Py.HTTPException 404 "Report not found").
Proof. split; vm_compute; reflexivity. Qed.

(** ** Units *)

Lemma replaced_unit_first (key : Z) (unit old : Unit.t) (us : list Unit.t) :
  In old us -> Unit.id old = key -> Unit.id unit = key ->
  first (List.filter (fun u => Unit.id u =? key) (map (replace_unit key unit) us))
  = Some unit.
Proof.
  intros Hin Hold Hunit. induction us as [|u us IH]; [destruct Hin|].
  cbn [map List.filter].
  destruct (Z.eq_dec (Unit.id u) key) as [E|E].
  - replace (replace_unit key unit u) with unit
      by (unfold replace_unit; rewrite (proj2 (Z.eqb_eq _ _) E); reflexivity).
    rewrite (proj2 (Z.eqb_eq _ _) Hunit). reflexivity.
  - replace (replace_unit key unit u) with u
      by (unfold replace_unit; rewrite (proj2 (Z.eqb_neq _ _) E); reflexivity).
    rewrite (proj2 (Z.eqb_neq _ _) E).
    apply IH. destruct Hin as [->|Hin]; [contradiction|exact Hin].
Qed.

Lemma inserted_unit_first (unit : Unit.t) (us : list Unit.t) :
  Unit.id unit = next_id (map Unit.id us) ->
  first (List.filter (fun u => Unit.id u =? Unit.id unit) (us ++ [unit])) = Some unit.
Proof.
  intros Hid. rewrite List.filter_app, filter_none.
  - cbn. rewrite Z.eqb_refl. reflexivity.
  - intros u Hu. apply Z.eqb_neq. rewrite Hid. intros E.
    apply (next_id_fresh (map Unit.id us)). rewrite <- E. apply in_map, Hu.
Qed.

Lemma unit_target_Some (form_data : gmap string string) (db : Store) (old : Unit.t) :
  unit_target form_data db = Py.Ok (Some old) -> In old (units db).
Proof.
  unfold unit_target.
  destruct (form_data !! "unit_id") as [i|]; [|discriminate].
  destruct (Py.truthy i && negb (String.eqb i "new")); [|discriminate].
  destruct (Py.int (Some i)) as [key|]; [|discriminate].
  destruct (unit_by_id key db) as [u|] eqn:Eu; [|discriminate].
  intros E. injection E as ->. apply unit_by_id_Some in Eu. tauto.
Qed.

(** X13.  A saved unit can be read back: after the unit form was accepted,
    the unit API returns, under the key of the unit and to any caller, the
    name and the descriptive fields of the form and the three energy lists
    parsed from it. *)
Theorem X13_saved_unit_read_back (request : Request) (db db' : Store) :
  serve (save_unit request) db = (Py.Ok (RedirectResponse "/units"), db') ->
  exists unit_id name,
    form request !! "name" = Some name
    /\ serve (get_unit_api unit_id) db'
       = (Py.Ok (UnitJSON
                   {| UnitDetails.id := unit_id;
                      UnitDetails.name := name;
                      UnitDetails.manufacturer := form request !! "manufacturer";
                      UnitDetails.model := form request !! "model";
                      UnitDetails.serial_number := form request !! "serial_number";
                      UnitDetails.location := form request !! "location";
                      UnitDetails.photon_energies :=
                        parse_energies (form request !! "photon_energies");
                      UnitDetails.electron_energies :=
                        parse_energies (form request !! "electron_energies");
                      UnitDetails.fff_energies :=
                        parse_energies (form request !! "fff_energies") |}), db').
Proof.
  rewrite save_unit_eq.
  destruct (get_current_user request db) as [user|]; [|discriminate].
  destruct (unit_target (form request) db) as [old|e] eqn:Eold; [|discriminate].
  destruct (unit_install_date (form request) old) as [d|e]; [|discriminate].
  destruct (form request !! "name") as [name|]; [|discriminate].
  destruct (name_taken _ name (units db)); [discriminate|].
  cbv zeta. intros E. injection E as <-.
  exists (Unit.id (unit_row (form request) old name d db)), name.
  split; [reflexivity|].
  unfold get_unit_api. run_session. unfold unit_by_id.
  cbn [with_audit_log with_unit units].
  destruct old as [old|].
  - rewrite (replaced_unit_first (Unit.id old) _ old);
      [reflexivity|exact (unit_target_Some _ _ _ Eold)|reflexivity|reflexivity].
  - rewrite inserted_unit_first by reflexivity. reflexivity.
Qed.

(** The unit ["Halcyon"] added to the sample store. *)
Lemma X13_saved_unit_read_back_witness :
  serve (save_unit sample_new_unit) sample_db
  = (Py.Ok (RedirectResponse "/units"), sample_with_unit)
  /\ exists unit_id name,
       form sample_new_unit !! "name" = Some name
       /\ serve (get_unit_api unit_id) sample_with_unit
          = (Py.Ok (UnitJSON
                      {| UnitDetails.id := unit_id;
                         UnitDetails.name := name;
                         UnitDetails.manufacturer := form sample_new_unit !! "manufacturer";
                         UnitDetails.model := form sample_new_unit !! "model";
                         UnitDetails.serial_number :=
                           form sample_new_unit !! "serial_number";
                         UnitDetails.location := form sample_new_unit !! "location";
                         UnitDetails.photon_energies :=
                           parse_energies (form sample_new_unit !! "photon_energies");
                         UnitDetails.electron_energies :=
                           parse_energies (form sample_new_unit !! "electron_energies");
                         UnitDetails.fff_energies :=
                           parse_energies (form sample_new_unit !! "fff_energies") |}),
             sample_with_unit).
Proof.
  assert (Hsave : serve (save_unit sample_new_unit) sample_db
                  = (Py.Ok (RedirectResponse "/units"), sample_with_unit))
    by (vm_compute; reflexivity).
  split; [exact Hsave|].
  exact (X13_saved_unit_read_back sample_new_unit sample_db sample_with_unit Hsave).
Defined.

Example sample_unit_json :
  fst (serve (get_unit_api 3) sample_with_unit)
  = Py.Ok (UnitJSON
             {| UnitDetails.id := 3; UnitDetails.name := "Halcyon";
                UnitDetails.manufacturer := Some "Varian"; UnitDetails.model := None;
                UnitDetails.serial_number := None; UnitDetails.location := None;
                UnitDetails.photon_energies := ["6MV FFF"];
                UnitDetails.electron_energies := []; UnitDetails.fff_energies := [] |})
  /\ fst (serve (get_unit_api 4) sample_with_unit)
     = Py.Raise (Py.HTTPException 404 "Unit not found").
Proof. split; vm_compute; reflexivity. Qed.

(** ** Energy labels *)

Lemma split_comma_no_comma (s w : string) :
  In w (Py.split_comma s) -> has_comma w = false.
Proof.
  revert w. induction s as [|c rest IH]; intros w; cbn [Py.split_comma].
  - intros [<-|[]]. reflexivity.
  - destruct (Ascii.eqb c ",") eqn:Ec.
    + intros [<-|H]; [reflexivity|apply IH, H].
    + destruct (Py.split_comma rest) as [|w0 ws].
      * intros [<-|[]]. cbn. rewrite Ec. reflexivity.
      * intros [<-|H].
        -- cbn. rewrite Ec. apply IH. left. reflexivity.
        -- apply IH. right. exact H.
Qed.

Lemma lstrip_no_comma (sp : ascii -> bool) (s : string) :
  has_comma s = false -> has_comma (Py.lstrip sp s) = false.
Proof.
  induction s as [|c rest IH]; cbn [Py.lstrip]; [auto|].
  intros H. destruct (sp c); [|exact H].
  apply IH. cbn in H. apply orb_false_iff in H. tauto.
Qed.

Lemma rstrip_no_comma (sp : ascii -> bool) (s : string) :
  has_comma s = false -> has_comma (Py.rstrip sp s) = false.
Proof.
  induction s as [|c rest IH]; cbn [Py.rstrip]; [auto|].
  intros H. cbn in H. apply orb_false_iff in H. destruct H as [Hc Hrest].
  specialize (IH Hrest).
  destruct (Py.rstrip sp rest) as [|b r].
  - destruct (sp c); cbn; [reflexivity|]. rewrite Hc. reflexivity.
  - cbn [has_comma]. rewrite Hc. exact IH.
Qed.

Lemma lstrip_first (sp : ascii -> bool) (s : string) (c : ascii) :
  first_char (Py.lstrip sp s) = Some c -> sp c = false.
Proof.
  induction s as [|a rest IH]; cbn [Py.lstrip]; [discriminate|].
  destruct (sp a) eqn:Ea; [exact IH|].
  cbn. intros E. injection E as <-. exact Ea.
Qed.

Lemma rstrip_first (sp : ascii -> bool) (s : string) (c : ascii) :
  first_char (Py.rstrip sp s) = Some c -> first_char s = Some c.
Proof.
  destruct s as [|a rest]; cbn [Py.rstrip]; [discriminate|].
  destruct (Py.rstrip sp rest); [destruct (sp a)|]; cbn; congruence.
Qed.

Lemma rstrip_last (sp : ascii -> bool) (s : string) (c : ascii) :
  last_char (Py.rstrip sp s) = Some c -> sp c = false.
Proof.
  induction s as [|a rest IH]; cbn [Py.rstrip]; [discriminate|].
  destruct (Py.rstrip sp rest) as [|b r].
  - destruct (sp a) eqn:Ea; [discriminate|].
    cbn. intros E. injection E as <-. exact Ea.
  - exact IH.
Qed.

Lemma parse_energies_clean (field : option string) (label : string) :
  In label (parse_energies field) -> clean_label label.
Proof.
  unfold parse_energies. intros H. apply filter_In in H. destruct H as [H Hne].
  apply in_map_iff in H. destruct H as (w & <- & Hw).
  apply split_comma_no_comma in Hw.
  unfold clean_label, Py.strip in *. repeat split.
  - intros E. rewrite E in Hne. discriminate.
  - apply rstrip_no_comma, lstrip_no_comma, Hw.
  - intros c Hc. apply rstrip_first in Hc. exact (lstrip_first _ _ _ Hc).
  - intros c. apply rstrip_last.
Qed.

(** X14.  The energy lists a unit is saved with hold clean labels only:
    whatever the text of the form field, every label of the parsed list is
    not empty, holds no comma and neither starts nor ends with white
    space. *)
Theorem X14_energy_labels_clean (field : option string) (label : string) :
  In label (parse_energies field) -> clean_label label.
Proof. apply parse_energies_clean. Qed.

Lemma X14_energy_labels_clean_witness :
  parse_energies (Some " 6MV, ,10MV FFF ,,") = ["6MV"; "10MV FFF"]
  /\ clean_label "10MV FFF".
Proof.
  split; [reflexivity|].
  apply (X14_energy_labels_clean (Some " 6MV, ,10MV FFF ,,")).
  vm_compute. right. left. reflexivity.
Defined.

Lemma startup_units (db : Store) (P : Unit.t -> Prop) :
  (forall u, In u (units (snd (serve startup empty_store))) -> P u) ->
  (forall u, In u (units db) -> P u) ->
  forall u, In u (units (snd (serve startup db))) -> P u.
Proof.
  intros Hdefault Hold.
  destruct db as [us un qr qt o a].
  destruct un as [|v un].
  - destruct us as [|w us]; exact Hdefault.
  - destruct us as [|w us]; exact Hold.
Qed.

Lemma units_step (today : Py.date) (op : operation) (db : Store) (P : Unit.t -> Prop) :
  (forall u, In u (units (snd (serve startup empty_store))) -> P u) ->
  (forall request old name install_date,
     (forall u, old = Some u -> In u (units db)) ->
     P (unit_row (form request) old name install_date db)) ->
  (forall u, In u (units db) -> P u) ->
  forall u, In u (units (step today op db)) -> P u.
Proof.
  intros Hdefault Hrow Hold.
  destruct op; unfold step.
  - apply startup_units; assumption.
  - rewrite dashboard_store. exact Hold.
  - rewrite qa_form_store. exact Hold.
  - destruct (save_qa_report_store request qa_type db)
      as [->|(report & rows & _ & _ & -> & _)]; exact Hold.
  - rewrite history_page_store. exact Hold.
  - rewrite trends_page_store. exact Hold.
  - rewrite units_page_store. exact Hold.
  - rewrite save_unit_eq.
    destruct (get_current_user request db) as [user|]; [|exact Hold].
    destruct (unit_target (form request) db) as [old|e] eqn:Eold; [|exact Hold].
    destruct (unit_install_date (form request) old) as [d|e]; [|exact Hold].
    destruct (form request !! "name") as [name|]; [|exact Hold].
    destruct (name_taken _ name (units db)); [exact Hold|].
    cbv zeta. cbn [snd with_audit_log with_unit units].
    assert (Hnew : P (unit_row (form request) old name d db)).
    { apply Hrow. intros u ->. exact (unit_target_Some _ _ _ Eold). }
    intros u Hu. destruct old as [old|].
    + apply in_map_iff in Hu. destruct Hu as (v & <- & Hv).
      unfold replace_unit. destruct (Unit.id v =? Unit.id old); auto.
    + apply in_app_or in Hu. destruct Hu as [Hu|[<-|[]]]; auto.
  - destruct (save_output_reading_store request db) as [->|(row & ->)]; exact Hold.
Qed.

Lemma default_units (P : Unit.t -> Prop) :
  (forall u, In u (units (snd (serve startup empty_store))) -> P u)
  <-> P sample_linac
      /\ P sample_truebeam.
Proof.
  split.
  - intros H. split; apply H; vm_compute; auto.
  - intros [H1 H2] u Hu. vm_compute in Hu. destruct Hu as [<-|[<-|[]]]; assumption.
Qed.

(** X15.  In every store the application can reach, the energy labels of
    every unit are clean: the photon energies with the FFF energies, and
    the electron energies, hold no empty label, no comma and no label that
    starts or ends with white space. *)
Theorem X15_unit_energies_clean (db : Store) (unit : Unit.t) :
  reachable db -> In unit (units db) -> unit_labels_clean unit.
Proof.
  intros Hreach. revert unit.
  induction Hreach as [|today op db _ IH]; [intros ? []|].
  apply (units_step today op db unit_labels_clean); [| |exact IH].
  - apply (proj2 (default_units unit_labels_clean)).
    split; intros label Hl; vm_compute in Hl;
      repeat (destruct Hl as [<-|Hl]; [repeat split; try discriminate;
        intros c E; injection E as <-; reflexivity|]); destruct Hl.
  - intros request old name d _ label Hl.
    unfold Unit.all_photon_energies in Hl. cbn in Hl.
    apply in_app_or in Hl. destruct Hl as [Hl|Hl];
      [apply in_app_or in Hl; destruct Hl as [Hl|Hl]|];
      exact (parse_energies_clean _ _ Hl).
Qed.

Lemma X15_unit_energies_clean_witness : unit_labels_clean sample_truebeam.
Proof.
  apply (X15_unit_energies_clean sample_db sample_truebeam sample_db_reachable).
  vm_compute. auto.
Defined.

Lemma all_active (db : Store) :
  reachable db -> forall u, In u (units db) -> Unit.active u = true.
Proof.
  induction 1 as [|today op db _ IH]; [intros ? []|].
  apply units_step; [| |exact IH].
  - apply (proj2 (default_units (fun u => Unit.active u = true))). split; reflexivity.
  - intros request [old|] name d Hold; cbn; [|reflexivity].
    apply IH, Hold. reflexivity.
Qed.

(** X16.  No operation deactivates a unit: in every store the application
    can reach all units are active, so that the unit lists of the dashboard,
    of the forms and of the unit page are the same list. *)
Theorem X16_units_stay_active (db : Store) :
  reachable db -> active_units db = units db.
Proof.
  intros H. unfold active_units. apply filter_all, all_active, H.
Qed.

Lemma X16_units_stay_active_witness : active_units sample_db = units sample_db.
Proof. exact (X16_units_stay_active sample_db sample_db_reachable). Defined.

(** ** The counts of a report *)

Lemma count_split {A : Type} (p q : A -> bool) (l : list A) :
  (forall x, p x && q x = false) ->
  (length (List.filter p l) + length (List.filter q l)
   = length (List.filter (fun x => p x || q x) l))%nat.
Proof.
  intros Hpq. induction l as [|x l IH]; [reflexivity|].
  cbn [List.filter]. specialize (Hpq x).
  destruct (p x), (q x); cbn [orb length] in *; try discriminate; lia.
Qed.

Lemma counts_add_up (all : list QATest.t) (report : QAReport.t) :
  QAReport.pass_count all report + QAReport.fail_count all report
  = QAReport.total_tests all report.
Proof.
  unfold QAReport.pass_count, QAReport.fail_count, QAReport.total_tests.
  rewrite <- Nat2Z.inj_add, count_split; [reflexivity|].
  intros t. destruct (String.eqb_spec (QATest.status t) "pass") as [->|]; reflexivity.
Qed.

(** X17.  The counts of a report add up: in every store the application can
    reach, the passed and the failed items of a report are together its
    counted items, and these are at most the items of the checklist of its
    type; items left open or marked otherwise make the difference. *)
Theorem X17_counts_add_up (db : Store) (report : QAReport.t) :
  reachable db ->
  In report (qa_reports db) ->
  QAReport.pass_count (qa_tests db) report + QAReport.fail_count (qa_tests db) report
  = QAReport.total_tests (qa_tests db) report
  /\ QAReport.total_tests (qa_tests db) report
     <= Z.of_nat (length (checklist_ids (QAReport.qa_type report))).
Proof.
  intros Hreach Hin. split; [apply counts_add_up|].
  destruct (reachable_reports_ok db Hreach) as (_ & _ & Hall).
  destruct (Hall report Hin) as (tests & Hreg & Hrows).
  unfold checklist_ids. rewrite Hreg.
  change (default [] (Some tests)) with tests.
  rewrite <- Hrows, !length_map. unfold QAReport.total_tests.
  apply Nat2Z.inj_le, List.filter_length_le.
Qed.

(** The monthly report of 26 July 2026, saved with no status at all. *)
Lemma X17_counts_add_up_witness :
  In sample_old_report (qa_reports sample_db)
  /\ QAReport.pass_count (qa_tests sample_db) sample_old_report
     + QAReport.fail_count (qa_tests sample_db) sample_old_report
     = QAReport.total_tests (qa_tests sample_db) sample_old_report
  /\ QAReport.total_tests (qa_tests sample_db) sample_old_report
     <= Z.of_nat (length (checklist_ids "monthly")).
Proof.
  assert (Hin : In sample_old_report (qa_reports sample_db))
    by (vm_compute; auto).
  split; [exact Hin|].
  exact (X17_counts_add_up sample_db sample_old_report sample_db_reachable Hin).
Defined.

(** ** Sessions and roles *)

Lemma first_filter_In {A : Type} (f : A -> bool) (l : list A) (x : A) :
  first (List.filter f l) = Some x -> In x l /\ f x = true.
Proof.
  unfold first. intros H. apply filter_In.
  destruct (List.filter f l); [discriminate|].
  injection H as ->. left. reflexivity.
Qed.

(** X18.  The user of a request is an account of the store, with the key
    the session names, and active; and a session whose accounts are all
    deactivated is no user at all. *)
Theorem X18_current_user (request : Request) (db : Store) :
  (forall user,
     get_current_user request db = Some user ->
     In user (users db)
     /\ session_user_id request = Some (User.id user)
     /\ User.active user = true)
  /\ ((forall u, In u (users db) -> session_user_id request = Some (User.id u) ->
                 User.active u = false) ->
      get_current_user request db = None).
Proof.
  unfold get_current_user. split.
  - intros user.
    destruct (session_user_id request) as [i|]; [|discriminate].
    destruct (first _) as [u|] eqn:Eu; [|discriminate].
    destruct (User.active u) eqn:Ea; [|discriminate].
    intros E. injection E as <-.
    apply first_filter_In in Eu. destruct Eu as [Hin Hid].
    apply Z.eqb_eq in Hid. subst i. auto.
  - intros Hoff.
    destruct (session_user_id request) as [i|]; [|reflexivity].
    destruct (first _) as [u|] eqn:Eu; [|reflexivity].
    apply first_filter_In in Eu. destruct Eu as [Hin Hid].
    apply Z.eqb_eq in Hid. subst i.
    rewrite (Hoff u Hin eq_refl). reflexivity.
Qed.

Lemma X18_current_user_witness :
  get_current_user (sample_request []) sample_db = Some sample_admin
  /\ In sample_admin (users sample_db)
  /\ session_user_id (sample_request []) = Some (User.id sample_admin)
  /\ User.active sample_admin = true.
Proof.
  assert (Huser : get_current_user (sample_request []) sample_db = Some sample_admin)
    by reflexivity.
  split; [exact Huser|].
  exact (proj1 (X18_current_user (sample_request []) sample_db) sample_admin Huser).
Defined.

(** X19.  The user page is served to the requests [require_admin] admits
    and to no other: an active administrator gets the list of all accounts,
    and every request [require_admin] rejects is sent to the dashboard.
    Neither changes the store. *)
Theorem X19_users_page_admin_only (request : Request) (db : Store) :
  (exists user,
     get_current_user request db = Some user
     /\ User.role user = "admin"
     /\ serve (require_admin request) db = (Py.Ok user, db)
     /\ serve (users_page request) db = (Py.Ok (UsersPage user (users db)), db))
  \/ ((serve (require_admin request) db = (Py.Raise (Py.HTTPException 303 "See Other"), db)
       \/ serve (require_admin request) db
          = (Py.Raise (Py.HTTPException 403 "Admin access required"), db))
      /\ serve (users_page request) db = (Py.Ok (Plain (RedirectResponse "/")), db)).
Proof.
  unfold require_admin, require_auth, users_page. run_session.
  destruct (get_current_user request db) as [user|]; [|right; auto].
  destruct (String.eqb_spec (User.role user) "admin") as [E|E]; cbn.
  - left. exists user. auto.
  - right. auto.
Qed.
